(** * Etsy dashboard API: fee calculator and account service

    A shallow embedding of [app/routers/fees.py], [app/routers/auth.py],
    [app/config.py], [app/database/supabase_client.py] and [app/main.py].

    Python [float]s are IEEE-754 binary64 numbers: they are modelled by the
    Standard Library's executable [spec_float] at precision 53 and maximal
    exponent 1024, so every intermediate rounding of the calculator is the
    one the interpreter performs.

    A Python [str] is modelled by the bytes of its UTF-8 encoding. The
    libraries the service calls (passlib, PyJWT, supabase, pydantic) are
    primitives of a [Platform]; each call that can raise returns a
    [result]. *)

From Stdlib Require Import ZArith Lia Bool List String Ascii.
From Stdlib Require Import Floats.SpecFloat.
Import ListNotations.

Local Open Scope Z_scope.

(** ** Exceptions and results *)

(** [RequestValidationError] carries, for each field that fails its
    constraint, the name of the field and the value received, which the
    error body echoes. [InvalidTokenError] stands for the classes below
    [jwt.InvalidTokenError] that have no constructor of their own, and
    [LibraryError] for any other exception class of a library. *)
Inductive exn : Type :=
| ZeroDivisionError
| OverflowError
| ValueError (msg : string)
| KeyError (key : string)
| RequestValidationError (errors : list (string * spec_float))
| APIError
| DecodeError
| InvalidAlgorithmError
| InvalidSignatureError
| ExpiredSignatureError
| InvalidTokenError (cls msg : string)
| LibraryError (cls msg : string)
| HTTPException (status_code : Z) (detail : string).

(** [str(e)] *)
Definition exn_str (e : exn) : string :=
  match e with
  | ZeroDivisionError => "float division by zero"
  | OverflowError => "rounded value too large to represent"
  | ValueError msg => msg
  | KeyError key => String.append "'" (String.append key "'")
  | RequestValidationError errors => String.concat ", " (map fst errors)
  | APIError => "APIError"
  | DecodeError => "Not enough segments"
  | InvalidAlgorithmError => "The specified alg value is not allowed"
  | InvalidSignatureError => "Signature verification failed"
  | ExpiredSignatureError => "Signature has expired"
  | InvalidTokenError _ msg => msg
  | LibraryError _ msg => msg
  | HTTPException _ detail => detail
  end.

(** The classes of PyJWT below [jwt.InvalidTokenError]. *)
Definition is_InvalidTokenError (e : exn) : bool :=
  match e with
  | DecodeError | InvalidAlgorithmError | InvalidSignatureError
  | ExpiredSignatureError | InvalidTokenError _ _ => true
  | _ => false
  end.

Inductive result (A : Type) : Type :=
| Ok (a : A)
| Raise (e : exn).

Arguments Ok {A} a.
Arguments Raise {A} e.

Definition bind_result {A B : Type} (r : result A) (k : A -> result B) : result B :=
  match r with
  | Ok a => k a
  | Raise e => Raise e
  end.

Declare Scope result_scope.
Delimit Scope result_scope with result.
Notation "x <- r ;; k" := (bind_result r (fun x => k))
  (at level 61, r at next level, right associativity) : result_scope.

(** Whether [json.dumps(x, allow_nan=False)], which renders every response
    body, accepts the float [x]: it refuses NaN and the infinities. *)
Definition json_number (x : spec_float) : bool :=
  match x with
  | S754_zero _ | S754_finite _ _ _ => true
  | S754_infinity _ | S754_nan => false
  end.

(** The status the HTTP layer answers with when a handler raises, and
    [success] when it returns a response that holds no float. An
    [HTTPException] carries its own status. A request that fails
    validation is answered 422 with a body that echoes the rejected
    values; when one of them is not a JSON number the body cannot be
    rendered and the answer is a 500. Anything else is rendered by the
    catch-all handler of [app/main.py] as a 500. *)
Definition http_status {A : Type} (success : Z) (r : result A) : Z :=
  match r with
  | Ok _ => success
  | Raise (HTTPException code _) => code
  | Raise (RequestValidationError errors) =>
      if forallb (fun e => json_number (snd e)) errors then 422 else 500
  | Raise _ => 500
  end.

(** ** Python floats *)

Module PyFloat.

Definition prec : Z := 53.
Definition emax : Z := 1024.

Definition float : Type := spec_float.

Definition well_formed (x : float) : bool := valid_binary prec emax x.

Definition mul : float -> float -> float := SFmul prec emax.
Definition add : float -> float -> float := SFadd prec emax.
Definition sub : float -> float -> float := SFsub prec emax.

Definition zero : float := S754_zero false.

Definition is_zero (x : float) : bool :=
  match x with
  | S754_zero _ => true
  | _ => false
  end.

(** [a / b] on floats raises [ZeroDivisionError] for a zero divisor of
    either sign, and is the IEEE division otherwise. *)
Definition truediv (a b : float) : result float :=
  if is_zero b then Raise ZeroDivisionError else Ok (SFdiv prec emax a b).

(** The comparisons; all are false when an operand is a NaN. *)
Definition gt (a b : float) : bool := SFltb b a.
Definition ge (a b : float) : bool := SFleb b a.
Definition lt (a b : float) : bool := SFltb a b.
Definition le (a b : float) : bool := SFleb a b.

(** The double nearest to [num / den] (ties to even), with sign [s]:
    how a decimal literal or a decimal string is read. *)
Definition of_ratio (s : bool) (num : Z) (den : positive) : float :=
  match num with
  | Zpos n => SFdiv prec emax (S754_finite s n 0) (S754_finite false den 0)
  | _ => S754_zero s
  end.

(** A decimal literal [n / 10^k], e.g. [decimal 65 3] for [0.065]. *)
Definition decimal (n : Z) (k : Z) : float :=
  of_ratio (n <? 0) (Z.abs n) (Z.to_pos (10 ^ k)).

(** An [int] operand of a float operation: [0] and [100] here, which are
    doubles exactly. *)
Definition of_int (n : Z) : float := decimal n 0.

(** The integer nearest to [num / den], ties to the even one
    ([0 <= num], [0 < den]). *)
Definition rne_div (num den : Z) : Z :=
  let q := num / den in
  match 2 * (num mod den) ?= den with
  | Lt => q
  | Gt => q + 1
  | Eq => if Z.even q then q else q + 1
  end.

(** The integer nearest to [m * 2^e * 10^ndigits], ties to even: the
    digits of the correctly rounded decimal string with [ndigits] places. *)
Definition scaled_digits (ndigits : Z) (m : positive) (e : Z) : Z :=
  if 0 <=? e then Zpos m * 10 ^ ndigits * 2 ^ e
  else rne_div (Zpos m * 10 ^ ndigits) (2 ^ (- e)).

(** [round(x, ndigits)] for [0 <= ndigits]: NaNs, infinities and zeros
    round to themselves; a finite [x] is converted to the correctly
    rounded decimal string with [ndigits] places, which is read back as
    the nearest double; a string too large for a double raises
    [OverflowError]. *)
Definition round (x : float) (ndigits : Z) : result float :=
  match x with
  | S754_finite s m e =>
      match of_ratio s (scaled_digits ndigits m e) (Z.to_pos (10 ^ ndigits)) with
      | S754_infinity _ => Raise OverflowError
      | r => Ok r
      end
  | _ => Ok x
  end.

End PyFloat.

(** ** Doubles as integers: the notions the proofs about floats use *)

Module Binary64.
Import PyFloat.

Definition fexp64 (X : Z) : Z := Z.max (X - 53) (-1074).

(** What a location says about a remainder [rho] of a division by [den]. *)
Definition loc_ok (l : location) (rho den : Z) : Prop :=
  match l with
  | loc_Exact => rho = 0
  | loc_Inexact Lt => 0 < rho /\ 2 * rho < den
  | loc_Inexact Eq => 0 < rho /\ 2 * rho = den
  | loc_Inexact Gt => den < 2 * rho
  end.

(** A shift record stands for the nonnegative fraction [N / D]: its
    mantissa is the quotient and its two bits locate the remainder. *)
Definition represents (mrs : shr_record) (N D : Z) : Prop :=
  0 <= N /\ 0 < D /\ shr_m mrs = N / D
  /\ loc_ok (loc_of_shr_record mrs) (N mod D) D.

(** The mantissa and exponent [binary_round_aux] arrives at, before it
    chooses between zero, a finite number and an infinity. *)
Definition round_core (mx ex : Z) (lx : location) : Z * Z :=
  let '(mrs', e') := shr_fexp prec emax mx ex lx in
  let '(mrs'', e'') :=
    shr_fexp prec emax
      (round_nearest_even (shr_m mrs') (loc_of_shr_record mrs')) e' loc_Exact in
  (shr_m mrs'', e'').

(** The binary scale of [ticks]: [2 ^ - scale] lies below every exponent
    the operations work at. *)
Definition scale : Z := 2200.

(** The value of a double in units of [2 ^ - scale]; infinities and NaNs
    count as 0. *)
Definition ticks (x : float) : Z :=
  match x with
  | S754_finite s m e => cond_Zopp s (Zpos m * 2 ^ (e + scale))
  | _ => 0
  end.

Definition is_finite (x : float) : bool :=
  match x with
  | S754_finite _ _ _ | S754_zero _ => true
  | _ => false
  end.

(** The sign bit of a double that has one. *)
Definition sign_of (x : float) : bool :=
  match x with
  | S754_finite s _ _ | S754_zero s | S754_infinity s => s
  | S754_nan => false
  end.

(** The whole number of cents nearest to a double (ties to even): the
    digits [round(x, 2)] keeps. *)
Definition cents (x : float) : Z :=
  match x with
  | S754_finite s m e => cond_Zopp s (scaled_digits 2 m e)
  | _ => 0
  end.

(** [approx r z k]: the finite double [r] is the amount of [z] cents, up
    to [k] units of [2 ^ -18] ticks (half a unit in the last place of a
    double below [2 ^ 34], times 100, is 50 of them). *)
Definition approx (r : float) (z k : Z) : Prop :=
  valid_binary prec emax r = true /\
  is_finite r = true /\
  - (k * 2 ^ (-18 + scale)) <= 2 * (100 * ticks r - z * 2 ^ scale) <= k * 2 ^ (-18 + scale).

End Binary64.

(** ** The fee calculator ([app/routers/fees.py]) *)

Module Fees.
Import PyFloat.
Local Open Scope result_scope.

Record FeeCalculationRequest : Type := {
  sale_price : float;
  production_cost : float;
  shipping_cost : float;
  offsite_ads : bool
}.

Record FeeBreakdown : Type := {
  transaction_fee : float;
  listing_fee : float;
  payment_processing : float;
  offsite_ads_fee : float;
  total_fees : float
}.

Record FeeCalculationResponse : Type := {
  fees : FeeBreakdown;
  net_revenue : float;
  total_costs : float;
  profit : float;
  profit_margin : float
}.

Definition calculate_etsy_fees
    (sale_price production_cost shipping_cost : float) (offsite_ads : bool)
  : result FeeCalculationResponse :=
  transaction_fee <- round (mul sale_price (decimal 65 3)) 2 ;;
  let listing_fee := decimal 20 2 in
  payment_processing <- round (add (mul sale_price (decimal 3 2)) (decimal 25 2)) 2 ;;
  offsite_ads_fee <-
    (if offsite_ads then round (mul sale_price (decimal 15 2)) 2 else Ok zero) ;;
  total_fees <-
    round (add (add (add transaction_fee listing_fee) payment_processing)
               offsite_ads_fee) 2 ;;
  net_revenue <- round (sub sale_price total_fees) 2 ;;
  total_costs <- round (add production_cost shipping_cost) 2 ;;
  profit <- round (sub net_revenue total_costs) 2 ;;
  profit_margin <-
    (if gt sale_price (of_int 0)
     then (q <- truediv profit sale_price ;; round (mul q (of_int 100)) 1)
     else Ok zero) ;;
  Ok {| fees := {| transaction_fee := transaction_fee;
                   listing_fee := listing_fee;
                   payment_processing := payment_processing;
                   offsite_ads_fee := offsite_ads_fee;
                   total_fees := total_fees |};
        net_revenue := net_revenue;
        total_costs := total_costs;
        profit := profit;
        profit_margin := profit_margin |}.

(** The constraints of the request schema: [gt=0] on [sale_price],
    [ge=0] on the two costs. Every field that fails its constraint is
    reported, with the value received; a NaN fails both constraints. *)
Definition validation_errors (body : FeeCalculationRequest) : list (string * float) :=
  (if gt (sale_price body) (of_int 0) then []
   else [("sale_price"%string, sale_price body)])
  ++ (if ge (production_cost body) (of_int 0) then []
      else [("production_cost"%string, production_cost body)])
  ++ (if ge (shipping_cost body) (of_int 0) then []
      else [("shipping_cost"%string, shipping_cost body)]).

Definition validate (body : FeeCalculationRequest) : result FeeCalculationRequest :=
  match validation_errors body with
  | [] => Ok body
  | errors => Raise (RequestValidationError errors)
  end.

(** The handler: any exception of the computation becomes a 500. *)
Definition calculate_fees (request : FeeCalculationRequest)
  : result FeeCalculationResponse :=
  match calculate_etsy_fees (sale_price request) (production_cost request)
          (shipping_cost request) (offsite_ads request) with
  | Ok result => Ok result
  | Raise e => Raise (HTTPException 500 ("Error calculating fees: " ++ exn_str e))
  end.

(** [POST /calculate-fees]: the body is validated against the schema before
    the handler runs. *)
Definition post_calculate_fees (body : FeeCalculationRequest)
  : result FeeCalculationResponse :=
  request <- validate body ;; calculate_fees request.

End Fees.



(** ** The interpreter and the libraries *)

Module Python.

(** *** JSON values and token payloads *)

(** A JSON value as a token payload can hold it: a string, an integer, or
    anything else (a float, [null], a list, an object), kept as its text. *)
Inductive json : Type :=
| JStr (s : string)
| JInt (n : Z)
| JOther (raw : string).

(** The payload of a token is a JSON object: a dict, read by key. *)
Definition jwt_payload : Type := list (string * json).

(** [payload.get(name)] *)
Fixpoint claim (name : string) (payload : jwt_payload) : option json :=
  match payload with
  | [] => None
  | (key, v) :: rest => if String.eqb key name then Some v else claim name rest
  end.

(** [v == s] for a JSON value [v] and a [str] [s]. *)
Definition json_is_str (v : json) (s : string) : bool :=
  match v with
  | JStr t => String.eqb t s
  | _ => false
  end.

(** *** Strings *)

Definition is_ascii_char (c : ascii) : bool := (nat_of_ascii c <? 128)%nat.

(** Whether every character of the string is an ASCII character. *)
Fixpoint is_ascii (s : string) : bool :=
  match s with
  | EmptyString => true
  | String c rest => is_ascii_char c && is_ascii rest
  end.

Definition lower_ascii (c : ascii) : ascii :=
  let n := nat_of_ascii c in
  if ((65 <=? n) && (n <=? 90))%nat then ascii_of_nat (n + 32) else c.

(** The letters A to Z in lower case, every other byte as it is. *)
Fixpoint ascii_lower (s : string) : string :=
  match s with
  | EmptyString => EmptyString
  | String c rest => String (lower_ascii c) (ascii_lower rest)
  end.

(** Whether a string contains the character NUL. *)
Fixpoint has_nul (s : string) : bool :=
  match s with
  | EmptyString => false
  | String c rest => (nat_of_ascii c =? 0)%nat || has_nul rest
  end.

(** *** The primitives *)

(** What the interpreter and the libraries compute, where the service
    only calls them:
    - [unicode_lower] is [str.lower] on a string that has characters
      outside ASCII;
    - [pydantic_int], [pydantic_bool] and [pydantic_str_list] are
      pydantic's reading of an environment string as an [int], a [bool] or
      a [List[str]], for the strings that are not the plain literals read
      in [Config]; [None] is a validation error;
    - [pwd_hash salt password] and [pwd_verify password hash] are passlib's
      [pwd_context.hash] and [pwd_context.verify], which raise on a
      password or a hash they refuse;
    - [jwt_sign key alg payload] is the signature [jwt.encode] computes,
      or the exception it raises for an algorithm it does not know or a
      key it refuses; [jwt_verify key alg payload signature] is PyJWT's
      check of a signature under an algorithm that is not an HMAC;
      [jwt_validate_claim name value now] is PyJWT's validation of one
      registered claim of a payload at time [now];
    - [create_client url key] is supabase's [create_client], which raises
      on a URL or a key it refuses;
    - [sha256_hex], [entropy] (the random strings drawn, in order),
      [store_id] (the ids the store assigns) and [isoformat]. *)
Class Platform : Type := {
  unicode_lower : string -> string;
  pydantic_int : string -> option Z;
  pydantic_bool : string -> option bool;
  pydantic_str_list : string -> option (list string);
  pwd_hash : string -> string -> result string;
  pwd_verify : string -> string -> result bool;
  jwt_sign : string -> string -> jwt_payload -> result string;
  jwt_verify : string -> string -> jwt_payload -> string -> result bool;
  jwt_validate_claim : string -> json -> Z -> result unit;
  create_client : string -> string -> result unit;
  sha256_hex : string -> string;
  entropy : nat -> string;
  store_id : nat -> string;
  isoformat : Z -> string
}.

(** [str.lower]: on a string of ASCII characters it puts the letters A to
    Z in lower case; on any other string it is the Unicode mapping. *)
Definition lower `{Platform} (s : string) : string :=
  if is_ascii s then ascii_lower s else unicode_lower s.

End Python.

(** ** Settings ([app/config.py]) *)

Module Config.
Import Python.
Local Open Scope string_scope.

Record Settings : Type := {
  ENVIRONMENT : string;
  DEBUG : bool;
  API_SECRET_KEY : string;
  API_KEY : string;
  JWT_SECRET : string;
  JWT_ALGORITHM : string;
  JWT_EXPIRATION_HOURS : Z;
  SUPABASE_URL : string;
  SUPABASE_KEY : string;
  SUPABASE_SERVICE_ROLE_KEY : string;
  ALLOWED_ORIGINS : list string;
  RATE_LIMIT_PER_MINUTE : Z;
  STRIPE_SECRET_KEY : string;
  STRIPE_WEBHOOK_SECRET : string;
  ANTHROPIC_API_KEY : string
}.

(** The names of the fields of [Settings]. *)
Definition field_names : list string :=
  ["ENVIRONMENT"; "DEBUG"; "API_SECRET_KEY"; "API_KEY"; "JWT_SECRET";
   "JWT_ALGORITHM"; "JWT_EXPIRATION_HOURS"; "SUPABASE_URL"; "SUPABASE_KEY";
   "SUPABASE_SERVICE_ROLE_KEY"; "ALLOWED_ORIGINS"; "RATE_LIMIT_PER_MINUTE";
   "STRIPE_SECRET_KEY"; "STRIPE_WEBHOOK_SECRET"; "ANTHROPIC_API_KEY"].

(** [load_dotenv()]: the variables of the [.env] file are added to the
    process environment, where the environment does not set them. *)
Definition load_dotenv (os_environ : string -> option string)
    (dotenv : list (string * string)) (name : string) : option string :=
  match os_environ name with
  | Some v => Some v
  | None => option_map snd (find (fun kv => String.eqb (fst kv) name) dotenv)
  end.

(** [os.getenv(name, default)] *)
Definition getenv (environ : string -> option string) (name default : string) : string :=
  match environ name with
  | Some v => v
  | None => default
  end.

(** *** Reading a variable as an [int] or a [bool] *)

Definition digit_of (c : ascii) : option Z :=
  let n := nat_of_ascii c in
  if ((48 <=? n) && (n <=? 57))%nat then Some (Z.of_nat (n - 48)) else None.

Fixpoint digits_value (s : string) (acc : Z) : option Z :=
  match s with
  | EmptyString => Some acc
  | String c rest =>
      match digit_of c with
      | Some d => digits_value rest (10 * acc + d)
      | None => None
      end
  end.

(** A plain decimal literal of at most 18 characters: digits, after an
    optional minus sign. *)
Definition decimal_literal (s : string) : option Z :=
  if (18 <? String.length s)%nat then None
  else
    match s with
    | EmptyString => None
    | String "-" EmptyString => None
    | String "-" rest => option_map Z.opp (digits_value rest 0)
    | _ => digits_value s 0
    end.

(** The value of an [int] field set from the environment. *)
Definition settings_int `{Platform} (v : string) : option Z :=
  match decimal_literal v with
  | Some n => Some n
  | None => pydantic_int v
  end.

(** The value of a [bool] field set from the environment: pydantic reads
    these words, in any letter case, as [True] and as [False]. *)
Definition settings_bool `{Platform} (v : string) : option bool :=
  if existsb (String.eqb (ascii_lower v)) ["1"; "on"; "t"; "true"; "y"; "yes"]
  then Some true
  else if existsb (String.eqb (ascii_lower v)) ["0"; "off"; "f"; "false"; "n"; "no"]
  then Some false
  else pydantic_bool v.

Definition default_origins : list string :=
  ["http://localhost:8501"; "https://etsydashboard.streamlit.app";
   "https://etsydashboard.com"].

(** *** [Settings()] *)

(** The class is a pydantic [BaseSettings]: every field is read from the
    variable of its name (the names are case sensitive) and validated
    against its type, and takes the default written in the class when the
    variable is not set. For the fields whose default is itself an
    [os.getenv], the two readings agree, except for [DEBUG]: its default
    compares the variable with "true", but a variable that is set is read
    by pydantic. A variable of the [.env] file that names no field, or a
    value that does not validate, is a [ValidationError].

    [os_environ] is the process environment when the module is imported
    and [dotenv] the variables of the [.env] file. *)
Definition load_settings `{Platform} (os_environ : string -> option string)
    (dotenv : list (string * string)) : result Settings :=
  let environ := load_dotenv os_environ dotenv in
  let invalid := LibraryError "ValidationError" "validation error for Settings" in
  if existsb (fun kv => negb (existsb (String.eqb (fst kv)) field_names)) dotenv then
    Raise invalid
  else
    match
      match environ "DEBUG" with
      | Some v => settings_bool v
      | None => Some (String.eqb (lower (getenv environ "DEBUG" "true")) "true")
      end,
      match environ "JWT_EXPIRATION_HOURS" with
      | Some v => settings_int v
      | None => Some 24
      end,
      match environ "ALLOWED_ORIGINS" with
      | Some v => pydantic_str_list v
      | None => Some default_origins
      end,
      match environ "RATE_LIMIT_PER_MINUTE" with
      | Some v => settings_int v
      | None => Some 100
      end
    with
    | Some debug, Some hours, Some origins, Some rate =>
        Ok {| ENVIRONMENT := getenv environ "ENVIRONMENT" "development";
              DEBUG := debug;
              API_SECRET_KEY :=
                getenv environ "API_SECRET_KEY" "dev-secret-key-change-in-prod";
              API_KEY := getenv environ "API_KEY" "dev-api-key";
              JWT_SECRET := getenv environ "JWT_SECRET" "your-secret-key-change-in-prod";
              JWT_ALGORITHM := getenv environ "JWT_ALGORITHM" "HS256";
              JWT_EXPIRATION_HOURS := hours;
              SUPABASE_URL := getenv environ "SUPABASE_URL" "";
              SUPABASE_KEY := getenv environ "SUPABASE_KEY" "";
              SUPABASE_SERVICE_ROLE_KEY := getenv environ "SUPABASE_SERVICE_ROLE_KEY" "";
              ALLOWED_ORIGINS := origins;
              RATE_LIMIT_PER_MINUTE := rate;
              STRIPE_SECRET_KEY := getenv environ "STRIPE_SECRET_KEY" "";
              STRIPE_WEBHOOK_SECRET := getenv environ "STRIPE_WEBHOOK_SECRET" "";
              ANTHROPIC_API_KEY := getenv environ "ANTHROPIC_API_KEY" "" |}
    | _, _, _, _ => Raise invalid
    end.

(** The module-level [settings]: the record [Settings()] returned when
    the application was imported. *)
Class Deployment : Type := {
  settings : Settings
}.

(** The settings [validate_settings] requires, with their values. *)
Definition critical_settings (settings : Settings) : list (string * string) :=
  [("SUPABASE_URL", SUPABASE_URL settings); ("SUPABASE_KEY", SUPABASE_KEY settings)].

(** [validate_settings()], run when the module is loaded: the critical
    settings that are empty are an error in production and a warning on
    standard output in debug mode. The result is the lines printed. *)
Definition validate_settings (settings : Settings) : result (list string) :=
  let missing :=
    map fst (filter (fun nv => String.eqb (snd nv) "") (critical_settings settings)) in
  let some_missing := match missing with [] => false | _ :: _ => true end in
  if some_missing && String.eqb (ENVIRONMENT settings) "production" then
    Raise (ValueError (String.append "Missing critical settings in production: "
                         (String.concat ", " missing)))
  else if some_missing && DEBUG settings then
    Ok [String.append "⚠️  Warning: Missing settings (OK in dev): "
          (String.concat ", " missing)]
  else Ok [].

End Config.

(** ** The account service ([app/routers/auth.py]) *)

Module Auth.
Import Python Config.

(** *** Tokens *)

(** A token string as the JWT library sees it: either it does not split
    into three segments that decode to a header and a JSON object, or it
    carries an algorithm name, a payload and a signature. *)
Inductive jwt : Type :=
| Garbage (raw : string)
| Signed (alg : string) (payload : jwt_payload) (signature : string).

(** [payload['user_id']], when the payload has the key. *)
Definition claim_user_id (payload : jwt_payload) : option json :=
  claim "user_id" payload.

Definition claim_email (payload : jwt_payload) : option json :=
  claim "email" payload.

Definition claim_exp (payload : jwt_payload) : option json :=
  claim "exp" payload.

(** The payload [create_access_token] signs. *)
Definition token_payload (user_id email : string) (exp : Z) : jwt_payload :=
  [("user_id"%string, JStr user_id); ("email"%string, JStr email);
   ("exp"%string, JInt exp)].

(** *** Rows of the persistence store *)

Record customer : Type := {
  c_id : string;
  c_email : string;
  c_password_hash : string;
  c_shop_name : option string;
  c_access_key : string;
  c_data_consent : bool;
  c_consent_updated_at : string;
  c_signup_date : string;
  c_usage_count : Z;
  c_usage_reset_date : string;
  c_is_premium : bool;
  c_is_email_verified : bool;
  c_last_login : option string
}.

Record customer_product : Type := {
  cp_customer_id : string;
  cp_product_id : string
}.

Inductive store_op : Type := OpSelect | OpInsert | OpUpdate.

(** The state a request runs in: the two tables, the clock
    ([datetime.utcnow()], in seconds since the epoch), the module-level
    client singleton, the requests the store currently fails with an
    exception, whether it drops inserts without saying so, and how many
    random strings have been drawn. *)
Record world : Type := {
  customers : list customer;
  customer_products : list customer_product;
  clock : Z;
  supabase_client : bool;
  outage : store_op -> bool;
  insert_dropped : bool;
  draws : nat
}.

(** *** Requests and responses *)

(** [email] is the address as the schema's [EmailStr] hands it to the
    handler. *)
Record UserRegister : Type := {
  reg_email : string;
  reg_password : string;
  reg_name : option string
}.

Record UserLogin : Type := {
  login_email : string;
  login_password : string
}.

Record UserResponse : Type := {
  user_id : string;
  email : string;
  name : option string;
  is_premium : bool;
  access_token : jwt
}.

Record UserInfo : Type := {
  info_user_id : string;
  info_email : string;
  info_name : option string;
  info_is_premium : bool;
  analyses_this_week : Z;
  analyses_limit : Z;
  created_at : string
}.

(** *** A state and exception monad for the handlers *)

Definition M (A : Type) : Type := world -> result A * world.

Definition ret {A : Type} (a : A) : M A := fun w => (Ok a, w).

Definition raise {A : Type} (e : exn) : M A := fun w => (Raise e, w).

(** A library call that returns or raises and leaves the state alone. *)
Definition lift {A : Type} (r : result A) : M A := fun w => (r, w).

Definition bind {A B : Type} (m : M A) (k : A -> M B) : M B :=
  fun w =>
    match m w with
    | (Ok a, w') => k a w'
    | (Raise e, w') => (Raise e, w')
    end.

(** [try: m except: h] with a bare [except]. *)
Definition try_except {A : Type} (m : M A) (h : exn -> M A) : M A :=
  fun w =>
    match m w with
    | (Ok a, w') => (Ok a, w')
    | (Raise e, w') => h e w'
    end.

Declare Scope handler_scope.
Delimit Scope handler_scope with handler.
Notation "x <- m ;; k" := (bind m (fun x => k))
  (at level 61, m at next level, right associativity) : handler_scope.
Notation "m ;;; k" := (bind m (fun _ => k))
  (at level 61, right associativity) : handler_scope.

Section Service.
Context `{Platform} `{Deployment}.
Local Open Scope handler_scope.

Definition utcnow : M Z := fun w => (Ok (clock w), w).

Definition draw : M string :=
  fun w =>
    (Ok (entropy (draws w)),
     {| customers := customers w;
        customer_products := customer_products w;
        clock := clock w;
        supabase_client := supabase_client w;
        outage := outage w;
        insert_dropped := insert_dropped w;
        draws := S (draws w) |}).

(** *** The persistence client ([app/database/supabase_client.py]) *)

(** Whether the two settings the client is made from are both set. *)
Definition credentials_configured : bool :=
  negb (String.eqb (SUPABASE_URL settings) ""
        || String.eqb (SUPABASE_SERVICE_ROLE_KEY settings) "").

(** Whether [get_supabase_client] can hand out a client: there is one
    already, or the settings are set and [create_client] accepts them. *)
Definition client_ready (w : world) : bool :=
  supabase_client w
  || (credentials_configured
      && match create_client (SUPABASE_URL settings)
                 (SUPABASE_SERVICE_ROLE_KEY settings) with
         | Ok _ => true
         | Raise _ => false
         end).

(** The world after [get_supabase_client] has created the singleton. *)
Definition connected (w : world) : world :=
  {| customers := customers w;
     customer_products := customer_products w;
     clock := clock w;
     supabase_client := true;
     outage := outage w;
     insert_dropped := insert_dropped w;
     draws := draws w |}.

Definition get_supabase_client : M unit :=
  fun w =>
    if supabase_client w then (Ok tt, w)
    else if negb credentials_configured then
      (Raise (ValueError "Supabase credentials not configured. Set SUPABASE_URL and SUPABASE_SERVICE_ROLE_KEY environment variables."), w)
    else
      match create_client (SUPABASE_URL settings) (SUPABASE_SERVICE_ROLE_KEY settings) with
      | Ok _ => (Ok tt, connected w)
      | Raise e => (Raise e, w)
      end.

(** [table('customers').select(..).eq('email', v).execute().data] *)
Definition select_customers_by_email (v : string) : M (list customer) :=
  fun w =>
    if outage w OpSelect then (Raise APIError, w)
    else (Ok (filter (fun c => String.eqb (c_email c) v) (customers w)), w).

(** [table('customers').select('*').eq('id', v).execute().data] *)
Definition select_customers_by_id (v : string) : M (list customer) :=
  fun w =>
    if outage w OpSelect then (Raise APIError, w)
    else (Ok (filter (fun c => String.eqb (c_id c) v) (customers w)), w).

(** [table('customer_products').select('product_id').eq('customer_id', v)
    .execute().data] *)
Definition select_products_by_customer (v : string) : M (list string) :=
  fun w =>
    if outage w OpSelect then (Raise APIError, w)
    else (Ok (map cp_product_id
                (filter (fun p => String.eqb (cp_customer_id p) v)
                   (customer_products w))), w).

(** [table('customers').insert(row).execute().data]: the store assigns the
    id and answers with the created row, or with nothing when it dropped
    the write. *)
Definition insert_customer (row : string -> customer) : M (list customer) :=
  fun w =>
    if outage w OpInsert then (Raise APIError, w)
    else if insert_dropped w then (Ok [], w)
    else
      let created := row (store_id (List.length (customers w))) in
      (Ok [created],
       {| customers := customers w ++ [created];
          customer_products := customer_products w;
          clock := clock w;
          supabase_client := supabase_client w;
          outage := outage w;
          insert_dropped := insert_dropped w;
          draws := draws w |}).

Definition set_last_login (v : string) (c : customer) : customer :=
  {| c_id := c_id c;
     c_email := c_email c;
     c_password_hash := c_password_hash c;
     c_shop_name := c_shop_name c;
     c_access_key := c_access_key c;
     c_data_consent := c_data_consent c;
     c_consent_updated_at := c_consent_updated_at c;
     c_signup_date := c_signup_date c;
     c_usage_count := c_usage_count c;
     c_usage_reset_date := c_usage_reset_date c;
     c_is_premium := c_is_premium c;
     c_is_email_verified := c_is_email_verified c;
     c_last_login := Some v |}.

(** [table('customers').update({'last_login': v}).eq('id', id).execute()] *)
Definition update_last_login (id v : string) : M unit :=
  fun w =>
    if outage w OpUpdate then (Raise APIError, w)
    else
      (Ok tt,
       {| customers :=
            map (fun c => if String.eqb (c_id c) id then set_last_login v c else c)
              (customers w);
          customer_products := customer_products w;
          clock := clock w;
          supabase_client := supabase_client w;
          outage := outage w;
          insert_dropped := insert_dropped w;
          draws := draws w |}).

(** *** Passwords *)

Definition hash_password (password : string) : M string :=
  salt <- draw ;; lift (pwd_hash salt password).

Definition verify_password (plain_password hashed_password : string) : result bool :=
  pwd_verify plain_password hashed_password.

(** *** Tokens *)

(** The algorithms whose signature PyJWT checks by computing it again. *)
Definition hmac_algorithms : list string := ["HS256"; "HS384"; "HS512"]%string.

Definition is_hmac (alg : string) : bool := existsb (String.eqb alg) hmac_algorithms.

(** [jwt.encode(payload, key, algorithm)] *)
Definition jwt_encode (payload : jwt_payload) (key algorithm : string) : result jwt :=
  match jwt_sign key algorithm payload with
  | Ok signature => Ok (Signed algorithm payload signature)
  | Raise e => Raise e
  end.

(** Whether a signature verifies. *)
Definition signature_valid (alg key : string) (payload : jwt_payload)
    (signature : string) : result bool :=
  if is_hmac alg then
    match jwt_sign key alg payload with
    | Ok expected => Ok (String.eqb signature expected)
    | Raise e => Raise e
    end
  else jwt_verify key alg payload signature.

(** The validation of one registered claim, when the payload has it. *)
Definition validate_claim (name : string) (payload : jwt_payload) (now : Z)
  : result unit :=
  match claim name payload with
  | None => Ok tt
  | Some v => jwt_validate_claim name v now
  end.

(** The validation of [exp], when the payload has it: an integer expiry
    that is not in the future is an [ExpiredSignatureError]. *)
Definition validate_exp (payload : jwt_payload) (now : Z) : result unit :=
  match claim "exp" payload with
  | None => Ok tt
  | Some (JInt exp) => if exp <=? now then Raise ExpiredSignatureError else Ok tt
  | Some v => jwt_validate_claim "exp" v now
  end.

(** The registered claims are validated in this order; no audience, issuer
    or subject is asked for. *)
Definition validate_claims (payload : jwt_payload) (now : Z) : result unit :=
  (_ <- validate_claim "iat" payload now ;;
   _ <- validate_claim "nbf" payload now ;;
   _ <- validate_exp payload now ;;
   _ <- validate_claim "aud" payload now ;;
   _ <- validate_claim "sub" payload now ;;
   validate_claim "jti" payload now)%result.

(** [jwt.decode(token, key, algorithms)] at time [now]: the segments, the
    algorithm, the signature and then the registered claims are checked,
    in this order. *)
Definition jwt_decode (token : jwt) (key : string) (algorithms : list string)
    (now : Z) : result jwt_payload :=
  match token with
  | Garbage _ => Raise DecodeError
  | Signed alg payload signature =>
      if negb (existsb (String.eqb alg) algorithms) then Raise InvalidAlgorithmError
      else
        match signature_valid alg key payload signature with
        | Raise e => Raise e
        | Ok false => Raise InvalidSignatureError
        | Ok true =>
            match validate_claims payload now with
            | Ok _ => Ok payload
            | Raise e => Raise e
            end
        end
  end.

(** The first and the last second a [datetime] can hold: years 1 to 9999. *)
Definition datetime_min : Z := -62135596800.
Definition datetime_max : Z := 253402300799.

(** [datetime.utcnow() + timedelta(hours=...)] raises [OverflowError] when
    the sum is not a [datetime]. *)
Definition create_access_token (user_id email : string) : M jwt :=
  now <- utcnow ;;
  let exp := now + JWT_EXPIRATION_HOURS settings * 3600 in
  if (datetime_min <=? exp) && (exp <=? datetime_max) then
    lift (jwt_encode (token_payload user_id email exp)
            (JWT_SECRET settings) (JWT_ALGORITHM settings))
  else raise (LibraryError "OverflowError" "date value out of range").

Definition verify_token (token : jwt) : M jwt_payload :=
  now <- utcnow ;;
  match jwt_decode token (JWT_SECRET settings) [JWT_ALGORITHM settings] now with
  | Ok payload => ret payload
  | Raise ExpiredSignatureError => raise (HTTPException 401 "Token expired")
  | Raise e =>
      if is_InvalidTokenError e then raise (HTTPException 401 "Invalid token")
      else raise e
  end.

(** *** Endpoints *)

Definition register (user : UserRegister) : M UserResponse :=
  get_supabase_client ;;;
  existing <- select_customers_by_email (lower (reg_email user)) ;;
  match existing with
  | _ :: _ => raise (HTTPException 400 "Email already registered")
  | [] =>
      password_hash <- hash_password (reg_password user) ;;
      uuid <- draw ;;
      let access_key := sha256_hex uuid in
      now <- utcnow ;;
      let new_customer := fun id =>
        {| c_id := id;
           c_email := lower (reg_email user);
           c_password_hash := password_hash;
           c_shop_name := reg_name user;
           c_access_key := access_key;
           c_data_consent := true;
           c_consent_updated_at := isoformat now;
           c_signup_date := isoformat now;
           c_usage_count := 0;
           c_usage_reset_date := isoformat now;
           c_is_premium := false;
           c_is_email_verified := false;
           c_last_login := None |} in
      result <- insert_customer new_customer ;;
      match result with
      | [] => raise (HTTPException 500 "Failed to create user")
      | customer_data :: _ =>
          let customer_id := c_id customer_data in
          access_token <- create_access_token customer_id (lower (reg_email user)) ;;
          ret {| user_id := customer_id;
                 email := lower (reg_email user);
                 name := reg_name user;
                 is_premium := false;
                 access_token := access_token |}
      end
  end.

Definition login (credentials : UserLogin) : M UserResponse :=
  get_supabase_client ;;;
  result <- select_customers_by_email (lower (login_email credentials)) ;;
  match result with
  | [] => raise (HTTPException 401 "Invalid email or password")
  | customer :: _ =>
      verified <- lift (verify_password (login_password credentials)
                          (c_password_hash customer)) ;;
      if negb verified
      then raise (HTTPException 401 "Invalid email or password")
      else
        try_except
          (now <- utcnow ;; update_last_login (c_id customer) (isoformat now))
          (fun _ => ret tt) ;;;
        access_token <- create_access_token (c_id customer) (c_email customer) ;;
        ret {| user_id := c_id customer;
               email := c_email customer;
               name := c_shop_name customer;
               is_premium := c_is_premium customer;
               access_token := access_token |}
  end.

Definition get_user_info (user_id : string) (token : jwt) : M UserInfo :=
  payload <- verify_token token ;;
  match claim_user_id payload with
  | None => raise (KeyError "user_id")
  | Some bound =>
      if negb (json_is_str bound user_id) then
        raise (HTTPException 403 "Not authorized to access this user's data")
      else
        get_supabase_client ;;;
        customer_result <- select_customers_by_id user_id ;;
        match customer_result with
        | [] => raise (HTTPException 404 "User not found")
        | customer :: _ =>
            products_result <- select_products_by_customer user_id ;;
            let has_insights :=
              match products_result with
              | [] => false
              | _ :: _ => existsb (String.eqb "insights") products_result
              end in
            let usage_count := c_usage_count customer in
            let analyses_limit := if has_insights then 999999 else 10 in
            ret {| info_user_id := c_id customer;
                   info_email := c_email customer;
                   info_name := c_shop_name customer;
                   info_is_premium := has_insights;
                   analyses_this_week := usage_count;
                   analyses_limit := analyses_limit;
                   created_at := c_signup_date customer |}
        end
  end.

(** The entitlement tags of an account, as the store lists them. *)
Definition products_of (w : world) (user_id : string) : list string :=
  map cp_product_id
    (filter (fun p => String.eqb (cp_customer_id p) user_id) (customer_products w)).

End Service.

(** *** The connection test ([app/database/supabase_client.py]) *)

Section Connection.
Context `{Platform} `{Deployment}.
Local Open Scope handler_scope.
Local Open Scope string_scope.

(** The ids in the store's [users] table, which only the connection test
    reads; [None] when the store has no table of that name. *)
Variable users : option (list string).

(** [client.table('users').select('id').limit(1).execute()] *)
Definition select_users_id_limit_1 : M (list string) :=
  fun w =>
    if outage w OpSelect then (Raise APIError, w)
    else match users with
         | None => (Raise APIError, w)
         | Some ids => (Ok (firstn 1 ids), w)
         end.

(** [test_connection()]: the answer and the lines printed. *)
Definition test_connection : M (bool * list string) :=
  try_except
    (get_supabase_client ;;;
     result <- select_users_id_limit_1 ;;
     ret (true, []))
    (fun e =>
       ret (false, [String.append "Supabase connection test failed: " (exn_str e)])).

End Connection.

End Auth.

(** ** The application ([app/main.py]) *)

Module Main.
Import Config.
Local Open Scope string_scope.

Record JSONResponse : Type := {
  status_code : Z;
  content : list (string * string)
}.

(** The [docs_url] and [redoc_url] the application is created with. *)
Definition docs_url (settings : Settings) : option string :=
  if DEBUG settings then Some "/docs" else None.

Definition redoc_url (settings : Settings) : option string :=
  if DEBUG settings then Some "/redoc" else None.

(** [GET /health] *)
Definition health_check (settings : Settings) : list (string * string) :=
  [("status", "healthy"); ("version", "1.0.0");
   ("environment", ENVIRONMENT settings)].

(** [GET /] *)
Definition root (settings : Settings) : list (string * string) :=
  [("message", "Etsy Dashboard API"); ("version", "1.0.0");
   ("docs", if DEBUG settings then "/docs"
            else "Documentation disabled in production")].

(** The handler of the exceptions no route handles: the line printed and
    the response. *)
Definition general_exception_handler (settings : Settings) (exc : exn)
  : list string * JSONResponse :=
  ([String.append "Unhandled error: " (exn_str exc)],
   {| status_code := 500;
      content := [("error", "Internal server error");
                  ("detail", if DEBUG settings then exn_str exc
                             else "An error occurred")] |}).

End Main.

(** ** A concrete platform and store, to run the handlers on *)

Module Demo.
Import Python Config Auth.
Local Open Scope string_scope.

Definition starts_with (prefix s : string) : bool :=
  String.eqb (substring 0 (String.length prefix) s) prefix.

(** The strings of a payload, one after the other. *)
Fixpoint render (payload : jwt_payload) : string :=
  match payload with
  | [] => ""
  | (key, JStr s) :: rest => String.append key (String.append s (render rest))
  | (key, JInt _) :: rest => String.append key (String.append "#" (render rest))
  | (key, JOther raw) :: rest => String.append key (String.append raw (render rest))
  end.

(** A platform that behaves as the libraries do where the examples need
    it: the password library refuses a password with a NUL character and a
    hash that does not look like one of its own; the token library knows
    the three HMAC algorithms and no other; the client library wants a URL
    that starts with "http". *)
#[local] Instance demo_platform : Platform :=
  {| unicode_lower := fun s => s;
     pydantic_int := fun _ => None;
     pydantic_bool := fun _ => None;
     pydantic_str_list := fun _ => None;
     pwd_hash := fun salt password =>
       if has_nul password then
         Raise (ValueError "password may not contain NULL bytes")
       else Ok (String.append "$2b$" (String.append salt password));
     pwd_verify := fun password hashed =>
       if negb (starts_with "$2b$" hashed) then
         Raise (LibraryError "UnknownHashError" "hash could not be identified")
       else if has_nul password then
         Raise (ValueError "password may not contain NULL bytes")
       else Ok (String.eqb (substring 8 (String.length hashed - 8) hashed) password);
     jwt_sign := fun key alg payload =>
       if is_hmac alg then Ok (String.append key (String.append alg (render payload)))
       else Raise (LibraryError "NotImplementedError" "Algorithm not supported");
     jwt_verify := fun _ _ _ _ => Raise InvalidAlgorithmError;
     jwt_validate_claim := fun _ _ _ => Ok tt;
     create_client := fun url _ =>
       if starts_with "http" url then Ok tt
       else Raise (LibraryError "SupabaseException" "Invalid URL");
     sha256_hex := fun s => s;
     entropy := fun n => if Nat.even n then "salt" else "uuid";
     store_id := fun n => if Nat.eqb n 1 then "id-1" else "id-n";
     isoformat := fun _ => "2024-12-19T00:00:00" |}.

(** *** Deployments *)

Definition demo_environ (name : string) : option string :=
  if String.eqb name "SUPABASE_URL" then Some "https://demo.supabase.co"
  else if String.eqb name "SUPABASE_SERVICE_ROLE_KEY" then Some "service-role"
  else if String.eqb name "JWT_SECRET" then Some "s3cret"
  else None.

Definition demo_settings : Settings :=
  {| ENVIRONMENT := "development";
     DEBUG := true;
     API_SECRET_KEY := "dev-secret-key-change-in-prod";
     API_KEY := "dev-api-key";
     JWT_SECRET := "s3cret";
     JWT_ALGORITHM := "HS256";
     JWT_EXPIRATION_HOURS := 24;
     SUPABASE_URL := "https://demo.supabase.co";
     SUPABASE_KEY := "";
     SUPABASE_SERVICE_ROLE_KEY := "service-role";
     ALLOWED_ORIGINS := default_origins;
     RATE_LIMIT_PER_MINUTE := 100;
     STRIPE_SECRET_KEY := "";
     STRIPE_WEBHOOK_SECRET := "";
     ANTHROPIC_API_KEY := "" |}.

#[local] Instance demo_deployment : Deployment := {| settings := demo_settings |}.

(** The same deployment with [JWT_EXPIRATION_HOURS=1] in its environment. *)
Definition one_hour_environ (name : string) : option string :=
  if String.eqb name "JWT_EXPIRATION_HOURS" then Some "1" else demo_environ name.

Definition one_hour_settings : Settings :=
  {| ENVIRONMENT := "development";
     DEBUG := true;
     API_SECRET_KEY := "dev-secret-key-change-in-prod";
     API_KEY := "dev-api-key";
     JWT_SECRET := "s3cret";
     JWT_ALGORITHM := "HS256";
     JWT_EXPIRATION_HOURS := 1;
     SUPABASE_URL := "https://demo.supabase.co";
     SUPABASE_KEY := "";
     SUPABASE_SERVICE_ROLE_KEY := "service-role";
     ALLOWED_ORIGINS := default_origins;
     RATE_LIMIT_PER_MINUTE := 100;
     STRIPE_SECRET_KEY := "";
     STRIPE_WEBHOOK_SECRET := "";
     ANTHROPIC_API_KEY := "" |}.

#[local] Instance one_hour_deployment : Deployment := {| settings := one_hour_settings |}.


Definition mistyped_settings : Settings :=
  {| ENVIRONMENT := "development";
     DEBUG := true;
     API_SECRET_KEY := "dev-secret-key-change-in-prod";
     API_KEY := "dev-api-key";
     JWT_SECRET := "s3cret";
     JWT_ALGORITHM := "HS257";
     JWT_EXPIRATION_HOURS := 24;
     SUPABASE_URL := "https://demo.supabase.co";
     SUPABASE_KEY := "";
     SUPABASE_SERVICE_ROLE_KEY := "service-role";
     ALLOWED_ORIGINS := default_origins;
     RATE_LIMIT_PER_MINUTE := 100;
     STRIPE_SECRET_KEY := "";
     STRIPE_WEBHOOK_SECRET := "";
     ANTHROPIC_API_KEY := "" |}.

#[local] Instance mistyped_deployment : Deployment := {| settings := mistyped_settings |}.

(** A deployment that sets the environment name and the two settings the
    start-up validation asks for, and nothing else. *)
Definition production_environ (name : string) : option string :=
  if String.eqb name "ENVIRONMENT" then Some "production"
  else if String.eqb name "SUPABASE_URL" then Some "https://prod.supabase.co"
  else if String.eqb name "SUPABASE_KEY" then Some "anon-key"
  else None.

Definition production_settings : Settings :=
  {| ENVIRONMENT := "production";
     DEBUG := true;
     API_SECRET_KEY := "dev-secret-key-change-in-prod";
     API_KEY := "dev-api-key";
     JWT_SECRET := "your-secret-key-change-in-prod";
     JWT_ALGORITHM := "HS256";
     JWT_EXPIRATION_HOURS := 24;
     SUPABASE_URL := "https://prod.supabase.co";
     SUPABASE_KEY := "anon-key";
     SUPABASE_SERVICE_ROLE_KEY := "";
     ALLOWED_ORIGINS := default_origins;
     RATE_LIMIT_PER_MINUTE := 100;
     STRIPE_SECRET_KEY := "";
     STRIPE_WEBHOOK_SECRET := "";
     ANTHROPIC_API_KEY := "" |}.

#[local] Instance production_deployment : Deployment :=
  {| settings := production_settings |}.

(** A deployment whose [SUPABASE_URL] is the word "demo", which is not a
    URL. *)
Definition no_url_environ (name : string) : option string :=
  if String.eqb name "SUPABASE_URL" then Some "demo" else demo_environ name.

Definition no_url_settings : Settings :=
  {| ENVIRONMENT := "development";
     DEBUG := true;
     API_SECRET_KEY := "dev-secret-key-change-in-prod";
     API_KEY := "dev-api-key";
     JWT_SECRET := "s3cret";
     JWT_ALGORITHM := "HS256";
     JWT_EXPIRATION_HOURS := 24;
     SUPABASE_URL := "demo";
     SUPABASE_KEY := "";
     SUPABASE_SERVICE_ROLE_KEY := "service-role";
     ALLOWED_ORIGINS := default_origins;
     RATE_LIMIT_PER_MINUTE := 100;
     STRIPE_SECRET_KEY := "";
     STRIPE_WEBHOOK_SECRET := "";
     ANTHROPIC_API_KEY := "" |}.

#[local] Instance no_url_deployment : Deployment := {| settings := no_url_settings |}.

(** A deployment whose [DEBUG] variable is "1" and whose environment is
    named "production". *)
Definition debug_one_environ (name : string) : option string :=
  if String.eqb name "DEBUG" then Some "1" else production_environ name.

(** *** A store *)

Definition alice : customer :=
  {| c_id := "id-0";
     c_email := "alice@example.com";
     c_password_hash := "$2b$saltwonderland";
     c_shop_name := Some "Alice";
     c_access_key := "key";
     c_data_consent := true;
     c_consent_updated_at := "2024-12-19T00:00:00";
     c_signup_date := "2024-12-19T00:00:00";
     c_usage_count := 7;
     c_usage_reset_date := "2024-12-19T00:00:00";
     c_is_premium := false;
     c_is_email_verified := false;
     c_last_login := None |}.

Definition demo_world (now : Z) (update_down : bool) : world :=
  {| customers := [alice];
     customer_products :=
       [ {| cp_customer_id := "id-0"; cp_product_id := "dashboard" |};
         {| cp_customer_id := "id-0"; cp_product_id := "insights" |} ];
     clock := now;
     supabase_client := false;
     outage := fun op => match op with OpUpdate => update_down | _ => false end;
     insert_dropped := false;
     draws := 0 |}.

Definition alice_payload (now : Z) : jwt_payload :=
  token_payload "id-0" "alice@example.com" (now + 24 * 3600).

(** The token the demo deployment issues to Alice at time [now]. *)
Definition alice_token (now : Z) : jwt :=
  Signed "HS256" (alice_payload now)
    (String.append "s3cret" (String.append "HS256" (render (alice_payload now)))).

(** The token the demo deployment issues to Bob at time [now]. *)
Definition bob_token (now : Z) : jwt :=
  Signed "HS256" (token_payload "id-1" "bob@example.com" (now + 24 * 3600))
    (String.append "s3cret"
       (String.append "HS256"
          (render (token_payload "id-1" "bob@example.com" (now + 24 * 3600))))).

Definition bob : UserRegister :=
  {| reg_email := "Bob@Example.com"; reg_password := "builder";
     reg_name := Some "Bob" |}.

(** A password made of the one character NUL. *)
Definition nul_password : string := String (ascii_of_nat 0) EmptyString.

End Demo.

(** * Properties of binary64 arithmetic *)

Module FloatFacts.
Import PyFloat Binary64.

Lemma scale_eq : scale = 2200.
Proof. reflexivity. Qed.

(** Linear arithmetic that knows the value of [scale] and keeps the powers
    of two at that scale abstract. *)
Ltac slia := pose proof scale_eq; lia.

Lemma fexp_eq (X : Z) : fexp prec emax X = fexp64 X.
Proof. reflexivity. Qed.

Lemma binary_round_aux_core (sx : bool) (mx ex : Z) (lx : location) :
  binary_round_aux prec emax sx mx ex lx =
  match round_core mx ex lx with
  | (0, _) => S754_zero sx
  | (Zpos m, e) => if e <=? 971 then S754_finite sx m e else S754_infinity sx
  | (Zneg _, _) => S754_nan
  end.
Proof.
  unfold binary_round_aux, round_core.
  destruct (shr_fexp prec emax mx ex lx) as [mrs' e'].
  destruct (shr_fexp prec emax _ e' loc_Exact) as [mrs'' e''].
  reflexivity.
Qed.

(** ** Digits *)

Lemma digits2_pos_size (p : positive) : digits2_pos p = Pos.size p.
Proof. induction p; simpl; congruence. Qed.

Lemma Zdigits2_log2 (p : positive) : Zdigits2 (Zpos p) = Z.log2 (Zpos p) + 1.
Proof.
  destruct p as [p|p|]; simpl; rewrite ?digits2_pos_size; lia.
Qed.

Lemma Zdigits2_spec (m : Z) :
  0 < m -> 2 ^ (Zdigits2 m - 1) <= m < 2 ^ Zdigits2 m.
Proof.
  intros Hm. destruct m as [|p|p]; try lia.
  rewrite Zdigits2_log2.
  replace (Z.log2 (Zpos p) + 1 - 1) with (Z.log2 (Zpos p)) by lia.
  apply Z.log2_spec. lia.
Qed.

Lemma Zdigits2_unique (m k : Z) :
  2 ^ (k - 1) <= m < 2 ^ k -> 0 < m -> Zdigits2 m = k.
Proof.
  intros Hk Hm. destruct m as [|p|p]; try lia.
  rewrite Zdigits2_log2.
  assert (1 <= k).
  { destruct (Z.le_gt_cases 1 k) as [|Hlt]; [assumption|].
    assert (k = 0 \/ k < 0) as [->|Hneg] by lia.
    - simpl in Hk. lia.
    - rewrite (Z.pow_neg_r 2 k) in Hk by lia. lia. }
  rewrite (Z.log2_unique (Zpos p) (k - 1)); try lia.
  replace (Z.succ (k - 1)) with k by lia. exact Hk.
Qed.

Lemma Zdigits2_pos (m : Z) : 0 < m -> 0 < Zdigits2 m.
Proof. destruct m; simpl; lia. Qed.

Lemma Zdigits2_0 : Zdigits2 0 = 0.
Proof. reflexivity. Qed.

(** ** Shifting a mantissa right *)

Lemma represents_record_of_loc (m : Z) (l : location) (N D : Z) :
  0 <= N -> 0 < D -> m = N / D -> loc_ok l (N mod D) D ->
  represents (shr_record_of_loc m l) N D.
Proof.
  intros HN HD Hm Hl. unfold represents.
  destruct l as [|[]]; simpl in *; repeat split; assumption || lia.
Qed.

Lemma div_mod_doubling (N D m b rho : Z) :
  0 < D -> 0 <= rho < D -> 0 <= b <= 1 -> N = D * (2 * m + b) + rho ->
  N / (2 * D) = m /\ N mod (2 * D) = b * D + rho.
Proof.
  intros HD Hrho Hb HN.
  assert (Hr : 0 <= b * D + rho < 2 * D) by nia.
  assert (E : N = 2 * D * m + (b * D + rho)) by lia.
  split.
  - symmetry. apply (Z.div_unique N (2 * D) m (b * D + rho)); [left; exact Hr|exact E].
  - symmetry. apply (Z.mod_unique N (2 * D) m (b * D + rho)); [left; exact Hr|exact E].
Qed.

Lemma shr_1_represents (mrs : shr_record) (N D : Z) :
  represents mrs N D -> represents (shr_1 mrs) N (2 * D).
Proof.
  intros (HN & HD & Hm & Hl).
  pose proof (Z.div_mod N D ltac:(lia)) as Hdm.
  pose proof (Z.mod_pos_bound N D HD) as Hrho.
  destruct mrs as [m r s]. simpl in Hm.
  assert (Hm0 : 0 <= m) by (rewrite Hm; apply Z.div_pos; lia).
  rewrite <- Hm in Hdm.
  unfold represents. split; [exact HN|]. split; [lia|].
  assert (Hcase : exists m' b, 0 <= b <= 1 /\ m = 2 * m' + b /\
            shr_1 {| shr_m := m; shr_r := r; shr_s := s |}
            = {| shr_m := m'; shr_r := (b =? 1); shr_s := r || s |}).
  { destruct m as [|[p|p|]|p]; try lia.
    - exists 0, 0. repeat split; lia.
    - exists (Zpos p), 1. repeat split; lia.
    - exists (Zpos p), 0. repeat split; lia.
    - exists 0, 1. repeat split; lia. }
  destruct Hcase as (m' & b & Hb & Hmb & ->).
  destruct (div_mod_doubling N D m' b (N mod D) HD Hrho Hb ltac:(lia)) as [Hq Hr].
  rewrite Hq, Hr. split; [reflexivity|].
  assert (b = 0 \/ b = 1) as [->| ->] by lia.
  - change (0 =? 1) with false.
    destruct r, s; cbn [loc_of_shr_record loc_ok orb] in Hl |- *; lia.
  - change (1 =? 1) with true.
    destruct r, s; cbn [loc_of_shr_record loc_ok orb] in Hl |- *; lia.
Qed.

Lemma pow2_xO (p : positive) : 2 ^ Zpos p~0 = 2 ^ Zpos p * 2 ^ Zpos p.
Proof.
  replace (Zpos p~0) with (Zpos p + Zpos p) by lia.
  apply Z.pow_add_r; lia.
Qed.

Lemma pow2_xI (p : positive) : 2 ^ Zpos p~1 = 2 * (2 ^ Zpos p * 2 ^ Zpos p).
Proof.
  replace (Zpos p~1) with (1 + (Zpos p + Zpos p)) by lia.
  rewrite !Z.pow_add_r by lia. reflexivity.
Qed.

Lemma iter_pos_shr_1_represents (p : positive) :
  forall (mrs : shr_record) (N D : Z),
    represents mrs N D ->
    represents (iter_pos shr_1 p mrs) N (D * 2 ^ Zpos p).
Proof.
  induction p as [p IH|p IH|]; intros mrs N D Hrep; simpl iter_pos.
  - apply shr_1_represents in Hrep. apply IH in Hrep. apply IH in Hrep.
    replace (D * 2 ^ Zpos p~1) with (2 * D * 2 ^ Zpos p * 2 ^ Zpos p); [exact Hrep|].
    rewrite pow2_xI. ring.
  - apply IH in Hrep. apply IH in Hrep.
    replace (D * 2 ^ Zpos p~0) with (D * 2 ^ Zpos p * 2 ^ Zpos p); [exact Hrep|].
    rewrite pow2_xO. ring.
  - apply shr_1_represents in Hrep.
    replace (D * 2 ^ 1) with (2 * D) by (change (2 ^ 1) with 2; lia). exact Hrep.
Qed.

Lemma shr_represents (mrs : shr_record) (e n N D : Z) :
  represents mrs N D -> 0 <= n ->
  exists mrs', shr mrs e n = (mrs', e + n) /\ represents mrs' N (D * 2 ^ n).
Proof.
  intros Hrep Hn. unfold shr. destruct n as [|p|p]; try lia.
  - exists mrs. split; [f_equal; lia|]. rewrite Z.mul_1_r. exact Hrep.
  - eexists. split; [reflexivity|]. apply iter_pos_shr_1_represents. exact Hrep.
Qed.

Lemma shr_nonpos (mrs : shr_record) (e n : Z) :
  n <= 0 -> shr mrs e n = (mrs, e).
Proof. intros Hn. unfold shr. destruct n; try reflexivity. lia. Qed.

(** ** Rounding to the nearest integer, ties to even *)

Lemma round_nearest_even_rne_div (mrs : shr_record) (N D : Z) :
  represents mrs N D ->
  round_nearest_even (shr_m mrs) (loc_of_shr_record mrs) = rne_div N D.
Proof.
  intros (HN & HD & Hm & Hl).
  pose proof (Z.mod_pos_bound N D HD) as Hrho.
  unfold rne_div, round_nearest_even. rewrite <- Hm.
  destruct (loc_of_shr_record mrs) as [|[]]; cbn [loc_ok] in Hl;
    destruct (Z.compare_spec (2 * (N mod D)) D); try lia; reflexivity.
Qed.

Lemma rne_div_bounds (N D : Z) :
  0 <= N -> 0 < D ->
  N / D <= rne_div N D <= N / D + 1 /\
  - D <= 2 * (rne_div N D * D - N) <= D.
Proof.
  intros HN HD.
  pose proof (Z.div_mod N D ltac:(lia)) as Hdm.
  pose proof (Z.mod_pos_bound N D HD) as Hrho.
  unfold rne_div.
  destruct (Z.compare_spec (2 * (N mod D)) D); [destruct (Z.even (N / D))| |]; nia.
Qed.

Lemma rne_div_le (N D j : Z) :
  0 <= N -> 0 < D -> N <= j * D -> rne_div N D <= j.
Proof.
  intros HN HD Hj.
  pose proof (Z.div_mod N D ltac:(lia)) as Hdm.
  pose proof (Z.mod_pos_bound N D HD) as Hrho.
  destruct (rne_div_bounds N D HN HD) as [[_ Hhi] _].
  assert (N / D <= j) by (apply Z.div_le_upper_bound; lia).
  assert (N / D = j -> N mod D = 0) by nia.
  unfold rne_div in *.
  destruct (Z.compare_spec (2 * (N mod D)) D); [destruct (Z.even (N / D))| |]; nia.
Qed.

Lemma rne_div_ge (N D j : Z) :
  0 <= N -> 0 < D -> j * D <= N -> j <= rne_div N D.
Proof.
  intros HN HD Hj.
  destruct (rne_div_bounds N D HN HD) as [[Hlo _] _].
  assert (j <= N / D) by (apply Z.div_le_lower_bound; lia).
  lia.
Qed.

Lemma rne_div_near (N D n : Z) :
  0 <= N -> 0 < D -> - D < 2 * (N - n * D) < D -> rne_div N D = n.
Proof.
  intros HN HD Hn.
  pose proof (Z.div_mod N D ltac:(lia)) as Hdm.
  pose proof (Z.mod_pos_bound N D HD) as Hrho.
  unfold rne_div.
  destruct (Z.compare_spec (2 * (N mod D)) D); [destruct (Z.even (N / D))| |]; nia.
Qed.

(** ** The core of [binary_round_aux] *)

Lemma pow2_pos (k : Z) : 0 <= k -> 0 < 2 ^ k.
Proof. intros Hk. apply Z.pow_pos_nonneg; lia. Qed.

Lemma pow2_succ (k : Z) : 0 <= k -> 2 ^ (k + 1) = 2 * 2 ^ k.
Proof. intros Hk. rewrite Z.pow_add_r by lia. change (2 ^ 1) with 2. lia. Qed.

Lemma pow2_split (a b : Z) : 0 <= a -> 0 <= b -> 2 ^ (a + b) = 2 ^ a * 2 ^ b.
Proof. intros. apply Z.pow_add_r; lia. Qed.

Lemma pow2_le (a b : Z) : 0 <= a <= b -> 2 ^ a <= 2 ^ b.
Proof. intros. apply Z.pow_le_mono_r; lia. Qed.

Lemma pow2_lt (a b : Z) : 0 <= a < b -> 2 ^ a < 2 ^ b.
Proof. intros. apply Z.pow_lt_mono_r; lia. Qed.

Lemma Zdigits2_pow2 (k : Z) : 0 <= k -> Zdigits2 (2 ^ k) = k + 1.
Proof.
  intros Hk. apply Zdigits2_unique.
  - replace (k + 1 - 1) with k by lia. split; [lia|]. apply pow2_lt. lia.
  - apply pow2_pos. exact Hk.
Qed.

(** The second normalisation: a mantissa that is canonical at [e1], or a
    power of two that overflowed by one digit, is brought to canonical
    form without changing its value. *)
Lemma shr_fexp_renorm (m e1 : Z) :
  -1074 <= e1 ->
  m = 0 \/
  (0 < m /\
   (fexp64 (Zdigits2 m + e1) = e1 \/
    (fexp64 (Zdigits2 m + e1) = e1 + 1 /\ m = 2 ^ (Zdigits2 m - 1)
     /\ 2 <= Zdigits2 m))) ->
  exists mrs e2,
    shr_fexp prec emax m e1 loc_Exact = (mrs, e2) /\
    e1 <= e2 <= e1 + 1 /\
    shr_m mrs * 2 ^ (e2 - e1) = m /\
    (shr_m mrs = 0 \/ (0 < shr_m mrs /\ fexp64 (Zdigits2 (shr_m mrs) + e2) = e2)).
Proof.
  intros He1 Hm. unfold shr_fexp. rewrite fexp_eq.
  destruct Hm as [->|[Hpos [Hcan|(Hup & Hpow & Hd)]]].
  - rewrite shr_nonpos by (unfold fexp64; simpl; lia).
    eexists. eexists. split; [reflexivity|]. simpl.
    split; [lia|]. split; [reflexivity|]. left. reflexivity.
  - rewrite shr_nonpos by lia.
    eexists. eexists. split; [reflexivity|]. simpl shr_m.
    split; [lia|]. split; [rewrite Z.sub_diag; simpl; lia|].
    right. split; assumption.
  - assert (Hrep : represents (shr_record_of_loc m loc_Exact) m 1).
    { apply represents_record_of_loc; try lia.
      - rewrite Z.div_1_r. reflexivity.
      - simpl. apply Z.mod_1_r. }
    destruct (shr_represents _ e1 (fexp64 (Zdigits2 m + e1) - e1) m 1 Hrep ltac:(lia))
      as (mrs' & Hshr & (_ & _ & Hm' & _)).
    rewrite Hshr. eexists. eexists. split; [reflexivity|].
    replace (e1 + (fexp64 (Zdigits2 m + e1) - e1)) with (e1 + 1) by lia.
    replace (e1 + 1 - e1) with 1 by lia.
    rewrite Hup in Hm'. replace (e1 + 1 - e1) with 1 in Hm' by lia.
    change (1 * 2 ^ 1) with 2 in Hm'. change (2 ^ 1) with 2.
    assert (Hm2 : m = 2 * 2 ^ (Zdigits2 m - 2)).
    { rewrite Hpow at 1. rewrite <- pow2_succ by lia. f_equal. lia. }
    assert (Hq : m / 2 = 2 ^ (Zdigits2 m - 2)).
    { rewrite Hm2 at 1. rewrite Z.mul_comm. apply Z.div_mul. lia. }
    rewrite Hm', Hq.
    split; [lia|]. split; [lia|].
    right. split; [apply pow2_pos; lia|].
    rewrite Zdigits2_pow2 by lia.
    replace (Zdigits2 m - 2 + 1 + (e1 + 1)) with (Zdigits2 m + e1) by lia.
    exact Hup.
Qed.

Lemma div_pow2_bounds (mx d k : Z) :
  0 <= k -> 2 ^ (d - 1) <= mx < 2 ^ d -> 0 < mx ->
  (k < d -> 2 ^ (d - k - 1) <= mx / 2 ^ k < 2 ^ (d - k)) /\
  (d <= k -> mx / 2 ^ k = 0).
Proof.
  intros Hk Hmx Hpos.
  assert (Hd : 1 <= d).
  { destruct (Z.le_gt_cases 1 d); [assumption|].
    assert (2 ^ d <= 1); [|lia].
    destruct (Z.eq_dec d 0) as [->|]; [simpl; lia|].
    rewrite Z.pow_neg_r by lia. lia. }
  pose proof (pow2_pos k Hk) as Hk2.
  split.
  - intros Hlt. split.
    + apply Z.div_le_lower_bound; [lia|].
      rewrite <- pow2_split by lia. replace (k + (d - k - 1)) with (d - 1) by lia. lia.
    + apply Z.div_lt_upper_bound; [lia|].
      rewrite <- pow2_split by lia. replace (k + (d - k)) with d by lia. lia.
  - intros Hle. apply Z.div_small. split; [lia|].
    assert (2 ^ d <= 2 ^ k) by (apply pow2_le; lia). lia.
Qed.

(** [binary_round_aux] on the fraction [N / D] at exponent [ex]: the
    result is the nearest multiple of [2 ^ fexp64 X], in canonical form. *)
Lemma round_core_spec (N D ex : Z) (lx : location) :
  0 <= N -> 0 < D -> loc_ok lx (N mod D) D ->
  ex <= fexp64 (Zdigits2 (N / D) + ex) ->
  exists m2 e2,
    round_core (N / D) ex lx = (m2, e2) /\
    fexp64 (Zdigits2 (N / D) + ex) <= e2 <= fexp64 (Zdigits2 (N / D) + ex) + 1 /\
    m2 * 2 ^ (e2 - fexp64 (Zdigits2 (N / D) + ex))
    = rne_div N (D * 2 ^ (fexp64 (Zdigits2 (N / D) + ex) - ex)) /\
    (m2 = 0 \/ (0 < m2 /\ fexp64 (Zdigits2 m2 + e2) = e2)).
Proof.
  intros HN HD Hl Hshift.
  set (mx := N / D) in *. set (d := Zdigits2 mx) in *.
  set (e1 := fexp64 (d + ex)) in *.
  assert (He1 : -1074 <= e1) by (unfold e1, fexp64; lia).
  assert (Hmx : 0 <= mx) by (apply Z.div_pos; lia).
  unfold round_core, shr_fexp. rewrite fexp_eq. fold mx d e1.
  assert (Hrep : represents (shr_record_of_loc mx lx) N D)
    by (apply represents_record_of_loc; auto).
  destruct (shr_represents _ ex (e1 - ex) N D Hrep ltac:(lia)) as (mrs' & Hshr & Hrep').
  rewrite Hshr. replace (ex + (e1 - ex)) with e1 by lia.
  rewrite (round_nearest_even_rne_div mrs' N _ Hrep').
  set (D1 := D * 2 ^ (e1 - ex)) in *.
  assert (HD1 : 0 < D1) by (unfold D1; pose proof (pow2_pos (e1 - ex)); nia).
  destruct (rne_div_bounds N D1 HN HD1) as [Hr _].
  assert (Hm1 : N / D1 = mx / 2 ^ (e1 - ex)).
  { unfold D1, mx. rewrite Z.div_div; [reflexivity|lia|]. apply pow2_pos. lia. }
  set (m1r := rne_div N D1) in *.
  assert (Hcases :
    m1r = 0 \/
    (0 < m1r /\
     (fexp64 (Zdigits2 m1r + e1) = e1 \/
      (fexp64 (Zdigits2 m1r + e1) = e1 + 1 /\ m1r = 2 ^ (Zdigits2 m1r - 1)
       /\ 2 <= Zdigits2 m1r)))).
  { destruct (Z.eq_dec m1r 0) as [|Hnz]; [left; assumption|right].
    assert (Hpos : 0 < m1r).
    { assert (0 <= N / D1) by (apply Z.div_pos; lia). lia. }
    split; [exact Hpos|].
    destruct (Z.eq_dec mx 0) as [Hz|Hnzx].
    - (* nothing above the binary point: the result is the least subnormal *)
      assert (N / D1 = 0) by (rewrite Hm1, Hz; apply Z.div_0_l; pose proof (pow2_pos (e1 - ex)); lia).
      assert (Hone : m1r = 1) by lia.
      left. rewrite Hone. change (Zdigits2 1) with 1.
      assert (d = 0) by (unfold d; rewrite Hz; reflexivity).
      unfold e1, fexp64 in *. lia.
    - assert (Hposx : 0 < mx) by lia.
      pose proof (Zdigits2_spec mx Hposx) as Hdig. fold d in Hdig.
      pose proof (Zdigits2_pos mx Hposx) as Hdpos. fold d in Hdpos.
      destruct (div_pow2_bounds mx d (e1 - ex) ltac:(lia) Hdig Hposx) as [Hbig Hsmall].
      destruct (Z.lt_ge_cases (e1 - ex) d) as [Hlt|Hge].
      + specialize (Hbig Hlt). rewrite <- Hm1 in Hbig.
        set (P := d - (e1 - ex)) in *.
        assert (HP : 1 <= P) by (unfold P; lia).
        replace (d - (e1 - ex) - 1) with (P - 1) in Hbig by (unfold P; lia).
        destruct (Z.eq_dec m1r (2 ^ P)) as [Htop|Hntop].
        * assert (Hdm : Zdigits2 m1r = P + 1) by (rewrite Htop; apply Zdigits2_pow2; lia).
          rewrite Hdm.
          replace (P + 1 + e1) with (d + ex + 1) by (unfold P; lia).
          replace (P + 1 - 1) with P by lia.
          assert (fexp64 (d + ex + 1) = e1 \/ fexp64 (d + ex + 1) = e1 + 1)
            as [E|E] by (unfold e1, fexp64; lia).
          -- left. exact E.
          -- right. split; [exact E|]. split; [exact Htop|lia].
        * assert (Hdm : Zdigits2 m1r = P).
          { apply Zdigits2_unique; [|exact Hpos]. lia. }
          left. rewrite Hdm. replace (P + e1) with (d + ex) by (unfold P; lia).
          reflexivity.
      + specialize (Hsmall Hge). rewrite <- Hm1 in Hsmall.
        assert (Hone : m1r = 1) by lia.
        left. rewrite Hone. change (Zdigits2 1) with 1.
        unfold e1, fexp64 in *. lia. }
  destruct (shr_fexp_renorm m1r e1 He1 Hcases) as (mrs2 & e2 & Heq & He2 & Hval & Hcan).
  unfold shr_fexp in Heq. rewrite Heq.
  exists (shr_m mrs2), e2. repeat split; try lia; assumption.
Qed.

(** ** [binary_round_aux] in ticks *)

Lemma canonical_bounded (m : positive) (e : Z) :
  fexp64 (Zdigits2 (Zpos m) + e) = e -> e <= 971 ->
  bounded prec emax m e = true.
Proof.
  intros Hcan He. unfold bounded, canonical_mantissa.
  rewrite fexp_eq. simpl Zdigits2 in Hcan. rewrite Hcan, Z.eqb_refl.
  apply Z.leb_le. exact He.
Qed.

Lemma bounded_canonical (m : positive) (e : Z) :
  bounded prec emax m e = true ->
  fexp64 (Zdigits2 (Zpos m) + e) = e /\ e <= 971.
Proof.
  unfold bounded, canonical_mantissa. rewrite fexp_eq.
  intros H. apply andb_true_iff in H. destruct H as [H1 H2].
  apply Z.eqb_eq in H1. apply Z.leb_le in H2. simpl Zdigits2.
  split; [exact H1|exact H2].
Qed.

Lemma binary_round_aux_valid (sx : bool) (N D ex : Z) (lx : location) :
  0 <= N -> 0 < D -> loc_ok lx (N mod D) D ->
  ex <= fexp64 (Zdigits2 (N / D) + ex) ->
  valid_binary prec emax (binary_round_aux prec emax sx (N / D) ex lx) = true.
Proof.
  intros HN HD Hl Hshift.
  destruct (round_core_spec N D ex lx HN HD Hl Hshift)
    as (m2 & e2 & Hcore & _ & _ & Hcan).
  rewrite binary_round_aux_core, Hcore.
  destruct m2 as [|m|m]; [reflexivity| |reflexivity].
  destruct (Z.leb_spec e2 971); [|reflexivity].
  destruct Hcan as [|[_ Hcan]]; [lia|].
  apply canonical_bounded; assumption.
Qed.

(** Rounding stays below every double that the exact value stays below,
    and within half a unit in the last place of that double. *)
Lemma binary_round_aux_bounded (sx : bool) (N D ex : Z) (lx : location)
    (mB eB : Z) :
  0 <= N -> 0 < D -> loc_ok lx (N mod D) D ->
  ex <= fexp64 (Zdigits2 (N / D) + ex) ->
  - scale <= ex ->
  0 < mB -> fexp64 (Zdigits2 mB + eB) = eB -> eB <= 971 ->
  N * 2 ^ (ex + scale) <= mB * 2 ^ (eB + scale) * D ->
  let r := binary_round_aux prec emax sx (N / D) ex lx in
  valid_binary prec emax r = true /\
  is_finite r = true /\
  sign_of r = sx /\
  ticks r = cond_Zopp sx (Z.abs (ticks r)) /\
  Z.abs (ticks r) <= mB * 2 ^ (eB + scale) /\
  - (2 ^ (eB + scale) * D)
    <= 2 * (Z.abs (ticks r) * D - N * 2 ^ (ex + scale))
    <= 2 ^ (eB + scale) * D.
Proof.
  intros HN HD Hl Hshift Hex HmB HcanB HeB Hle r.
  pose proof (binary_round_aux_valid sx N D ex lx HN HD Hl Hshift) as Hvalid.
  fold r in Hvalid.
  destruct (round_core_spec N D ex lx HN HD Hl Hshift)
    as (m2 & e2 & Hcore & He2 & Hval & Hcan).
  set (mx := N / D) in *. set (d := Zdigits2 mx) in *.
  set (e1 := fexp64 (d + ex)) in *.
  assert (Hmx : 0 <= mx) by (apply Z.div_pos; slia).
  pose proof (Zdigits2_spec mB HmB) as HdB.
  pose proof (Zdigits2_pos mB HmB) as HdBpos.
  set (dB := Zdigits2 mB) in *.
  assert (HeBlo : -1074 <= eB) by (unfold fexp64 in HcanB; slia).
  assert (HN' : mx * D <= N).
  { pose proof (Z.div_mod N D ltac:(slia)) as Hdm.
    pose proof (Z.mod_pos_bound N D HD). fold mx in Hdm. slia. }
  (* the rounding exponent is not above the one of the bound *)
  assert (Ha : e1 <= eB).
  { destruct (Z.le_gt_cases e1 eB) as [|Hgt]; [assumption|exfalso].
    assert (Hmag : dB + eB < d + ex) by (unfold e1, fexp64 in *; slia).
    assert (Hposx : 0 < mx).
    { destruct (Z.eq_dec mx 0) as [Hz|]; [|slia].
      assert (d = 0) by (unfold d; rewrite Hz; reflexivity).
      unfold e1, fexp64 in *. slia. }
    pose proof (Zdigits2_spec mx Hposx) as Hdx. fold d in Hdx.
    pose proof (Zdigits2_pos mx Hposx) as Hdpos. fold d in Hdpos.
    assert (H1 : 2 ^ (dB + (eB + scale)) <= 2 ^ ((d - 1) + (ex + scale)))
      by (apply pow2_le; slia).
    rewrite (pow2_split dB (eB + scale)), (pow2_split (d - 1) (ex + scale)) in H1 by slia.
    pose proof (pow2_pos (eB + scale) ltac:(slia)).
    pose proof (pow2_pos (ex + scale) ltac:(slia)).
    assert (H2 : mB * 2 ^ (eB + scale) * D < 2 ^ dB * 2 ^ (eB + scale) * D).
    { apply Z.mul_lt_mono_pos_r; [slia|]. apply Z.mul_lt_mono_pos_r; slia. }
    assert (H3 : 2 ^ (d - 1) * D <= N).
    { apply Z.le_trans with (mx * D); [|exact HN'].
      apply Z.mul_le_mono_nonneg_r; slia. }
    assert (H4 : 2 ^ (d - 1) * D * 2 ^ (ex + scale) <= N * 2 ^ (ex + scale)).
    { apply Z.mul_le_mono_nonneg_r; slia. }
    assert (H5 : 2 ^ dB * 2 ^ (eB + scale) * D <= 2 ^ (d - 1) * 2 ^ (ex + scale) * D).
    { apply Z.mul_le_mono_nonneg_r; slia. }
    slia. }
  set (A := 2 ^ (ex + scale)) in *.
  set (B := 2 ^ (e1 - ex)) in *.
  set (C := 2 ^ (eB - e1)) in *.
  assert (HA : 0 < A) by (apply pow2_pos; slia).
  assert (HB : 0 < B) by (apply pow2_pos; slia).
  assert (HC : 0 < C) by (apply pow2_pos; slia).
  assert (HG : 2 ^ (e1 + scale) = A * B).
  { unfold A, B. rewrite <- pow2_split by slia. f_equal. slia. }
  assert (HGB : 2 ^ (eB + scale) = A * B * C).
  { unfold A, B, C. rewrite <- !pow2_split by slia. f_equal. slia. }
  rewrite HGB in *.
  set (D1 := D * B) in *.
  assert (HD1 : 0 < D1) by (unfold D1; nia).
  destruct (rne_div_bounds N D1 HN HD1) as [[Hlo _] Herr].
  assert (Hj : rne_div N D1 <= mB * C).
  { apply rne_div_le; try slia. unfold D1. nia. }
  assert (Hrne0 : 0 <= rne_div N D1).
  { assert (0 <= N / D1) by (apply Z.div_pos; slia). slia. }
  set (q := rne_div N D1) in *.
  set (F := 2 ^ (e2 - e1)) in *.
  assert (HF : 0 < F) by (apply pow2_pos; slia).
  assert (HT : 2 ^ (e2 + scale) = A * B * F).
  { unfold A, B, F. rewrite <- !pow2_split by slia. f_equal. slia. }
  unfold r. rewrite binary_round_aux_core, Hcore.
  destruct m2 as [|m|m]; [| |slia].
  - (* the result is a zero *)
    cbn [is_finite sign_of ticks]. change (Z.abs 0) with 0.
    assert (Hq0 : q = 0) by slia.
    assert (H2N : 2 * N <= D * B) by (unfold D1 in Herr; slia).
    assert (HABD : 0 < A * B * D) by (apply Z.mul_pos_pos; [apply Z.mul_pos_pos|]; slia).
    assert (H1C : 1 <= C) by slia.
    assert (H2NA : 2 * N * A <= D * B * A) by (apply Z.mul_le_mono_nonneg_r; slia).
    assert (HC' : A * B * D * 1 <= A * B * D * C) by (apply Z.mul_le_mono_nonneg_l; slia).
    assert (0 <= N * A) by (apply Z.mul_nonneg_nonneg; slia).
    assert (0 <= mB * (A * B * C)).
    { apply Z.mul_nonneg_nonneg; [slia|].
      apply Z.mul_nonneg_nonneg; [apply Z.mul_nonneg_nonneg|]; slia. }
    split; [reflexivity|]. split; [reflexivity|]. split; [reflexivity|].
    split; [destruct sx; reflexivity|].
    split; [assumption|]. slia.
  - destruct Hcan as [|[_ Hcan]]; [slia|].
    assert (Hle2 : e2 <= eB).
    { destruct (Z.le_gt_cases e2 eB) as [|Hgt]; [assumption|exfalso].
      pose proof (Zdigits2_spec (Zpos m) ltac:(slia)) as Hdm.
      pose proof (Zdigits2_pos (Zpos m) ltac:(slia)) as Hdmpos.
      set (dm := Zdigits2 (Zpos m)) in *.
      assert (Hmag : dB + eB < dm + e2) by (unfold fexp64 in *; slia).
      assert (H1 : 2 ^ (dB + (eB - e1)) <= 2 ^ ((dm - 1) + (e2 - e1)))
        by (apply pow2_le; slia).
      rewrite (pow2_split dB (eB - e1)), (pow2_split (dm - 1) (e2 - e1)) in H1 by slia.
      fold C F in H1.
      assert (mB * C < 2 ^ dB * C) by nia.
      assert (2 ^ (dm - 1) * F <= Zpos m * F) by nia.
      slia. }
    destruct (Z.leb_spec e2 971); [|slia].
    cbn [is_finite sign_of ticks]. rewrite HT.
    assert (HAB : 0 < A * B) by (apply Z.mul_pos_pos; slia).
    assert (Hmq : Zpos m * (A * B * F) = q * (A * B)) by (rewrite <- Hval; ring).
    rewrite Hmq.
    assert (Hq0 : 0 <= q * (A * B)) by (apply Z.mul_nonneg_nonneg; slia).
    assert (Habs : Z.abs (cond_Zopp sx (q * (A * B))) = q * (A * B)).
    { destruct sx; cbn [cond_Zopp]; rewrite ?Z.abs_opp; apply Z.abs_eq; exact Hq0. }
    rewrite Habs.
    split; [apply canonical_bounded; assumption|].
    split; [reflexivity|]. split; [reflexivity|]. split; [reflexivity|].
    assert (Hup : q * (A * B) <= mB * C * (A * B))
      by (apply Z.mul_le_mono_nonneg_r; slia).
    split; [replace (mB * (A * B * C)) with (mB * C * (A * B)) by ring; exact Hup|].
    set (Y := q * D1 - N) in *.
    assert (HY : q * (A * B) * D - N * A = Y * A) by (unfold Y, D1; ring).
    rewrite HY.
    assert (HD1A : 0 <= D1 * A) by (apply Z.mul_nonneg_nonneg; slia).
    assert (H1 : 2 * Y * A <= D1 * A) by (apply Z.mul_le_mono_nonneg_r; slia).
    assert (H2 : (- D1) * A <= 2 * Y * A) by (apply Z.mul_le_mono_nonneg_r; slia).
    assert (H3 : D1 * A * 1 <= D1 * A * C) by (apply Z.mul_le_mono_nonneg_l; slia).
    replace (A * B * C * D) with (D1 * A * C) by (unfold D1; ring).
    slia.
Qed.

(** ** Well-formed doubles *)

Lemma valid_finite_facts (s : bool) (m : positive) (e : Z) :
  valid_binary prec emax (S754_finite s m e) = true ->
  fexp64 (Zdigits2 (Zpos m) + e) = e /\ -1074 <= e <= 971 /\
  1 <= Zdigits2 (Zpos m) <= 53.
Proof.
  intros Hv. apply bounded_canonical in Hv. destruct Hv as [Hcan He].
  pose proof (Zdigits2_pos (Zpos m) ltac:(lia)).
  unfold fexp64 in *. lia.
Qed.

Lemma Zdigits2_mul_pow2 (m k : Z) :
  0 < m -> 0 <= k -> Zdigits2 (m * 2 ^ k) = Zdigits2 m + k.
Proof.
  intros Hm Hk.
  pose proof (Zdigits2_spec m Hm) as Hd.
  pose proof (Zdigits2_pos m Hm) as Hdpos.
  pose proof (pow2_pos k Hk) as Hk2.
  apply Zdigits2_unique; [|nia].
  replace (Zdigits2 m + k - 1) with ((Zdigits2 m - 1) + k) by lia.
  rewrite (pow2_split (Zdigits2 m - 1) k), (pow2_split (Zdigits2 m) k) by lia.
  split.
  - apply Z.mul_le_mono_nonneg_r; lia.
  - apply Z.mul_lt_mono_pos_r; lia.
Qed.

Lemma Zdigits2_ge (m k : Z) : 0 <= k -> 2 ^ k <= m -> k + 1 <= Zdigits2 m.
Proof.
  intros Hk Hm.
  pose proof (pow2_pos k Hk).
  pose proof (Zdigits2_spec m ltac:(lia)) as Hd.
  pose proof (Zdigits2_pos m ltac:(lia)).
  destruct (Z.le_gt_cases (k + 1) (Zdigits2 m)) as [|Hlt]; [assumption|exfalso].
  assert (2 ^ Zdigits2 m <= 2 ^ k) by (apply pow2_le; lia). lia.
Qed.

Lemma Zdigits2_mul_ge (a b : Z) :
  0 < a -> 0 < b -> Zdigits2 a + Zdigits2 b - 1 <= Zdigits2 (a * b).
Proof.
  intros Ha Hb.
  pose proof (Zdigits2_spec a Ha) as Hda. pose proof (Zdigits2_pos a Ha).
  pose proof (Zdigits2_spec b Hb) as Hdb. pose proof (Zdigits2_pos b Hb).
  replace (Zdigits2 a + Zdigits2 b - 1)
    with ((Zdigits2 a - 1) + (Zdigits2 b - 1) + 1) by lia.
  apply Zdigits2_ge; [lia|].
  rewrite pow2_split by lia.
  apply Z.mul_le_mono_nonneg; try lia; apply Z.lt_le_incl, pow2_pos; lia.
Qed.

Lemma Zdigits2_nonneg (m : Z) : 0 <= Zdigits2 m.
Proof. destruct m; simpl; lia. Qed.

Lemma Pos_iter_xO (m d : positive) : Zpos (Pos.iter xO m d) = Zpos m * 2 ^ Zpos d.
Proof.
  induction d as [|d IH] using Pos.peano_ind.
  - simpl Pos.iter. change (2 ^ 1) with 2. lia.
  - rewrite Pos.iter_succ, Pos2Z.inj_succ, Z.pow_succ_r by lia.
    rewrite Pos2Z.inj_xO, IH. ring.
Qed.

Lemma shl_align_spec (m : positive) (e e' : Z) :
  let '(mz, ez) := shl_align m e e' in
  ez = Z.min e e' /\ Zpos mz = Zpos m * 2 ^ (e - ez).
Proof.
  unfold shl_align. destruct (e' - e) as [|d|d] eqn:Hd.
  - split; [lia|]. rewrite Z.sub_diag. simpl. lia.
  - split; [lia|]. rewrite Z.sub_diag. simpl. lia.
  - split; [lia|]. rewrite Pos_iter_xO. f_equal. f_equal. lia.
Qed.

Lemma shl_align_fst (m : positive) (e e' : Z) :
  e' <= e -> Zpos (fst (shl_align m e e')) = Zpos m * 2 ^ (e - e').
Proof.
  intros He. pose proof (shl_align_spec m e e') as H.
  destruct (shl_align m e e') as [mz ez]. destruct H as [Hez Hmz].
  simpl fst. rewrite Hmz. f_equal. f_equal. lia.
Qed.

(** ** [binary_round], the rounding of an integer mantissa *)

Lemma binary_round_aux_form (s : bool) (m : positive) (e : Z) :
  exists (mz : positive) (ez : Z),
    binary_round prec emax s m e
    = binary_round_aux prec emax s (Zpos mz / 1) ez loc_Exact /\
    ez = Z.min e (fexp64 (Zdigits2 (Zpos m) + e)) /\
    Zpos mz = Zpos m * 2 ^ (e - ez) /\
    ez <= fexp64 (Zdigits2 (Zpos mz / 1) + ez).
Proof.
  unfold binary_round. rewrite fexp_eq.
  pose proof (shl_align_spec m e (fexp64 (Zpos (digits2_pos m) + e))) as H.
  destruct (shl_align m e _) as [mz ez]. destruct H as [Hez Hmz].
  exists mz, ez. rewrite Z.div_1_r.
  split; [reflexivity|]. split; [exact Hez|]. split; [exact Hmz|].
  rewrite Hmz, Zdigits2_mul_pow2 by lia.
  change (Zdigits2 (Zpos m)) with (Zpos (digits2_pos m)).
  replace (Zpos (digits2_pos m) + (e - ez) + ez) with (Zpos (digits2_pos m) + e) by lia.
  lia.
Qed.

Lemma binary_round_valid (s : bool) (m : positive) (e : Z) :
  valid_binary prec emax (binary_round prec emax s m e) = true.
Proof.
  destruct (binary_round_aux_form s m e) as (mz & ez & -> & _ & _ & Hshift).
  apply binary_round_aux_valid; [lia|lia| |exact Hshift].
  cbn [loc_ok]. apply Z.mod_1_r.
Qed.

Lemma binary_normalize_valid (m e : Z) (szero : bool) :
  valid_binary prec emax (binary_normalize prec emax m e szero) = true.
Proof.
  destruct m; simpl; [reflexivity| |]; apply binary_round_valid.
Qed.

Lemma binary_round_bounded (s : bool) (m : positive) (e mB eB : Z) :
  - scale <= e ->
  0 < mB -> fexp64 (Zdigits2 mB + eB) = eB -> eB <= 971 ->
  Zpos m * 2 ^ (e + scale) <= mB * 2 ^ (eB + scale) ->
  let r := binary_round prec emax s m e in
  valid_binary prec emax r = true /\
  is_finite r = true /\
  sign_of r = s /\
  ticks r = cond_Zopp s (Z.abs (ticks r)) /\
  Z.abs (ticks r) <= mB * 2 ^ (eB + scale) /\
  - 2 ^ (eB + scale)
    <= 2 * (Z.abs (ticks r) - Zpos m * 2 ^ (e + scale))
    <= 2 ^ (eB + scale).
Proof.
  intros He HmB HcanB HeB Hle r. unfold r.
  destruct (binary_round_aux_form s m e) as (mz & ez & -> & Hez & Hmz & Hshift).
  assert (Hscale : Zpos mz * 2 ^ (ez + scale) = Zpos m * 2 ^ (e + scale)).
  { rewrite Hmz, <- Z.mul_assoc, <- pow2_split by (unfold fexp64 in *; slia).
    f_equal. f_equal. slia. }
  pose proof (binary_round_aux_bounded s (Zpos mz) 1 ez loc_Exact mB eB
                ltac:(slia) ltac:(slia)) as Haux.
  cbn [loc_ok] in Haux. rewrite Z.mod_1_r in Haux.
  specialize (Haux eq_refl Hshift ltac:(unfold fexp64 in *; slia) HmB HcanB HeB).
  rewrite Hscale, Z.mul_1_r in Haux. specialize (Haux Hle).
  cbv zeta in Haux. rewrite !Z.mul_1_r in Haux.
  destruct Haux as (H1 & H2 & H3 & H4 & H5 & H6).
  repeat split; try assumption; slia.
Qed.

(** ** The operations keep doubles well formed *)

Lemma mul_shift (mx my : positive) (ex ey : Z) :
  valid_binary prec emax (S754_finite false mx ex) = true ->
  valid_binary prec emax (S754_finite false my ey) = true ->
  - scale <= ex + ey /\
  ex + ey <= fexp64 (Zdigits2 (Zpos (mx * my) / 1) + (ex + ey)).
Proof.
  intros Hx Hy.
  apply valid_finite_facts in Hx. apply valid_finite_facts in Hy.
  rewrite Z.div_1_r, Pos2Z.inj_mul.
  pose proof (Zdigits2_mul_ge (Zpos mx) (Zpos my) ltac:(slia) ltac:(slia)).
  unfold fexp64 in *. slia.
Qed.

Lemma mul_valid (x y : float) :
  valid_binary prec emax x = true -> valid_binary prec emax y = true ->
  valid_binary prec emax (mul x y) = true.
Proof.
  intros Hx Hy. unfold mul.
  destruct x as [sx|sx| |sx mx ex], y as [sy|sy| |sy my ey]; try reflexivity.
  cbn [SFmul].
  rewrite <- (Z.div_1_r (Zpos (mx * my))).
  apply binary_round_aux_valid; [lia|lia|cbn [loc_ok]; apply Z.mod_1_r|].
  apply (mul_shift mx my ex ey); assumption.
Qed.

Lemma add_valid (x y : float) :
  valid_binary prec emax x = true -> valid_binary prec emax y = true ->
  valid_binary prec emax (add x y) = true.
Proof.
  intros Hx Hy. unfold add.
  destruct x as [sx|sx| |sx mx ex], y as [sy|sy| |sy my ey];
    try reflexivity; try assumption;
    try (destruct sx, sy; reflexivity).
  cbn [SFadd]. apply binary_normalize_valid.
Qed.

Lemma sub_valid (x y : float) :
  valid_binary prec emax x = true -> valid_binary prec emax y = true ->
  valid_binary prec emax (sub x y) = true.
Proof.
  intros Hx Hy. unfold sub.
  destruct x as [sx|sx| |sx mx ex], y as [sy|sy| |sy my ey];
    try reflexivity; try assumption;
    try (destruct sx, sy; reflexivity).
  cbn [SFsub]. apply binary_normalize_valid.
Qed.

Lemma new_location_ok (nb r : Z) :
  0 <= r < nb -> loc_ok (new_location nb r) r nb.
Proof.
  intros Hr. unfold new_location, new_location_even, new_location_odd.
  destruct (Z.even nb) eqn:Heven; destruct (Z.eqb_spec r 0) as [->|Hnz];
    try reflexivity.
  - destruct (Z.compare_spec (2 * r) nb); cbn [loc_ok]; lia.
  - assert (Hodd : nb <> 2 * r).
    { intros ->. rewrite Z.even_mul in Heven. discriminate. }
    destruct (Z.compare_spec (2 * r + 1) nb); cbn [loc_ok]; lia.
Qed.

Lemma SFdiv_core_spec (m1 m2 : positive) (e1 e2 : Z) :
  exists (N e' : Z) (l : location),
    SFdiv_core_binary prec emax (Zpos m1) e1 (Zpos m2) e2 = (N / Zpos m2, e', l) /\
    e' = Z.min (fexp64 (Zdigits2 (Zpos m1) + e1 - (Zdigits2 (Zpos m2) + e2))) (e1 - e2) /\
    N = Zpos m1 * 2 ^ (e1 - e2 - e') /\
    loc_ok l (N mod Zpos m2) (Zpos m2) /\
    e' <= fexp64 (Zdigits2 (N / Zpos m2) + e').
Proof.
  unfold SFdiv_core_binary. rewrite fexp_eq.
  set (d1 := Zdigits2 (Zpos m1)). set (d2 := Zdigits2 (Zpos m2)).
  set (e' := Z.min (fexp64 (d1 + e1 - (d2 + e2))) (e1 - e2)).
  set (s := e1 - e2 - e').
  assert (Hs : 0 <= s) by (unfold s, e'; lia).
  set (m' := match s with
             | 0 => Zpos m1
             | Zpos _ => Z.shiftl (Zpos m1) s
             | Zneg _ => 0
             end).
  assert (Hm' : m' = Zpos m1 * 2 ^ s).
  { unfold m'. destruct s as [|p|p]; try lia.
    apply Z.shiftl_mul_pow2. lia. }
  pose proof (pow2_pos s Hs) as Hs2.
  assert (Hm'pos : 0 < m') by (rewrite Hm'; apply Z.mul_pos_pos; lia).
  pose proof (Z.mod_pos_bound m' (Zpos m2) ltac:(lia)) as Hmod.
  unfold Z.modulo, Z.div in *.
  destruct (Z.div_eucl m' (Zpos m2)) as [q r] eqn:Hqr.
  exists m', e', (new_location (Zpos m2) r).
  unfold Z.div, Z.modulo. rewrite Hqr.
  split; [reflexivity|]. split; [reflexivity|]. split; [exact Hm'|].
  split; [apply new_location_ok; exact Hmod|].
  assert (Hq : q = m' / Zpos m2) by (unfold Z.div; rewrite Hqr; reflexivity).
  (* the quotient has at least [d1 + s - d2] digits *)
  assert (Hdq : d1 + s - d2 <= Zdigits2 q).
  { destruct (Z.le_gt_cases (d1 + s - d2) 0) as [|Hbig].
    - pose proof (Zdigits2_nonneg q). lia.
    - pose proof (Zdigits2_spec (Zpos m1) ltac:(lia)) as H1. fold d1 in H1.
      pose proof (Zdigits2_spec (Zpos m2) ltac:(lia)) as H2. fold d2 in H2.
      pose proof (Zdigits2_pos (Zpos m1) ltac:(lia)) as H1p. fold d1 in H1p.
      pose proof (Zdigits2_pos (Zpos m2) ltac:(lia)) as H2p. fold d2 in H2p.
      replace (d1 + s - d2) with ((d1 + s - d2 - 1) + 1) by lia.
      apply Zdigits2_ge; [lia|].
      rewrite Hq. apply Z.div_le_lower_bound; [lia|].
      rewrite Hm'.
      apply Z.le_trans with (2 ^ d2 * 2 ^ (d1 + s - d2 - 1)).
      + apply Z.mul_le_mono_nonneg_r; [apply Z.lt_le_incl, pow2_pos|]; lia.
      + rewrite <- pow2_split by lia.
        replace (d2 + (d1 + s - d2 - 1)) with ((d1 - 1) + s) by lia.
        rewrite pow2_split by lia.
        apply Z.mul_le_mono_nonneg_r; lia. }
  unfold s, e', fexp64 in *. lia.
Qed.

Lemma div_valid (x y : float) :
  valid_binary prec emax x = true -> valid_binary prec emax y = true ->
  valid_binary prec emax (SFdiv prec emax x y) = true.
Proof.
  intros Hx Hy.
  destruct x as [sx|sx| |sx mx ex], y as [sy|sy| |sy my ey]; try reflexivity.
  cbn [SFdiv].
  destruct (SFdiv_core_spec mx my ex ey) as (N & e' & l & -> & He' & HN & Hl & Hshift).
  apply binary_round_aux_valid; try assumption; lia.
Qed.

(** ** Reading a ratio and rounding to decimals *)

Lemma of_ratio_bounded (s : bool) (n : Z) (den : positive) (mB eB : Z) :
  0 <= n ->
  0 < mB -> fexp64 (Zdigits2 mB + eB) = eB -> eB <= 971 ->
  n * 2 ^ scale <= mB * 2 ^ (eB + scale) * Zpos den ->
  let r := of_ratio s n den in
  valid_binary prec emax r = true /\
  is_finite r = true /\
  sign_of r = s /\
  ticks r = cond_Zopp s (Z.abs (ticks r)) /\
  Z.abs (ticks r) <= mB * 2 ^ (eB + scale) /\
  - (2 ^ (eB + scale) * Zpos den)
    <= 2 * (Z.abs (ticks r) * Zpos den - n * 2 ^ scale)
    <= 2 ^ (eB + scale) * Zpos den.
Proof.
  intros Hn HmB HcanB HeB Hle r. unfold r, of_ratio.
  assert (HeBlo : -1074 <= eB) by (unfold fexp64 in HcanB; slia).
  pose proof (pow2_pos (eB + scale) ltac:(slia)) as HpB.
  destruct n as [|p|p]; [| |slia].
  - cbn [is_finite sign_of ticks valid_binary]. change (Z.abs 0) with 0.
    assert (0 <= mB * 2 ^ (eB + scale)) by (apply Z.mul_nonneg_nonneg; slia).
    assert (0 <= 2 ^ (eB + scale) * Zpos den) by (apply Z.mul_nonneg_nonneg; slia).
    repeat split; try reflexivity; try slia. destruct s; reflexivity.
  - cbn [SFdiv].
    destruct (SFdiv_core_spec p den 0 0) as (N & e' & l & -> & He' & HN & Hl & Hshift).
    rewrite xorb_false_r.
    assert (He'lo : -1074 <= e' <= 0) by (unfold fexp64 in He'; slia).
    assert (Hscale : N * 2 ^ (e' + scale) = Zpos p * 2 ^ scale).
    { rewrite HN, <- Z.mul_assoc, <- pow2_split by slia. f_equal. f_equal. slia. }
    pose proof (binary_round_aux_bounded s N (Zpos den) e' l mB eB) as Haux.
    rewrite Hscale in Haux.
    apply Haux; try assumption; slia.
Qed.

Lemma scaled_digits_spec (nd : Z) (m : positive) (e : Z) :
  0 <= nd -> -1074 <= e ->
  let n := scaled_digits nd m e in
  0 <= n /\
  - 2 ^ scale <= 2 * (n * 2 ^ scale - 10 ^ nd * (Zpos m * 2 ^ (e + scale))) <= 2 ^ scale /\
  (0 <= e -> n = 10 ^ nd * (Zpos m * 2 ^ e)) /\
  (e < 0 -> n <= 10 ^ nd * Zpos m).
Proof.
  intros Hnd He n. unfold n, scaled_digits.
  assert (HP : 0 < 10 ^ nd) by (apply Z.pow_pos_nonneg; slia).
  set (P := 10 ^ nd) in *.
  pose proof (pow2_pos scale ltac:(slia)) as HU.
  destruct (Z.leb_spec 0 e) as [Hpos|Hneg].
  - pose proof (pow2_pos e Hpos) as He2.
    rewrite (pow2_split e scale) by slia.
    assert (0 <= Zpos m * P * 2 ^ e).
    { apply Z.mul_nonneg_nonneg; [apply Z.mul_nonneg_nonneg|]; slia. }
    split; [assumption|].
    replace (Zpos m * P * 2 ^ e * 2 ^ scale - P * (Zpos m * (2 ^ e * 2 ^ scale)))
      with 0 by ring.
    split; [slia|]. split; [intros _; ring|slia].
  - set (D := 2 ^ (- e)). assert (HD : 0 < D) by (apply pow2_pos; slia).
    assert (HN : 0 <= Zpos m * P) by (apply Z.mul_nonneg_nonneg; slia).
    destruct (rne_div_bounds (Zpos m * P) D HN HD) as [[Hlo _] Herr].
    assert (0 <= Zpos m * P / D) by (apply Z.div_pos; slia).
    split; [slia|].
    set (q := rne_div (Zpos m * P) D) in *.
    assert (HDU : D * 2 ^ (e + scale) = 2 ^ scale).
    { unfold D. rewrite <- pow2_split by slia. f_equal. slia. }
    set (V := 2 ^ (e + scale)) in *.
    assert (HV : 0 < V) by (apply pow2_pos; slia).
    rewrite <- HDU.
    set (Y := q * D - Zpos m * P) in *.
    replace (q * (D * V) - P * (Zpos m * V)) with (Y * V) by (unfold Y; ring).
    assert (2 * Y * V <= D * V) by (apply Z.mul_le_mono_nonneg_r; slia).
    assert ((- D) * V <= 2 * Y * V) by (apply Z.mul_le_mono_nonneg_r; slia).
    split; [slia|]. split; [slia|]. intros _.
    replace (P * Zpos m) with (Zpos m * P) by ring.
    apply rne_div_le; try slia.
    assert (Zpos m * P * 1 <= Zpos m * P * D) by (apply Z.mul_le_mono_nonneg_l; slia).
    slia.
Qed.

(** [round] never raises on a well-formed double, and its result is a
    well-formed double. *)
Lemma round_ok (x : float) (ndigits : Z) :
  valid_binary prec emax x = true -> 0 <= ndigits ->
  exists r, round x ndigits = Ok r /\ valid_binary prec emax r = true.
Proof.
  intros Hx Hnd. destruct x as [s|s| |s m e]; try (eexists; split; [reflexivity|assumption]).
  unfold round.
  pose proof (valid_finite_facts s m e Hx) as (Hcan & He & Hd).
  assert (HP : 0 < 10 ^ ndigits) by (apply Z.pow_pos_nonneg; slia).
  destruct (scaled_digits_spec ndigits m e Hnd ltac:(slia)) as (Hn0 & _ & Hbig & Hsmall).
  set (n := scaled_digits ndigits m e) in *.
  assert (Hfin : valid_binary prec emax (of_ratio s n (Z.to_pos (10 ^ ndigits))) = true /\
                 is_finite (of_ratio s n (Z.to_pos (10 ^ ndigits))) = true).
  { destruct (Z.le_gt_cases 0 e) as [Hpos|Hneg].
    - assert (Hle : n * 2 ^ scale
                    <= Zpos m * 2 ^ (e + scale) * Zpos (Z.to_pos (10 ^ ndigits))).
      { rewrite Z2Pos.id by slia. rewrite (Hbig Hpos), (pow2_split e scale) by slia.
        apply Z.eq_le_incl. ring. }
      destruct (of_ratio_bounded s n _ (Zpos m) e Hn0 ltac:(slia) Hcan ltac:(slia) Hle)
        as (Hv & Hf & _).
      split; assumption.
    - assert (Hle : n * 2 ^ scale
                    <= 2 ^ 52 * 2 ^ (1 + scale) * Zpos (Z.to_pos (10 ^ ndigits))).
      { rewrite Z2Pos.id by slia.
        specialize (Hsmall Hneg).
        pose proof (Zdigits2_spec (Zpos m) ltac:(slia)) as Hdig.
        assert (Zpos m < 2 ^ 53).
        { apply Z.lt_le_trans with (2 ^ Zdigits2 (Zpos m)); [slia|]. apply pow2_le. slia. }
        pose proof (pow2_pos scale ltac:(slia)) as HU.
        change (2 ^ (1 + scale)) with (2 * 2 ^ scale).
        replace (2 ^ 52 * (2 * 2 ^ scale)) with (2 ^ 53 * 2 ^ scale)
          by (change (2 ^ 53) with (2 ^ 52 * 2); ring).
        assert (n <= 10 ^ ndigits * 2 ^ 53).
        { apply Z.le_trans with (10 ^ ndigits * Zpos m); [exact Hsmall|].
          apply Z.mul_le_mono_nonneg_l; slia. }
        replace (2 ^ 53 * 2 ^ scale * 10 ^ ndigits)
          with (10 ^ ndigits * 2 ^ 53 * 2 ^ scale) by ring.
        apply Z.mul_le_mono_nonneg_r; slia. }
      destruct (of_ratio_bounded s n _ (2 ^ 52) 1 Hn0 ltac:(slia) eq_refl ltac:(slia) Hle)
        as (Hv & Hf & _).
      split; assumption. }
  destruct Hfin as [Hv Hf].
  destruct (of_ratio s n (Z.to_pos (10 ^ ndigits))) as [s'|s'| |s' m' e'];
    try discriminate; eexists; (split; [reflexivity|assumption]).
Qed.

(** ** Sums, differences and products in ticks *)

Lemma ticks_finite_split (s : bool) (m : positive) (e ez : Z) :
  - scale <= ez <= e ->
  ticks (S754_finite s m e)
  = cond_Zopp s (Zpos m * 2 ^ (e - ez)) * 2 ^ (ez + scale).
Proof.
  intros He. cbn [ticks].
  replace (e + scale) with ((e - ez) + (ez + scale)) by slia.
  rewrite pow2_split by slia. destruct s; cbn [cond_Zopp]; ring.
Qed.

Lemma binary_normalize_bounded (S e mB eB : Z) :
  - scale <= e ->
  0 < mB -> fexp64 (Zdigits2 mB + eB) = eB -> eB <= 971 ->
  Z.abs (S * 2 ^ (e + scale)) <= mB * 2 ^ (eB + scale) ->
  let r := binary_normalize prec emax S e false in
  valid_binary prec emax r = true /\
  is_finite r = true /\
  Z.abs (ticks r) <= mB * 2 ^ (eB + scale) /\
  - 2 ^ (eB + scale) <= 2 * (ticks r - S * 2 ^ (e + scale)) <= 2 ^ (eB + scale).
Proof.
  intros He HmB HcanB HeB Hle r. unfold r.
  assert (HeBlo : -1074 <= eB) by (unfold fexp64 in HcanB; slia).
  pose proof (pow2_pos (eB + scale) ltac:(slia)) as HpB.
  pose proof (pow2_pos (e + scale) ltac:(slia)) as Hp.
  assert (0 <= mB * 2 ^ (eB + scale)) by (apply Z.mul_nonneg_nonneg; slia).
  destruct S as [|p|p]; cbn [binary_normalize].
  - cbn [valid_binary is_finite ticks]. rewrite Z.mul_0_l.
    repeat split; try reflexivity; slia.
  - assert (Hpos : 0 <= Zpos p * 2 ^ (e + scale)) by (apply Z.mul_nonneg_nonneg; slia).
    rewrite Z.abs_eq in Hle by exact Hpos.
    destruct (binary_round_bounded false p e mB eB He HmB HcanB HeB Hle)
      as (Hv & Hf & _ & Hs & Hb & Herr).
    cbn [cond_Zopp] in Hs. rewrite <- Hs in Herr.
    repeat split; try assumption; slia.
  - assert (Hpos : 0 <= Zpos p * 2 ^ (e + scale)) by (apply Z.mul_nonneg_nonneg; slia).
    replace (Zneg p * 2 ^ (e + scale)) with (- (Zpos p * 2 ^ (e + scale))) in * by slia.
    rewrite Z.abs_opp, Z.abs_eq in Hle by exact Hpos.
    destruct (binary_round_bounded true p e mB eB He HmB HcanB HeB Hle)
      as (Hv & Hf & _ & Hs & Hb & Herr).
    cbn [cond_Zopp] in Hs.
    repeat split; try assumption; slia.
Qed.

Lemma add_bounded (x y : float) (mB eB : Z) :
  valid_binary prec emax x = true -> valid_binary prec emax y = true ->
  is_finite x = true -> is_finite y = true ->
  0 < mB -> fexp64 (Zdigits2 mB + eB) = eB -> eB <= 971 ->
  Z.abs (ticks x + ticks y) <= mB * 2 ^ (eB + scale) ->
  let r := add x y in
  valid_binary prec emax r = true /\
  is_finite r = true /\
  Z.abs (ticks r) <= mB * 2 ^ (eB + scale) /\
  - 2 ^ (eB + scale) <= 2 * (ticks r - (ticks x + ticks y)) <= 2 ^ (eB + scale).
Proof.
  intros Hx Hy Hfx Hfy HmB HcanB HeB Hle r. unfold r, add.
  assert (HeBlo : -1074 <= eB) by (unfold fexp64 in HcanB; slia).
  pose proof (pow2_pos (eB + scale) ltac:(slia)) as HpB.
  assert (0 <= mB * 2 ^ (eB + scale)) by (apply Z.mul_nonneg_nonneg; slia).
  destruct x as [sx|sx| |sx mx ex], y as [sy|sy| |sy my ey]; try discriminate.
  - destruct sx, sy; cbn [SFadd valid_binary is_finite ticks];
      repeat split; try reflexivity; slia.
  - cbn [SFadd]. change (ticks (S754_zero sx)) with 0 in *.
    rewrite Z.add_0_l in *. repeat split; try assumption; slia.
  - cbn [SFadd]. change (ticks (S754_zero sy)) with 0 in *.
    rewrite Z.add_0_r in *. repeat split; try assumption; slia.
  - cbn [SFadd].
    pose proof (valid_finite_facts sx mx ex Hx) as (_ & Hex & _).
    pose proof (valid_finite_facts sy my ey Hy) as (_ & Hey & _).
    set (ez := Z.min ex ey).
    rewrite (shl_align_fst mx ex ez), (shl_align_fst my ey ez) by (unfold ez; slia).
    rewrite (ticks_finite_split sx mx ex ez), (ticks_finite_split sy my ey ez) in *
      by (unfold ez; slia).
    rewrite <- Z.mul_add_distr_r in *.
    apply binary_normalize_bounded; try assumption. unfold ez. slia.
Qed.

Lemma sub_bounded (x y : float) (mB eB : Z) :
  valid_binary prec emax x = true -> valid_binary prec emax y = true ->
  is_finite x = true -> is_finite y = true ->
  0 < mB -> fexp64 (Zdigits2 mB + eB) = eB -> eB <= 971 ->
  Z.abs (ticks x - ticks y) <= mB * 2 ^ (eB + scale) ->
  let r := sub x y in
  valid_binary prec emax r = true /\
  is_finite r = true /\
  Z.abs (ticks r) <= mB * 2 ^ (eB + scale) /\
  - 2 ^ (eB + scale) <= 2 * (ticks r - (ticks x - ticks y)) <= 2 ^ (eB + scale).
Proof.
  intros Hx Hy Hfx Hfy HmB HcanB HeB Hle r. unfold r, sub.
  assert (HeBlo : -1074 <= eB) by (unfold fexp64 in HcanB; slia).
  pose proof (pow2_pos (eB + scale) ltac:(slia)) as HpB.
  assert (0 <= mB * 2 ^ (eB + scale)) by (apply Z.mul_nonneg_nonneg; slia).
  destruct x as [sx|sx| |sx mx ex], y as [sy|sy| |sy my ey]; try discriminate.
  - destruct sx, sy; cbn [SFsub valid_binary is_finite ticks];
      repeat split; try reflexivity; slia.
  - cbn [SFsub]. change (ticks (S754_zero sx)) with 0 in *.
    rewrite Z.sub_0_l in *.
    assert (Hneg : ticks (S754_finite (negb sy) my ey) = - ticks (S754_finite sy my ey)).
    { cbn [ticks]. destruct sy; cbn [negb cond_Zopp]; slia. }
    rewrite Hneg. repeat split; try assumption; try reflexivity; slia.
  - cbn [SFsub]. change (ticks (S754_zero sy)) with 0 in *.
    rewrite Z.sub_0_r in *. repeat split; try assumption; slia.
  - cbn [SFsub].
    pose proof (valid_finite_facts sx mx ex Hx) as (_ & Hex & _).
    pose proof (valid_finite_facts sy my ey Hy) as (_ & Hey & _).
    set (ez := Z.min ex ey).
    rewrite (shl_align_fst mx ex ez), (shl_align_fst my ey ez) by (unfold ez; slia).
    rewrite (ticks_finite_split sx mx ex ez), (ticks_finite_split sy my ey ez) in *
      by (unfold ez; slia).
    rewrite <- Z.mul_sub_distr_r in *.
    apply binary_normalize_bounded; try assumption. unfold ez. slia.
Qed.

Lemma mul_bounded (x y : float) (mB eB : Z) :
  valid_binary prec emax x = true -> valid_binary prec emax y = true ->
  is_finite x = true -> is_finite y = true ->
  0 < mB -> fexp64 (Zdigits2 mB + eB) = eB -> eB <= 971 ->
  Z.abs (ticks x) * Z.abs (ticks y) <= mB * 2 ^ (eB + scale) * 2 ^ scale ->
  let r := mul x y in
  valid_binary prec emax r = true /\
  is_finite r = true /\
  sign_of r = xorb (sign_of x) (sign_of y) /\
  Z.abs (ticks r) <= mB * 2 ^ (eB + scale).
Proof.
  intros Hx Hy Hfx Hfy HmB HcanB HeB Hle r. unfold r, mul.
  assert (HeBlo : -1074 <= eB) by (unfold fexp64 in HcanB; slia).
  pose proof (pow2_pos (eB + scale) ltac:(slia)) as HpB.
  pose proof (pow2_pos scale ltac:(slia)) as HU.
  assert (0 <= mB * 2 ^ (eB + scale)) by (apply Z.mul_nonneg_nonneg; slia).
  destruct x as [sx|sx| |sx mx ex], y as [sy|sy| |sy my ey]; try discriminate;
    try (cbn [SFmul valid_binary is_finite ticks sign_of]; change (Z.abs 0) with 0;
         repeat split; try reflexivity; slia).
  cbn [SFmul sign_of].
  destruct (mul_shift mx my ex ey) as [Hlo Hshift].
  { destruct sx; exact Hx. }
  { destruct sy; exact Hy. }
  pose proof (valid_finite_facts sx mx ex Hx) as (_ & Hex & _).
  pose proof (valid_finite_facts sy my ey Hy) as (_ & Hey & _).
  rewrite <- (Z.div_1_r (Zpos (mx * my))).
  assert (Hbound : Zpos (mx * my) * 2 ^ (ex + ey + scale) <= mB * 2 ^ (eB + scale) * 1).
  { cbn [ticks] in Hle.
    assert (Hax : Z.abs (cond_Zopp sx (Zpos mx * 2 ^ (ex + scale))) = Zpos mx * 2 ^ (ex + scale)).
    { pose proof (pow2_pos (ex + scale) ltac:(slia)).
      destruct sx; cbn [cond_Zopp]; rewrite ?Z.abs_opp; apply Z.abs_eq;
        apply Z.mul_nonneg_nonneg; slia. }
    assert (Hay : Z.abs (cond_Zopp sy (Zpos my * 2 ^ (ey + scale))) = Zpos my * 2 ^ (ey + scale)).
    { pose proof (pow2_pos (ey + scale) ltac:(slia)).
      destruct sy; cbn [cond_Zopp]; rewrite ?Z.abs_opp; apply Z.abs_eq;
        apply Z.mul_nonneg_nonneg; slia. }
    rewrite Hax, Hay in Hle.
    assert (Hprod : Zpos mx * 2 ^ (ex + scale) * (Zpos my * 2 ^ (ey + scale))
                    = Zpos (mx * my) * 2 ^ (ex + ey + scale) * 2 ^ scale).
    { rewrite Pos2Z.inj_mul.
      replace (Zpos mx * 2 ^ (ex + scale) * (Zpos my * 2 ^ (ey + scale)))
        with (Zpos mx * Zpos my * (2 ^ (ex + scale) * 2 ^ (ey + scale))) by ring.
      rewrite <- pow2_split by slia.
      replace (ex + scale + (ey + scale)) with ((ex + ey + scale) + scale) by slia.
      rewrite pow2_split by slia. ring. }
    rewrite Hprod in Hle. rewrite Z.mul_1_r.
    apply (Z.mul_le_mono_pos_r _ _ (2 ^ scale)); assumption. }
  destruct (binary_round_aux_bounded (xorb sx sy) (Zpos (mx * my)) 1 (ex + ey) loc_Exact
              mB eB ltac:(slia) ltac:(slia)) as (Hv & Hf & Hs & _ & Hb & _);
    try assumption.
  - cbn [loc_ok]. apply Z.mod_1_r.
  - repeat split; assumption.
Qed.

(** ** Comparisons *)

Lemma canonical_lt (m1 m2 : positive) (e1 e2 : Z) :
  fexp64 (Zdigits2 (Zpos m1) + e1) = e1 ->
  fexp64 (Zdigits2 (Zpos m2) + e2) = e2 ->
  e1 < e2 ->
  Zpos m1 * 2 ^ (e1 + scale) < Zpos m2 * 2 ^ (e2 + scale).
Proof.
  intros H1 H2 Hlt.
  pose proof (Zdigits2_spec (Zpos m1) ltac:(slia)) as Hd1.
  pose proof (Zdigits2_spec (Zpos m2) ltac:(slia)) as Hd2.
  pose proof (Zdigits2_pos (Zpos m1) ltac:(slia)) as Hp1.
  pose proof (Zdigits2_pos (Zpos m2) ltac:(slia)) as Hp2.
  set (d1 := Zdigits2 (Zpos m1)) in *. set (d2 := Zdigits2 (Zpos m2)) in *.
  assert (He1 : -1074 <= e1) by (unfold fexp64 in H1; slia).
  assert (Hmag : d1 + e1 <= d2 - 1 + e2) by (unfold fexp64 in *; slia).
  pose proof (pow2_pos (e1 + scale) ltac:(slia)).
  pose proof (pow2_pos (e2 + scale) ltac:(slia)).
  apply Z.lt_le_trans with (2 ^ d1 * 2 ^ (e1 + scale)).
  - apply Z.mul_lt_mono_pos_r; slia.
  - apply Z.le_trans with (2 ^ (d2 - 1) * 2 ^ (e2 + scale)).
    + rewrite <- !pow2_split by slia. apply pow2_le. slia.
    + apply Z.mul_le_mono_nonneg_r; slia.
Qed.

Lemma SFcompare_ticks (x y : float) :
  valid_binary prec emax x = true -> valid_binary prec emax y = true ->
  is_finite x = true -> is_finite y = true ->
  SFcompare x y = Some (ticks x ?= ticks y).
Proof.
  intros Hx Hy Hfx Hfy.
  destruct x as [sx|sx| |sx mx ex], y as [sy|sy| |sy my ey]; try discriminate.
  - reflexivity.
  - pose proof (valid_finite_facts sy my ey Hy) as (_ & Hey & _).
    pose proof (pow2_pos (ey + scale) ltac:(slia)).
    assert (0 < Zpos my * 2 ^ (ey + scale)) by (apply Z.mul_pos_pos; slia).
    cbn [SFcompare ticks]. f_equal. symmetry.
    destruct sy; cbn [cond_Zopp]; [apply Z.compare_gt_iff|apply Z.compare_lt_iff]; slia.
  - pose proof (valid_finite_facts sx mx ex Hx) as (_ & Hex & _).
    pose proof (pow2_pos (ex + scale) ltac:(slia)).
    assert (0 < Zpos mx * 2 ^ (ex + scale)) by (apply Z.mul_pos_pos; slia).
    cbn [SFcompare ticks]. f_equal. symmetry.
    destruct sx; cbn [cond_Zopp]; [apply Z.compare_lt_iff|apply Z.compare_gt_iff]; slia.
  - pose proof (valid_finite_facts sx mx ex Hx) as (Hcx & Hex & _).
    pose proof (valid_finite_facts sy my ey Hy) as (Hcy & Hey & _).
    pose proof (pow2_pos (ex + scale) ltac:(slia)) as Hpx.
    pose proof (pow2_pos (ey + scale) ltac:(slia)) as Hpy.
    assert (Hposx : 0 < Zpos mx * 2 ^ (ex + scale)) by (apply Z.mul_pos_pos; slia).
    assert (Hposy : 0 < Zpos my * 2 ^ (ey + scale)) by (apply Z.mul_pos_pos; slia).
    assert (Hmag : (Zpos mx * 2 ^ (ex + scale) ?= Zpos my * 2 ^ (ey + scale))
                   = match ex ?= ey with
                     | Lt => Lt
                     | Gt => Gt
                     | Eq => Pos.compare_cont Eq mx my
                     end).
    { destruct (Z.compare_spec ex ey) as [->|Hlt|Hgt].
      - change (Pos.compare_cont Eq mx my) with (Zpos mx ?= Zpos my).
        destruct (Z.compare_spec (Zpos mx) (Zpos my)) as [E|E|E].
        + rewrite E. apply Z.compare_refl.
        + apply Z.compare_lt_iff. apply Z.mul_lt_mono_pos_r; assumption.
        + apply Z.compare_gt_iff. apply Z.mul_lt_mono_pos_r; assumption.
      - apply Z.compare_lt_iff. apply canonical_lt; assumption.
      - apply Z.compare_gt_iff. apply canonical_lt; assumption. }
    cbn [SFcompare ticks]. f_equal.
    destruct sx, sy; cbn [cond_Zopp].
    + rewrite Z.compare_opp.
      rewrite (Z.compare_antisym (Zpos mx * 2 ^ (ex + scale)) (Zpos my * 2 ^ (ey + scale))).
      rewrite Hmag. destruct (ex ?= ey); reflexivity.
    + symmetry. apply Z.compare_lt_iff. slia.
    + symmetry. apply Z.compare_gt_iff. slia.
    + symmetry. exact Hmag.
Qed.

(** A double between 0 and a finite bound is finite, and so are its ticks. *)
Lemma range_ticks (x bound : float) :
  valid_binary prec emax x = true -> valid_binary prec emax bound = true ->
  is_finite bound = true ->
  ge x (of_int 0) = true -> le x bound = true ->
  is_finite x = true /\ 0 <= ticks x <= ticks bound.
Proof.
  intros Hx Hb Hfb Hge Hle.
  assert (Hfx : is_finite x = true).
  { destruct x as [sx|sx| |sx mx ex]; try reflexivity.
    - destruct sx; [discriminate|].
      destruct bound as [sb|sb| |sb mb eb]; discriminate.
    - discriminate. }
  split; [exact Hfx|].
  unfold ge, le, SFleb in *.
  rewrite (SFcompare_ticks (of_int 0) x) in Hge by (assumption || reflexivity).
  rewrite (SFcompare_ticks x bound) in Hle by assumption.
  change (ticks (of_int 0)) with 0 in Hge.
  destruct (Z.compare_spec 0 (ticks x)); try discriminate;
    destruct (Z.compare_spec (ticks x) (ticks bound)); try discriminate; lia.
Qed.

(** ** Cents *)

Lemma cents_spec (x : float) :
  valid_binary prec emax x = true ->
  - 2 ^ scale <= 2 * (cents x * 2 ^ scale - 100 * ticks x) <= 2 ^ scale.
Proof.
  intros Hx. pose proof (pow2_pos scale ltac:(slia)) as HU.
  destruct x as [sx|sx| |sx mx ex]; cbn [cents ticks]; try slia.
  pose proof (valid_finite_facts sx mx ex Hx) as (_ & Hex & _).
  destruct (scaled_digits_spec 2 mx ex ltac:(slia) ltac:(slia)) as (_ & Herr & _).
  change (10 ^ 2) with 100 in Herr.
  destruct sx; cbn [cond_Zopp]; slia.
Qed.

Lemma cents_near (x : float) (z : Z) :
  valid_binary prec emax x = true ->
  - 2 ^ scale < 2 * (z * 2 ^ scale - 100 * ticks x) < 2 ^ scale ->
  cents x = z.
Proof.
  intros Hx Hz. pose proof (cents_spec x Hx) as Hc.
  pose proof (pow2_pos scale ltac:(slia)) as HU.
  set (U := 2 ^ scale) in *.
  assert (H1 : (cents x - z - 1) * U < 0) by slia.
  assert (H2 : 0 < (cents x - z + 1) * U) by slia.
  assert (cents x - z - 1 < 0) by (apply (Z.mul_lt_mono_pos_r U); slia).
  assert (0 < cents x - z + 1) by (apply (Z.mul_lt_mono_pos_r U); slia).
  slia.
Qed.

(** ** Amounts in cents, up to rounding *)

Lemma scale_facts :
  2 ^ scale = 262144 * 2 ^ (-18 + scale) /\ 2 ^ (34 + scale) = 2 ^ 52 * 2 ^ (-18 + scale)
  /\ 0 < 2 ^ (-18 + scale).
Proof.
  pose proof scale_eq. split; [|split].
  - change 262144 with (2 ^ 18). rewrite <- Z.pow_add_r by lia. f_equal; lia.
  - rewrite <- Z.pow_add_r by lia. f_equal; lia.
  - apply Z.pow_pos_nonneg; lia.
Qed.

Lemma scale_cancel_le (a b W : Z) : 0 < W -> a * W <= b * W -> a <= b.
Proof. intros HW H. apply (Z.mul_le_mono_pos_r _ _ W HW). exact H. Qed.

Lemma scale_cancel_lt (a b W : Z) : 0 < W -> a * W < b * W -> a < b.
Proof. intros HW H. apply (Z.mul_lt_mono_pos_r W _ _ HW). exact H. Qed.

Lemma scale_mono_le (a b W : Z) : 0 < W -> a <= b -> a * W <= b * W.
Proof. intros HW H. apply Z.mul_le_mono_nonneg_r; lia. Qed.

Lemma scale_between (a lo hi W : Z) :
  0 < W -> lo <= a <= hi -> lo * W <= a * W <= hi * W.
Proof. intros HW H. split; apply Z.mul_le_mono_nonneg_r; lia. Qed.

Ltac scale_consts :=
  destruct scale_facts as (HUW & HMW & HWpos);
  rewrite ?HMW, ?HUW in *;
  generalize dependent (2 ^ (-18 + scale)); intros W; intros.

Lemma round2_bounded (x : float) :
  valid_binary prec emax x = true -> is_finite x = true ->
  Z.abs (ticks x) <= 2 ^ (34 + scale) ->
  exists r, round x 2 = Ok r /\ approx r (cents x) 100 /\ cents r = cents x.
Proof.
  intros Hx Hfx Hb.
  destruct x as [sx|sx| |sx mx ex]; try discriminate.
  - exists (S754_zero sx). split; [reflexivity|]. split; [|reflexivity].
    unfold approx. cbn [cents ticks]. repeat split; try reflexivity; slia.
  - pose proof (valid_finite_facts sx mx ex Hx) as (_ & Hex & _).
    destruct (scaled_digits_spec 2 mx ex ltac:(slia) ltac:(slia)) as (Hn0 & Herr & _).
    change (10 ^ 2) with 100 in Herr.
    set (n := scaled_digits 2 mx ex) in *.
    assert (Habs : Z.abs (ticks (S754_finite sx mx ex)) = Zpos mx * 2 ^ (ex + scale)).
    { pose proof (pow2_pos (ex + scale) ltac:(slia)).
      cbn [ticks]. destruct sx; cbn [cond_Zopp]; rewrite ?Z.abs_opp; apply Z.abs_eq;
        apply Z.mul_nonneg_nonneg; slia. }
    rewrite Habs in Hb.
    assert (Hle : n * 2 ^ scale <= 2 ^ 52 * 2 ^ (-18 + scale) * Zpos (Z.to_pos (10 ^ 2))).
    { change (Zpos (Z.to_pos (10 ^ 2))) with 100.
      set (T := Zpos mx * 2 ^ (ex + scale)) in *. clearbody T.
      scale_consts.
      assert (Hn : n <= 100 * 2 ^ 34).
      { enough (2 * 262144 * n <= 200 * 2 ^ 52 + 262144) by lia.
        apply (scale_cancel_le _ _ W HWpos). lia. }
      pose proof (scale_mono_le _ _ W HWpos Hn). lia. }
    destruct (of_ratio_bounded sx n (Z.to_pos (10 ^ 2)) (2 ^ 52) (-18)
                Hn0 ltac:(slia) eq_refl ltac:(slia) Hle)
      as (Hv & Hf & _ & Hs & _ & Herr').
    change (Zpos (Z.to_pos (10 ^ 2))) with 100 in Herr'.
    unfold round. fold n.
    set (r := of_ratio sx n (Z.to_pos (10 ^ 2))) in *.
    assert (Happ : approx r (cents (S754_finite sx mx ex)) 100).
    { unfold approx. split; [exact Hv|]. split; [exact Hf|].
      cbn [cents]. fold n. rewrite Hs.
      set (A := Z.abs (ticks r)) in *. clearbody A.
      scale_consts. destruct sx; cbn [cond_Zopp]; slia. }
    exists r. split; [|split; [exact Happ|]].
    + destruct r as [s'|s'| |s' m' e']; try discriminate; reflexivity.
    + apply cents_near; [exact Hv|].
      destruct Happ as (_ & _ & Happ).
      set (Tr := ticks r) in *. clearbody Tr.
      set (c := cents (S754_finite sx mx ex)) in *. clearbody c.
      scale_consts. slia.
Qed.

Lemma approx_bound (r : float) (z k : Z) :
  approx r z k -> Z.abs z <= 800000000000 -> 0 <= k <= 1000 ->
  Z.abs (ticks r) <= 2 ^ 33 * 2 ^ scale.
Proof.
  intros (_ & _ & H) Hz Hk.
  set (T := ticks r) in *. clearbody T.
  scale_consts.
  pose proof (scale_between k 0 1000 W HWpos ltac:(lia)).
  pose proof (scale_between z (-800000000000) 800000000000 W HWpos ltac:(lia)).
  lia.
Qed.

Lemma add_approx (r1 r2 : float) (z1 z2 k1 k2 : Z) :
  approx r1 z1 k1 -> approx r2 z2 k2 ->
  Z.abs z1 <= 800000000000 -> Z.abs z2 <= 800000000000 ->
  0 <= k1 <= 1000 -> 0 <= k2 <= 1000 ->
  approx (add r1 r2) (z1 + z2) (k1 + k2 + 100).
Proof.
  intros H1 H2 Hz1 Hz2 Hk1 Hk2.
  pose proof (approx_bound r1 z1 k1 H1 Hz1 Hk1) as Hb1.
  pose proof (approx_bound r2 z2 k2 H2 Hz2 Hk2) as Hb2.
  destruct H1 as (Hv1 & Hf1 & He1). destruct H2 as (Hv2 & Hf2 & He2).
  assert (Hb : Z.abs (ticks r1 + ticks r2) <= 2 ^ 52 * 2 ^ (-18 + scale)).
  { set (T1 := ticks r1) in *. set (T2 := ticks r2) in *. clearbody T1 T2.
    scale_consts. slia. }
  destruct (add_bounded r1 r2 (2 ^ 52) (-18) Hv1 Hv2 Hf1 Hf2 ltac:(slia) eq_refl
              ltac:(slia) Hb) as (Hv & Hf & _ & Herr).
  unfold approx. split; [exact Hv|]. split; [exact Hf|].
  set (T := ticks (add r1 r2)) in *.
  set (T1 := ticks r1) in *. set (T2 := ticks r2) in *. clearbody T T1 T2.
  scale_consts. slia.
Qed.

Lemma sub_approx (r1 r2 : float) (z1 z2 k1 k2 : Z) :
  approx r1 z1 k1 -> approx r2 z2 k2 ->
  Z.abs z1 <= 800000000000 -> Z.abs z2 <= 800000000000 ->
  0 <= k1 <= 1000 -> 0 <= k2 <= 1000 ->
  approx (sub r1 r2) (z1 - z2) (k1 + k2 + 100).
Proof.
  intros H1 H2 Hz1 Hz2 Hk1 Hk2.
  pose proof (approx_bound r1 z1 k1 H1 Hz1 Hk1) as Hb1.
  pose proof (approx_bound r2 z2 k2 H2 Hz2 Hk2) as Hb2.
  destruct H1 as (Hv1 & Hf1 & He1). destruct H2 as (Hv2 & Hf2 & He2).
  assert (Hb : Z.abs (ticks r1 - ticks r2) <= 2 ^ 52 * 2 ^ (-18 + scale)).
  { set (T1 := ticks r1) in *. set (T2 := ticks r2) in *. clearbody T1 T2.
    scale_consts. slia. }
  destruct (sub_bounded r1 r2 (2 ^ 52) (-18) Hv1 Hv2 Hf1 Hf2 ltac:(slia) eq_refl
              ltac:(slia) Hb) as (Hv & Hf & _ & Herr).
  unfold approx. split; [exact Hv|]. split; [exact Hf|].
  set (T := ticks (sub r1 r2)) in *.
  set (T1 := ticks r1) in *. set (T2 := ticks r2) in *. clearbody T T1 T2.
  scale_consts. slia.
Qed.

(** Rounding an approximate amount to two places gives the exact one. *)
Lemma round_approx (x : float) (z k : Z) :
  approx x z k -> Z.abs z <= 800000000000 -> 0 <= k <= 1000 ->
  exists r, round x 2 = Ok r /\ approx r z 100 /\ cents r = z.
Proof.
  intros Hx Hz Hk.
  pose proof (approx_bound x z k Hx Hz Hk) as Hb.
  destruct Hx as (Hv & Hf & He).
  assert (Hc : cents x = z).
  { apply cents_near; [exact Hv|].
    set (T := ticks x) in *. clearbody T. scale_consts.
    pose proof (scale_between k 0 1000 W HWpos ltac:(lia)). lia. }
  destruct (round2_bounded x Hv Hf) as (r & Hr & Happ & Hcr).
  { set (T := ticks x) in *. clearbody T. scale_consts. slia. }
  exists r. rewrite Hc in *. repeat split; assumption || apply Happ.
Qed.

End FloatFacts.

(** * Properties of the fee calculator *)

Module FeesSpec.
Import PyFloat Binary64 Fees FloatFacts.

(** ** The calculator never raises *)

Lemma gt_zero_not_zero (x : float) : gt x (of_int 0) = true -> is_zero x = false.
Proof. destruct x as [s|s| |s m e]; try reflexivity; destruct s; discriminate. Qed.

Lemma le_zero_not_gt (x : float) : le x (of_int 0) = true -> gt x (of_int 0) = false.
Proof. destruct x as [s|[]| |[] m e]; try reflexivity; discriminate. Qed.

Lemma lt_zero_not_ge (x : float) : lt x (of_int 0) = true -> ge x (of_int 0) = false.
Proof. destruct x as [s|[]| |[] m e]; try reflexivity; discriminate. Qed.

Lemma calculate_etsy_fees_total (sale_price production_cost shipping_cost : float)
    (offsite_ads : bool) :
  well_formed sale_price = true ->
  well_formed production_cost = true ->
  well_formed shipping_cost = true ->
  gt sale_price (of_int 0) = true ->
  exists response,
    calculate_etsy_fees sale_price production_cost shipping_cost offsite_ads
    = Ok response.
Proof.
  unfold well_formed. intros Hsp Hpc Hsc Hpos.
  unfold calculate_etsy_fees.
  destruct (round_ok (mul sale_price (decimal 65 3)) 2) as (tf & -> & Htf);
    [apply mul_valid; [assumption|reflexivity]|lia|].
  cbn [bind_result].
  destruct (round_ok (add (mul sale_price (decimal 3 2)) (decimal 25 2)) 2)
    as (pp & -> & Hpp);
    [apply add_valid; [apply mul_valid; [assumption|reflexivity]|reflexivity]|lia|].
  cbn [bind_result].
  assert (Hads : exists ads,
             (if offsite_ads then round (mul sale_price (decimal 15 2)) 2 else Ok zero)
             = Ok ads /\ valid_binary prec emax ads = true).
  { destruct offsite_ads.
    - apply round_ok; [apply mul_valid; [assumption|reflexivity]|lia].
    - exists zero. split; reflexivity. }
  destruct Hads as (ads & -> & Hads). cbn [bind_result].
  destruct (round_ok (add (add (add tf (decimal 20 2)) pp) ads) 2) as (total & -> & Htotal);
    [repeat apply add_valid; try assumption; reflexivity|lia|].
  cbn [bind_result].
  destruct (round_ok (sub sale_price total) 2) as (net & -> & Hnet);
    [apply sub_valid; assumption|lia|].
  cbn [bind_result].
  destruct (round_ok (add production_cost shipping_cost) 2) as (costs & -> & Hcosts);
    [apply add_valid; assumption|lia|].
  cbn [bind_result].
  destruct (round_ok (sub net costs) 2) as (profit & -> & Hprofit);
    [apply sub_valid; assumption|lia|].
  cbn [bind_result].
  rewrite Hpos. unfold truediv. rewrite (gt_zero_not_zero sale_price Hpos).
  cbn [bind_result].
  destruct (round_ok (mul (SFdiv prec emax profit sale_price) (of_int 100)) 1)
    as (margin & -> & Hmargin);
    [apply mul_valid; [apply div_valid; assumption|reflexivity]|lia|].
  cbn [bind_result]. eexists. reflexivity.
Qed.

(** X28. A request with [sale_price <= 0], or with a negative production
    or shipping cost, fails validation and the handler does not run. The
    answer is the validation error, status 422, exactly when every value
    that fails its constraint is a finite number; a negative infinity that
    fails cannot be echoed in the error body and the answer is a 500. For
    every request that passes validation the fee computation returns a
    response without raising, so the handler's internal-error answer is
    never produced. *)
Theorem validation_guards_the_computation (body : FeeCalculationRequest) :
  well_formed (sale_price body) = true ->
  well_formed (production_cost body) = true ->
  well_formed (shipping_cost body) = true ->
  (le (sale_price body) (of_int 0) = true
   \/ lt (production_cost body) (of_int 0) = true
   \/ lt (shipping_cost body) (of_int 0) = true ->
   exists errors,
     errors <> [] /\
     validate body = Raise (RequestValidationError errors) /\
     post_calculate_fees body = Raise (RequestValidationError errors) /\
     (http_status 200 (post_calculate_fees body) = 422
      \/ http_status 200 (post_calculate_fees body) = 500) /\
     (http_status 200 (post_calculate_fees body) = 422 <->
      (json_number (sale_price body) = true
       \/ gt (sale_price body) (of_int 0) = true) /\
      (json_number (production_cost body) = true
       \/ ge (production_cost body) (of_int 0) = true) /\
      (json_number (shipping_cost body) = true
       \/ ge (shipping_cost body) (of_int 0) = true))) /\
  (gt (sale_price body) (of_int 0) = true ->
   ge (production_cost body) (of_int 0) = true ->
   ge (shipping_cost body) (of_int 0) = true ->
   exists response,
     validate body = Ok body /\
     calculate_etsy_fees (sale_price body) (production_cost body)
       (shipping_cost body) (offsite_ads body) = Ok response /\
     post_calculate_fees body = Ok response).
Proof.
  intros Hsp Hpc Hsc. split.
  - intros Hbad.
    assert (Hsome : gt (sale_price body) (of_int 0) = false
                    \/ ge (production_cost body) (of_int 0) = false
                    \/ ge (shipping_cost body) (of_int 0) = false).
    { destruct Hbad as [Hb|[Hb|Hb]].
      - left. apply le_zero_not_gt. exact Hb.
      - right. left. apply lt_zero_not_ge. exact Hb.
      - right. right. apply lt_zero_not_ge. exact Hb. }
    unfold post_calculate_fees, validate, validation_errors.
    destruct (gt (sale_price body) (of_int 0)) eqn:E1;
      destruct (ge (production_cost body) (of_int 0)) eqn:E2;
      destruct (ge (shipping_cost body) (of_int 0)) eqn:E3;
      cbn [app bind_result];
      try (exfalso; destruct Hsome as [Hx|[Hx|Hx]]; discriminate);
      (eexists; split; [|split; [reflexivity|split; [reflexivity|]]]; [discriminate|]);
      cbn [http_status forallb snd andb];
      destruct (json_number (sale_price body));
      destruct (json_number (production_cost body));
      destruct (json_number (shipping_cost body));
      cbn [andb];
      (split; [first [left; reflexivity|right; reflexivity]|]);
      (split;
       [intros Hst;
        first [discriminate Hst
              |repeat split; first [left; reflexivity|right; reflexivity]]
       |intros (H1 & H2 & H3);
        first [reflexivity
              |destruct H1 as [H1|H1]; discriminate H1
              |destruct H2 as [H2|H2]; discriminate H2
              |destruct H3 as [H3|H3]; discriminate H3]]).
  - intros Hgt Hge1 Hge2.
    destruct (calculate_etsy_fees_total (sale_price body) (production_cost body)
                (shipping_cost body) (offsite_ads body) Hsp Hpc Hsc Hgt)
      as (response & Hcalc).
    exists response.
    assert (Hval : validate body = Ok body).
    { unfold validate, validation_errors. rewrite Hgt, Hge1, Hge2. reflexivity. }
    split; [exact Hval|]. split; [exact Hcalc|].
    unfold post_calculate_fees. rewrite Hval. cbn [bind_result].
    unfold calculate_fees. rewrite Hcalc. reflexivity.
Qed.

(** C8, at a [sale_price] of negative infinity. The schema's [float]
    admits the infinities, which a JSON body can carry as [-Infinity]. This
    one is not positive: it fails validation before the handler runs, but
    the answer is a 500, not the client validation error 422. *)
Lemma C8_minus_infinity_is_answered_500 :
  let body := {| sale_price := S754_infinity true;
                 production_cost := decimal 1200 2;
                 shipping_cost := decimal 400 2;
                 offsite_ads := false |} in
  le (sale_price body) (of_int 0) = true /\
  post_calculate_fees body
  = Raise (RequestValidationError [("sale_price"%string, S754_infinity true)]) /\
  http_status 200 (post_calculate_fees body) = 500.
Proof. vm_compute. repeat split; reflexivity. Qed.


(** ** The calculator in cents *)

Lemma gt_ge (x : float) : gt x (of_int 0) = true -> ge x (of_int 0) = true.
Proof. destruct x as [s|[]| |[] m e]; try reflexivity; discriminate. Qed.

Lemma gt_ticks (x : float) :
  valid_binary prec emax x = true -> is_finite x = true ->
  gt x (of_int 0) = true -> 0 < ticks x.
Proof.
  intros Hx Hf Hgt. unfold gt, SFltb in Hgt.
  rewrite (SFcompare_ticks (of_int 0) x) in Hgt by (assumption || reflexivity).
  change (ticks (of_int 0)) with 0 in Hgt.
  destruct (Z.compare_spec 0 (ticks x)); try discriminate. assumption.
Qed.

Lemma sign_ticks (x : float) :
  valid_binary prec emax x = true -> sign_of x = false -> 0 <= ticks x.
Proof.
  intros Hx Hs. destruct x as [s|s| |s m e]; cbn [ticks]; try slia.
  pose proof (valid_finite_facts s m e Hx) as (_ & He & _).
  pose proof (pow2_pos (e + scale) ltac:(slia)).
  cbn [sign_of] in Hs. subst s. cbn [cond_Zopp].
  apply Z.mul_nonneg_nonneg; slia.
Qed.

Lemma ticks_sign (x : float) : is_finite x = true -> 0 < ticks x -> sign_of x = false.
Proof.
  intros Hf Hpos. destruct x as [s|s| |s m e]; cbn [ticks] in Hpos; try lia.
  destruct s; [|reflexivity]. cbn [cond_Zopp] in Hpos. lia.
Qed.

(** A rate below one applied to a price of at most 1e9. *)
Lemma rate_bounded (sale_price rate : float) :
  valid_binary prec emax sale_price = true -> is_finite sale_price = true ->
  0 < ticks sale_price <= 1000000000 * 2 ^ scale ->
  valid_binary prec emax rate = true -> is_finite rate = true ->
  sign_of rate = false -> Z.abs (ticks rate) <= 2 ^ scale ->
  let p := mul sale_price rate in
  valid_binary prec emax p = true /\ is_finite p = true /\
  0 <= ticks p <= 2 ^ 30 * 2 ^ scale.
Proof.
  intros Hv Hf Hr Hvr Hfr Hsr Hbr p.
  assert (Hprod : Z.abs (ticks sale_price) * Z.abs (ticks rate)
                  <= 2 ^ 52 * 2 ^ (-22 + scale) * 2 ^ scale).
  { apply Z.le_trans with (1000000000 * 2 ^ scale * 2 ^ scale).
    - apply Z.mul_le_mono_nonneg; slia.
    - apply Z.mul_le_mono_nonneg_r; [apply Z.pow_nonneg; slia|].
      apply Z.leb_le. vm_compute. reflexivity. }
  destruct (mul_bounded sale_price rate (2 ^ 52) (-22) Hv Hvr Hf Hfr ltac:(slia) eq_refl
              ltac:(slia) Hprod) as (Hvp & Hfp & Hsp & Hbp).
  rewrite (ticks_sign sale_price Hf ltac:(slia)), Hsr in Hsp. cbn [xorb] in Hsp.
  pose proof (sign_ticks _ Hvp Hsp) as Hpos.
  fold p in Hvp, Hfp, Hbp, Hpos.
  split; [exact Hvp|]. split; [exact Hfp|]. split; [exact Hpos|].
  change (2 ^ 30 * 2 ^ scale) with (2 ^ 52 * 2 ^ (-22 + scale)). slia.
Qed.

(** Rounding a double of magnitude at most [bound <= 2^31] to two places. *)
Lemma round_amount (x : float) (bound : Z) :
  valid_binary prec emax x = true -> is_finite x = true ->
  Z.abs (ticks x) <= bound * 2 ^ scale -> bound <= 2 ^ 31 ->
  exists r, round x 2 = Ok r /\ approx r (cents x) 100 /\ cents r = cents x /\
            Z.abs (cents x) <= 100 * bound.
Proof.
  intros Hv Hf Hb Hbound.
  destruct (round2_bounded x Hv Hf) as (r & Hr & Happ & Hc).
  { apply Z.le_trans with (2 ^ 31 * 2 ^ scale).
    - apply Z.le_trans with (bound * 2 ^ scale); [slia|].
      apply Z.mul_le_mono_nonneg_r; [apply Z.pow_nonneg|]; slia.
    - apply Z.leb_le. vm_compute. reflexivity. }
  exists r. split; [exact Hr|]. split; [exact Happ|]. split; [exact Hc|].
  pose proof (cents_spec x Hv) as Hs.
  set (T := ticks x) in *. set (c := cents x) in *. clearbody T c.
  scale_consts. nia.
Qed.

Lemma approx_literal_20 : approx (decimal 20 2) 20 100.
Proof.
  unfold approx. split; [reflexivity|]. split; [reflexivity|].
  split; apply Z.leb_le; vm_compute; reflexivity.
Qed.

Lemma approx_zero : approx zero 0 0.
Proof. unfold approx. repeat split; cbn [ticks zero]; slia. Qed.

Lemma approx_weaken (r : float) (z k k' : Z) : approx r z k -> k <= k' -> approx r z k'.
Proof.
  intros (Hv & Hf & H) Hk. unfold approx. split; [exact Hv|]. split; [exact Hf|].
  set (T := ticks r) in *. clearbody T. scale_consts. nia.
Qed.

Lemma of_int_1e9_ticks : ticks (of_int 1000000000) = 1000000000 * 2 ^ scale.
Proof. vm_compute. reflexivity. Qed.

Lemma calculate_etsy_fees_cents
    (sale_price production_cost shipping_cost : float) (offsite_ads : bool) :
  well_formed sale_price = true ->
  well_formed production_cost = true ->
  well_formed shipping_cost = true ->
  gt sale_price (of_int 0) = true ->
  le sale_price (of_int 1000000000) = true ->
  ge production_cost (of_int 0) = true ->
  le production_cost (of_int 1000000000) = true ->
  ge shipping_cost (of_int 0) = true ->
  le shipping_cost (of_int 1000000000) = true ->
  let a := cents (mul sale_price (decimal 65 3)) in
  let b := cents (add (mul sale_price (decimal 3 2)) (decimal 25 2)) in
  let c := if offsite_ads then cents (mul sale_price (decimal 15 2)) else 0 in
  let k := cents (add production_cost shipping_cost) in
  exists response,
    calculate_etsy_fees sale_price production_cost shipping_cost offsite_ads
      = Ok response /\
    (if offsite_ads then round (mul sale_price (decimal 15 2)) 2 else Ok zero)
      = Ok (offsite_ads_fee (fees response)) /\
    cents (offsite_ads_fee (fees response)) = c /\
    cents (total_fees (fees response)) = a + 20 + b + c /\
    cents (profit response) = cents (net_revenue response) - k /\
    - (2 ^ scale + 200 * 2 ^ (-18 + scale))
      <= 2 * (cents (net_revenue response) * 2 ^ scale
              - (100 * ticks sale_price - (a + 20 + b + c) * 2 ^ scale))
      <= 2 ^ scale + 200 * 2 ^ (-18 + scale) /\
    (forall p, approx sale_price p 100 ->
               cents (net_revenue response) = p - (a + 20 + b + c)).
Proof.
  unfold well_formed. intros Hsp Hpc Hsc Hgt Hle Hpc0 Hpc1 Hsc0 Hsc1.
  set (a := cents (mul sale_price (decimal 65 3))).
  set (b := cents (add (mul sale_price (decimal 3 2)) (decimal 25 2))).
  set (c := if offsite_ads then cents (mul sale_price (decimal 15 2)) else 0).
  set (k := cents (add production_cost shipping_cost)).
  pose proof (gt_ge _ Hgt) as Hge.
  destruct (range_ticks sale_price (of_int 1000000000) Hsp eq_refl eq_refl Hge Hle)
    as (Hfsp & Hrsp).
  destruct (range_ticks production_cost (of_int 1000000000) Hpc eq_refl eq_refl Hpc0 Hpc1)
    as (Hfpc & Hrpc).
  destruct (range_ticks shipping_cost (of_int 1000000000) Hsc eq_refl eq_refl Hsc0 Hsc1)
    as (Hfsc & Hrsc).
  rewrite of_int_1e9_ticks in *.
  pose proof (gt_ticks _ Hsp Hfsp Hgt) as Hpos.
  assert (Hrange : 0 < ticks sale_price <= 1000000000 * 2 ^ scale) by (clear - Hrsp Hpos; slia).
  (* transaction fee *)
  assert (Hr65 : Z.abs (ticks (decimal 65 3)) <= 2 ^ scale)
    by (apply Z.leb_le; vm_compute; reflexivity).
  destruct (rate_bounded sale_price (decimal 65 3) Hsp Hfsp Hrange eq_refl eq_refl eq_refl
              Hr65) as (Hv1 & Hf1 & Hb1).
  assert (H30 : 2 ^ 30 <= 2 ^ 31) by (clear; slia).
  assert (Hb1' : Z.abs (ticks (mul sale_price (decimal 65 3))) <= 2 ^ 30 * 2 ^ scale)
    by (clear - Hb1; slia).
  destruct (round_amount _ (2 ^ 30) Hv1 Hf1 Hb1' H30) as (tf & Htf & Atf & Ctf & Ba).
  fold a in Atf, Ctf, Ba.
  (* payment processing *)
  assert (Hr3 : Z.abs (ticks (decimal 3 2)) <= 2 ^ scale)
    by (apply Z.leb_le; vm_compute; reflexivity).
  destruct (rate_bounded sale_price (decimal 3 2) Hsp Hfsp Hrange eq_refl eq_refl eq_refl
              Hr3) as (Hv2 & Hf2 & Hb2).
  assert (Hq : ticks (decimal 25 2) = 65536 * 2 ^ (-18 + scale)) by (vm_compute; reflexivity).
  assert (Hsum2 : Z.abs (ticks (mul sale_price (decimal 3 2)) + ticks (decimal 25 2))
                  <= 2 ^ 52 * 2 ^ (-18 + scale)).
  { rewrite Hq. clear - Hb2.
    set (T := ticks (mul sale_price (decimal 3 2))) in *. clearbody T.
    change (2 ^ 30) with 1073741824 in Hb2. scale_consts. slia. }
  destruct (add_bounded _ _ (2 ^ 52) (-18) Hv2 (eq_refl : valid_binary prec emax (decimal 25 2) = true)
              Hf2 eq_refl ltac:(clear; slia) eq_refl ltac:(clear; slia) Hsum2)
    as (Hv2' & Hf2' & _ & He2).
  assert (Hb2' : Z.abs (ticks (add (mul sale_price (decimal 3 2)) (decimal 25 2)))
                  <= (2 ^ 30 + 1) * 2 ^ scale).
  { rewrite Hq in He2. clear - He2 Hb2.
    set (T := ticks (mul sale_price (decimal 3 2))) in *.
    set (T' := ticks (add (mul sale_price (decimal 3 2)) (decimal 25 2))) in *.
    clearbody T T'. change (2 ^ 30) with 1073741824 in *.
    scale_consts. slia. }
  destruct (round_amount _ (2 ^ 30 + 1) Hv2' Hf2' Hb2' ltac:(clear; slia))
    as (pp & Hpp & App & Cpp & Bb).
  fold b in App, Cpp, Bb.
  (* offsite ads *)
  assert (Hads : exists fee,
             (if offsite_ads then round (mul sale_price (decimal 15 2)) 2 else Ok zero)
             = Ok fee /\ approx fee c 100 /\ cents fee = c /\ Z.abs c <= 100 * 2 ^ 30).
  { unfold c. destruct offsite_ads.
    - assert (Hr15 : Z.abs (ticks (decimal 15 2)) <= 2 ^ scale)
        by (apply Z.leb_le; vm_compute; reflexivity).
      destruct (rate_bounded sale_price (decimal 15 2) Hsp Hfsp Hrange eq_refl eq_refl
                  eq_refl Hr15) as (Hv3 & Hf3 & Hb3).
      assert (Hb3' : Z.abs (ticks (mul sale_price (decimal 15 2))) <= 2 ^ 30 * 2 ^ scale)
        by (clear - Hb3; slia).
      destruct (round_amount _ (2 ^ 30) Hv3 Hf3 Hb3' H30) as (fee & Hfee & Afee & Cfee & Bc).
      exists fee. split; [exact Hfee|]. split; [exact Afee|]. split; [exact Cfee|exact Bc].
    - exists zero. split; [reflexivity|]. split; [|split; [reflexivity|clear; slia]].
      apply (approx_weaken zero 0 0 100 approx_zero). clear. slia. }
  destruct Hads as (fee & Hfee & Afee & Cfee & Bc).
  (* the total *)
  change (2 ^ 30) with 1073741824 in *.
  assert (K100 : 0 <= 100 <= 1000) by (clear; slia).
  assert (K300 : 0 <= 300 <= 1000) by (clear; slia).
  assert (K500 : 0 <= 500 <= 1000) by (clear; slia).
  assert (K700 : 0 <= 700 <= 1000) by (clear; slia).
  assert (Ba8 : Z.abs a <= 800000000000) by (clear - Ba; slia).
  assert (B20 : Z.abs 20 <= 800000000000) by (clear; slia).
  assert (Bb8 : Z.abs b <= 800000000000) by (clear - Bb; slia).
  assert (Bc8 : Z.abs c <= 800000000000) by (clear - Bc; slia).
  assert (Ba20 : Z.abs (a + 20) <= 800000000000) by (clear - Ba; slia).
  assert (Bab : Z.abs (a + 20 + b) <= 800000000000) by (clear - Ba Bb; slia).
  assert (Bz : Z.abs (a + 20 + b + c) <= 322122547340) by (clear - Ba Bb Bc; slia).
  pose proof (add_approx tf (decimal 20 2) a 20 100 100 Atf approx_literal_20
                Ba8 B20 K100 K100) as As1.
  pose proof (add_approx _ pp (a + 20) b 300 100 As1 App Ba20 Bb8 K300 K100) as As2.
  pose proof (add_approx _ fee (a + 20 + b) c 500 100 As2 Afee Bab Bc8 K500 K100) as As3.
  set (z := a + 20 + b + c) in *.
  assert (Bz8 : Z.abs z <= 800000000000) by (clear - Bz; slia).
  destruct (round_approx _ z 700 As3 Bz8 K700) as (total & Htotal & Atotal & Ctotal).
  (* net revenue *)
  pose proof (approx_bound total z 100 Atotal Bz8 K100) as Btotal.
  assert (Et := proj2 (proj2 Atotal)).
  assert (Hdiff : Z.abs (ticks sale_price - ticks total) <= 2 ^ 52 * 2 ^ (-18 + scale)).
  { clear - Hrange Btotal.
    set (T := ticks sale_price) in *. set (T' := ticks total) in *. clearbody T T'.
    change (2 ^ 33) with 8589934592 in Btotal. scale_consts. slia. }
  assert (P52 : 0 < 2 ^ 52) by (clear; slia).
  assert (Q18 : -18 <= 971) by (clear; slia).
  destruct (sub_bounded sale_price total (2 ^ 52) (-18) Hsp (proj1 Atotal) Hfsp
              (proj1 (proj2 Atotal)) P52 eq_refl Q18 Hdiff)
    as (Hvn & Hfn & Hbn & Hen).
  destruct (round2_bounded _ Hvn Hfn Hbn) as (net & Hnet & Anet & Cnet).
  pose proof (cents_spec _ Hvn) as Sn.
  set (n := cents (sub sale_price total)) in *.
  assert (Hnerr : - (2 ^ scale + 200 * 2 ^ (-18 + scale))
                  <= 2 * (n * 2 ^ scale - (100 * ticks sale_price - z * 2 ^ scale))
                  <= 2 ^ scale + 200 * 2 ^ (-18 + scale)).
  { clear - Et Hen Sn.
    set (T := ticks sale_price) in *. set (T' := ticks total) in *.
    set (X := ticks (sub sale_price total)) in *. clearbody T T' X n z.
    scale_consts. slia. }
  assert (Hnb : Z.abs n <= 422122547342).
  { clear - Hnerr Hrange Bz.
    set (T := ticks sale_price) in *. clearbody T n z. scale_consts.
    pose proof (scale_between z (-322122547340) 322122547340 W HWpos ltac:(lia)).
    assert (524288 * n <= 524288 * 422122547342)
      by (apply (scale_cancel_le _ _ W HWpos); lia).
    assert (524288 * (-422122547342) <= 524288 * n)
      by (apply (scale_cancel_le _ _ W HWpos); lia).
    lia. }
  (* costs and profit *)
  assert (Hsumc : Z.abs (ticks production_cost + ticks shipping_cost)
                  <= 2 ^ 52 * 2 ^ (-18 + scale)).
  { clear - Hrpc Hrsc.
    set (T := ticks production_cost) in *. set (T' := ticks shipping_cost) in *.
    clearbody T T'. scale_consts. slia. }
  destruct (add_bounded _ _ (2 ^ 52) (-18) Hpc Hsc Hfpc Hfsc P52 eq_refl
              Q18 Hsumc) as (Hvc & Hfc & _ & Hec).
  assert (Hbc : Z.abs (ticks (add production_cost shipping_cost))
                 <= 2000000001 * 2 ^ scale).
  { clear - Hrpc Hrsc Hec.
    set (T := ticks production_cost) in *. set (T' := ticks shipping_cost) in *.
    set (X := ticks (add production_cost shipping_cost)) in *. clearbody T T' X.
    scale_consts. slia. }
  destruct (round_amount _ 2000000001 Hvc Hfc Hbc ltac:(clear; slia))
    as (costs & Hcosts & Acosts & Ccosts & Bk).
  fold k in Acosts, Ccosts, Bk.
  assert (Bn8 : Z.abs n <= 800000000000) by (clear - Hnb; slia).
  assert (Bk8 : Z.abs k <= 800000000000) by (clear - Bk; slia).
  assert (Bnk : Z.abs (n - k) <= 800000000000) by (clear - Hnb Bk; slia).
  pose proof (sub_approx net costs n k 100 100 Anet Acosts Bn8 Bk8 K100 K100) as Apr.
  destruct (round_approx _ (n - k) 300 Apr Bnk K300)
    as (profit & Hprofit & Aprofit & Cprofit).
  (* the margin *)
  assert (Hvm : valid_binary prec emax (mul (SFdiv prec emax profit sale_price) (of_int 100))
                = true).
  { apply mul_valid; [apply div_valid; [apply Aprofit|assumption]|reflexivity]. }
  destruct (round_ok _ 1 Hvm ltac:(clear; slia)) as (margin & Hmargin & _).
  eexists.
  split.
  { unfold calculate_etsy_fees.
    rewrite Htf. cbn [bind_result]. rewrite Hpp. cbn [bind_result].
    rewrite Hfee. cbn [bind_result]. rewrite Htotal. cbn [bind_result].
    rewrite Hnet. cbn [bind_result]. rewrite Hcosts. cbn [bind_result].
    rewrite Hprofit. cbn [bind_result]. rewrite Hgt.
    unfold truediv. rewrite (gt_zero_not_zero sale_price Hgt). cbn [bind_result].
    rewrite Hmargin. cbn [bind_result]. reflexivity. }
  cbn [Fees.fees Fees.offsite_ads_fee Fees.total_fees Fees.profit Fees.net_revenue].
  split; [exact Hfee|]. split; [exact Cfee|]. split; [exact Ctotal|].
  rewrite Cnet. split; [exact Cprofit|]. split; [exact Hnerr|].
  intros p Hp.
  assert (Hpb : Z.abs p <= 100000000001).
  { destruct Hp as (_ & _ & Ep). clear - Ep Hrange.
    set (T := ticks sale_price) in *. clearbody T. scale_consts.
    assert (524288 * p <= 524288 * 100000000001)
      by (apply (scale_cancel_le _ _ W HWpos); lia).
    assert (524288 * (-1) <= 524288 * p)
      by (apply (scale_cancel_le _ _ W HWpos); lia).
    lia. }
  assert (Bp8 : Z.abs p <= 800000000000) by (clear - Hpb; slia).
  pose proof (sub_approx sale_price total p z 100 100 Hp Atotal Bp8 Bz8 K100 K100) as Ax.
  apply cents_near; [exact Hvn|].
  destruct Ax as (_ & _ & Ex). clear - Ex.
  set (X := ticks (sub sale_price total)) in *. clearbody X.
  scale_consts. slia.
Qed.


(** ** The worked example *)

(** C1, as amended. For sale_price 29.99, production_cost 12.0,
    shipping_cost 4.0 and no offsite ads, the calculator returns
    transaction_fee 1.95, listing_fee 0.20, payment_processing 1.15,
    offsite_ads 0.0, total_fees 3.30, net_revenue 26.69, total_costs 16.00,
    profit 10.69 and profit_margin 35.6. *)
Theorem C1_worked_example :
  calculate_etsy_fees (decimal 2999 2) (decimal 120 1) (decimal 40 1) false
  = Ok {| fees := {| transaction_fee := decimal 195 2;
                     listing_fee := decimal 20 2;
                     payment_processing := decimal 115 2;
                     offsite_ads_fee := decimal 0 1;
                     total_fees := decimal 330 2 |};
          net_revenue := decimal 2669 2;
          total_costs := decimal 1600 2;
          profit := decimal 1069 2;
          profit_margin := decimal 356 1 |}.
Proof. vm_compute. reflexivity. Qed.

(** The margin of the worked example is not 35.7: the quotient
    [profit / sale_price * 100] is already below 35.65, and its rounding to
    one place is 35.6. *)
Lemma C1_margin_is_not_35_7 :
  exists response quotient,
    calculate_etsy_fees (decimal 2999 2) (decimal 120 1) (decimal 40 1) false
      = Ok response /\
    truediv (profit response) (decimal 2999 2) = Ok quotient /\
    lt (mul quotient (of_int 100)) (decimal 3565 2) = true /\
    profit_margin response = decimal 356 1 /\
    profit_margin response <> decimal 357 1.
Proof.
  eexists. eexists. split; [vm_compute; reflexivity|].
  split; [vm_compute; reflexivity|].
  split; [vm_compute; reflexivity|].
  split; [vm_compute; reflexivity|].
  vm_compute. discriminate.
Qed.

(** ** Offsite ads *)

(** At sale_price 0.125 with no costs, enabling offsite ads raises
    [total_fees] from 0.46 to 0.48, by the fee of 0.02, but lowers [profit]
    only from -0.34 to -0.35: by one cent, not two, whether the decrease is
    taken in cents, as a float difference, or rounded to two places. *)
Lemma C2_profit_drops_by_less_than_the_fee :
  well_formed (decimal 125 3) = true /\
  gt (decimal 125 3) (of_int 0) = true /\
  exists off on,
    calculate_etsy_fees (decimal 125 3) zero zero false = Ok off /\
    calculate_etsy_fees (decimal 125 3) zero zero true = Ok on /\
    round (mul (decimal 125 3) (decimal 15 2)) 2 = Ok (decimal 2 2) /\
    offsite_ads_fee (fees on) = decimal 2 2 /\
    total_fees (fees off) = decimal 46 2 /\
    total_fees (fees on) = decimal 48 2 /\
    profit off = decimal (-34) 2 /\
    profit on = decimal (-35) 2 /\
    cents (profit off) - cents (profit on) = 1 /\
    cents (offsite_ads_fee (fees on)) = 2 /\
    sub (profit off) (profit on) <> offsite_ads_fee (fees on) /\
    round (sub (profit off) (profit on)) 2 = Ok (decimal 1 2) /\
    sub (total_fees (fees on)) (total_fees (fees off)) <> offsite_ads_fee (fees on).
Proof.
  split; [reflexivity|]. split; [reflexivity|].
  eexists. eexists.
  split; [vm_compute; reflexivity|].
  split; [vm_compute; reflexivity|].
  repeat (split; [vm_compute; reflexivity|]).
  split; [vm_compute; discriminate|].
  split; [vm_compute; reflexivity|].
  vm_compute. discriminate.
Qed.

(** Far above the range of prices, doubles are too coarse for cents: at
    sale_price 1e15 the total goes from 95000000000000.45 to
    245000000000000.44 for a fee of 150000000000000.0. *)
Lemma offsite_ads_total_drifts_at_1e15 :
  exists off on,
    calculate_etsy_fees (of_int 1000000000000000) zero zero false = Ok off /\
    calculate_etsy_fees (of_int 1000000000000000) zero zero true = Ok on /\
    cents (total_fees (fees off)) = 9500000000000045 /\
    cents (total_fees (fees on)) = 24500000000000044 /\
    cents (offsite_ads_fee (fees on)) = 15000000000000000.
Proof.
  eexists. eexists.
  split; [vm_compute; reflexivity|].
  split; [vm_compute; reflexivity|].
  repeat split; vm_compute; reflexivity.
Qed.

Lemma decimal_cents_approx (p : Z) :
  0 <= p <= 100000000000 -> approx (decimal p 2) p 100.
Proof.
  intros Hp. unfold decimal.
  replace (p <? 0) with false by (symmetry; apply Z.ltb_ge; slia).
  rewrite Z.abs_eq by slia.
  assert (Hle : p * 2 ^ scale <= 2 ^ 52 * 2 ^ (-18 + scale) * Zpos (Z.to_pos (10 ^ 2))).
  { change (Zpos (Z.to_pos (10 ^ 2))) with 100. clear - Hp. scale_consts.
    pose proof (scale_between p 0 100000000000 W HWpos ltac:(lia)). lia. }
  destruct (of_ratio_bounded false p (Z.to_pos (10 ^ 2)) (2 ^ 52) (-18)
              ltac:(slia) ltac:(slia) eq_refl ltac:(slia) Hle)
    as (Hv & Hf & _ & Hs & _ & Herr).
  change (Zpos (Z.to_pos (10 ^ 2))) with 100 in Herr.
  unfold approx. split; [exact Hv|]. split; [exact Hf|].
  cbn [cond_Zopp] in Hs. rewrite <- Hs in Herr.
  clear - Herr.
  set (T := ticks (of_ratio false p (Z.to_pos (10 ^ 2)))) in *. clearbody T.
  scale_consts. slia.
Qed.

(** C2, as amended. For every well-formed request with
    [0 < sale_price <= 1e9] and both costs between 0 and 1e9, calling the
    calculator with offsite ads instead of without, all else equal:
    [total_fees] increases, in whole cents, by exactly
    [round(sale_price * 0.15, 2)]; [profit] decreases by that amount up to
    one cent; and by exactly that amount when [sale_price] is itself a
    whole number of cents. *)
Theorem C2_offsite_ads_in_cents
    (sale_price production_cost shipping_cost : float) :
  well_formed sale_price = true ->
  well_formed production_cost = true ->
  well_formed shipping_cost = true ->
  gt sale_price (of_int 0) = true ->
  le sale_price (of_int 1000000000) = true ->
  ge production_cost (of_int 0) = true ->
  le production_cost (of_int 1000000000) = true ->
  ge shipping_cost (of_int 0) = true ->
  le shipping_cost (of_int 1000000000) = true ->
  exists off on,
    calculate_etsy_fees sale_price production_cost shipping_cost false = Ok off /\
    calculate_etsy_fees sale_price production_cost shipping_cost true = Ok on /\
    round (mul sale_price (decimal 15 2)) 2 = Ok (offsite_ads_fee (fees on)) /\
    cents (total_fees (fees on))
    = cents (total_fees (fees off)) + cents (offsite_ads_fee (fees on)) /\
    -1 <= cents (profit off) - cents (profit on) - cents (offsite_ads_fee (fees on))
       <= 1 /\
    (forall p, 0 <= p <= 100000000000 -> sale_price = decimal p 2 ->
               cents (profit off) - cents (profit on)
               = cents (offsite_ads_fee (fees on))).
Proof.
  intros Hsp Hpc Hsc Hgt Hle Hpc0 Hpc1 Hsc0 Hsc1.
  destruct (calculate_etsy_fees_cents sale_price production_cost shipping_cost false
              Hsp Hpc Hsc Hgt Hle Hpc0 Hpc1 Hsc0 Hsc1)
    as (off & Hoff & _ & _ & Toff & Poff & Noff & Eoff).
  destruct (calculate_etsy_fees_cents sale_price production_cost shipping_cost true
              Hsp Hpc Hsc Hgt Hle Hpc0 Hpc1 Hsc0 Hsc1)
    as (on & Hon & Fon & Con & Ton & Pon & Non & Eon).
  exists off, on.
  split; [exact Hoff|]. split; [exact Hon|]. split; [exact Fon|].
  set (a := cents (mul sale_price (decimal 65 3))) in *.
  set (b := cents (add (mul sale_price (decimal 3 2)) (decimal 25 2))) in *.
  set (c := cents (mul sale_price (decimal 15 2))) in *.
  set (k := cents (add production_cost shipping_cost)) in *.
  rewrite Ton, Toff, Con, Pon, Poff.
  split; [slia|].
  set (n0 := cents (net_revenue off)) in *.
  set (n1 := cents (net_revenue on)) in *.
  split.
  - clear - Noff Non.
    set (T := ticks sale_price) in *. clearbody T n0 n1 a b c.
    scale_consts.
    assert (H1 : (n0 - k - (n1 - k) - c - 2) * W < 0) by slia.
    assert (H2 : 0 < (n0 - k - (n1 - k) - c + 2) * W) by slia.
    assert (n0 - k - (n1 - k) - c - 2 < 0) by (apply (Z.mul_lt_mono_pos_r W); slia).
    assert (0 < n0 - k - (n1 - k) - c + 2) by (apply (Z.mul_lt_mono_pos_r W); slia).
    slia.
  - intros p Hp ->.
    pose proof (decimal_cents_approx p Hp) as Ap.
    rewrite (Eoff p Ap), (Eon p Ap). slia.
Qed.

(** *** The theorems at work on the request of the worked example *)

Lemma C2_witness :
  exists off on,
    calculate_etsy_fees (decimal 2999 2) (decimal 120 1) (decimal 40 1) false = Ok off /\
    calculate_etsy_fees (decimal 2999 2) (decimal 120 1) (decimal 40 1) true = Ok on /\
    round (mul (decimal 2999 2) (decimal 15 2)) 2 = Ok (offsite_ads_fee (fees on)) /\
    cents (total_fees (fees on))
    = cents (total_fees (fees off)) + cents (offsite_ads_fee (fees on)) /\
    -1 <= cents (profit off) - cents (profit on) - cents (offsite_ads_fee (fees on))
       <= 1 /\
    (forall p, 0 <= p <= 100000000000 -> decimal 2999 2 = decimal p 2 ->
               cents (profit off) - cents (profit on)
               = cents (offsite_ads_fee (fees on))).
Proof.
  apply (C2_offsite_ads_in_cents (decimal 2999 2) (decimal 120 1) (decimal 40 1));
    vm_compute; reflexivity.
Defined.

Lemma validation_guards_the_computation_witness :
  let body := {| sale_price := decimal (-500) 2;
                 production_cost := decimal 120 1;
                 shipping_cost := decimal 40 1;
                 offsite_ads := false |} in
  (le (sale_price body) (of_int 0) = true
   \/ lt (production_cost body) (of_int 0) = true
   \/ lt (shipping_cost body) (of_int 0) = true ->
   exists errors,
     errors <> [] /\
     validate body = Raise (RequestValidationError errors) /\
     post_calculate_fees body = Raise (RequestValidationError errors) /\
     (http_status 200 (post_calculate_fees body) = 422
      \/ http_status 200 (post_calculate_fees body) = 500) /\
     (http_status 200 (post_calculate_fees body) = 422 <->
      (json_number (sale_price body) = true
       \/ gt (sale_price body) (of_int 0) = true) /\
      (json_number (production_cost body) = true
       \/ ge (production_cost body) (of_int 0) = true) /\
      (json_number (shipping_cost body) = true
       \/ ge (shipping_cost body) (of_int 0) = true))) /\
  (gt (sale_price body) (of_int 0) = true ->
   ge (production_cost body) (of_int 0) = true ->
   ge (shipping_cost body) (of_int 0) = true ->
   exists response,
     validate body = Ok body /\
     calculate_etsy_fees (sale_price body) (production_cost body)
       (shipping_cost body) (offsite_ads body) = Ok response /\
     post_calculate_fees body = Ok response).
Proof.
  apply (validation_guards_the_computation
           {| sale_price := decimal (-500) 2;
              production_cost := decimal 120 1;
              shipping_cost := decimal 40 1;
              offsite_ads := false |});
    vm_compute; reflexivity.
Defined.

End FeesSpec.


(** * Properties of the account service *)

Module AuthSpec.
Import Python Config Auth.

Section WithPlatform.
Context `{Platform} `{Deployment}.
Local Open Scope string_scope.
Local Open Scope Z_scope.

(** ** The client *)

Lemma get_supabase_client_ready (w : world) :
  client_ready w = true ->
  get_supabase_client w = (Ok tt, if supabase_client w then w else connected w).
Proof.
  unfold client_ready, get_supabase_client.
  destruct (supabase_client w); cbn [orb]; [reflexivity|].
  intros Hcfg. apply andb_true_iff in Hcfg. destruct Hcfg as [Hc Hk].
  rewrite Hc. cbn [negb].
  destruct (create_client _ _) as [[]|e]; [reflexivity|discriminate].
Qed.

Lemma get_supabase_client_not_ready (w : world) :
  client_ready w = false ->
  exists e, get_supabase_client w = (Raise e, w).
Proof.
  unfold client_ready, get_supabase_client.
  destruct (supabase_client w); cbn [orb]; [discriminate|].
  destruct credentials_configured; cbn [andb negb]; [|eexists; reflexivity].
  destruct (create_client _ _) as [[]|e]; [discriminate|].
  intros _. eexists. reflexivity.
Qed.

Lemma connected_fields (w : world) :
  let w' := if supabase_client w then w else connected w in
  customers w' = customers w /\ customer_products w' = customer_products w /\
  clock w' = clock w /\ outage w' = outage w /\
  insert_dropped w' = insert_dropped w /\ draws w' = draws w.
Proof. destruct (supabase_client w); simpl; repeat split. Qed.

(** ** Tokens *)

Lemma verify_token_decoded (token : jwt) (w : world) :
  verify_token token w =
  match jwt_decode token (JWT_SECRET settings) [JWT_ALGORITHM settings] (clock w) with
  | Ok payload => (Ok payload, w)
  | Raise ExpiredSignatureError => (Raise (HTTPException 401 "Token expired"), w)
  | Raise e =>
      if is_InvalidTokenError e then (Raise (HTTPException 401 "Invalid token"), w)
      else (Raise e, w)
  end.
Proof.
  unfold verify_token, bind, utcnow.
  destruct (jwt_decode _ _ _ _) as [p|e]; [reflexivity|].
  destruct e; reflexivity.
Qed.

Lemma create_access_token_eq (user_id email : string) (w : world) :
  create_access_token user_id email w =
  (let exp := clock w + JWT_EXPIRATION_HOURS settings * 3600 in
   if (datetime_min <=? exp) && (exp <=? datetime_max) then
     jwt_encode (token_payload user_id email exp)
       (JWT_SECRET settings) (JWT_ALGORITHM settings)
   else Raise (LibraryError "OverflowError" "date value out of range"), w).
Proof.
  unfold create_access_token, bind, utcnow. cbv zeta.
  destruct ((datetime_min <=? _) && (_ <=? datetime_max)); reflexivity.
Qed.

(** A token that was issued is the payload of the three claims, signed
    under the configured algorithm; issuing it leaves the state alone. *)
Lemma create_access_token_ok (user_id email : string) (w w' : world) (token : jwt) :
  create_access_token user_id email w = (Ok token, w') ->
  w' = w /\
  exists signature,
    jwt_sign (JWT_SECRET settings) (JWT_ALGORITHM settings)
      (token_payload user_id email (clock w + JWT_EXPIRATION_HOURS settings * 3600))
    = Ok signature /\
    token = Signed (JWT_ALGORITHM settings)
              (token_payload user_id email
                 (clock w + JWT_EXPIRATION_HOURS settings * 3600))
              signature.
Proof.
  rewrite create_access_token_eq. cbv zeta. intros E.
  injection E as E <-. split; [reflexivity|].
  destruct ((datetime_min <=? _) && (_ <=? datetime_max)); [|discriminate].
  unfold jwt_encode in E.
  destruct (jwt_sign _ _ _) as [signature|e]; [|discriminate].
  injection E as <-. exists signature. split; reflexivity.
Qed.

Lemma create_access_token_state (user_id email : string) (w : world) :
  snd (create_access_token user_id email w) = w.
Proof. rewrite create_access_token_eq. reflexivity. Qed.

Lemma validate_claims_issued (user_id email : string) (exp now : Z) :
  validate_claims (token_payload user_id email exp) now
  = if exp <=? now then Raise ExpiredSignatureError else Ok tt.
Proof.
  unfold validate_claims, validate_claim, validate_exp, token_payload.
  cbn. destruct (exp <=? now); reflexivity.
Qed.

Lemma jwt_decode_issued (key alg user_id email signature : string) (exp now : Z) :
  is_hmac alg = true ->
  jwt_sign key alg (token_payload user_id email exp) = Ok signature ->
  jwt_decode (Signed alg (token_payload user_id email exp) signature) key [alg] now
  = if exp <=? now then Raise ExpiredSignatureError
    else Ok (token_payload user_id email exp).
Proof.
  intros Hmac Hsign. unfold jwt_decode, signature_valid.
  cbn [existsb]. rewrite String.eqb_refl. cbn [orb negb].
  rewrite Hmac, Hsign, String.eqb_refl.
  rewrite validate_claims_issued. destruct (exp <=? now); reflexivity.
Qed.

Lemma jwt_decode_bad_signature (alg : string) (payload : jwt_payload)
    (signature key : string) (algorithms : list string) (now : Z) :
  signature_valid alg key payload signature = Ok false ->
  jwt_decode (Signed alg payload signature) key algorithms now = Raise InvalidAlgorithmError
  \/ jwt_decode (Signed alg payload signature) key algorithms now = Raise InvalidSignatureError.
Proof.
  intros Hsig. unfold jwt_decode.
  destruct (existsb (String.eqb alg) algorithms); cbn [negb]; [right|left; reflexivity].
  rewrite Hsig. reflexivity.
Qed.

Lemma jwt_decode_other_algorithm (alg allowed : string) (payload : jwt_payload)
    (signature key : string) (now : Z) :
  alg <> allowed ->
  jwt_decode (Signed alg payload signature) key [allowed] now = Raise InvalidAlgorithmError.
Proof.
  intros Hne. unfold jwt_decode. cbn [existsb].
  apply String.eqb_neq in Hne. rewrite Hne. reflexivity.
Qed.

(** A token whose signature check fails, or that names another algorithm
    than the configured one, is answered 401 "Invalid token". *)
Lemma verify_token_tampered (alg signature : string) (forged : jwt_payload) (w : world) :
  alg <> JWT_ALGORITHM settings
  \/ signature_valid alg (JWT_SECRET settings) forged signature = Ok false ->
  verify_token (Signed alg forged signature) w
  = (Raise (HTTPException 401 "Invalid token"), w).
Proof.
  intros Hbad. rewrite verify_token_decoded.
  destruct Hbad as [Halg|Hsig].
  - rewrite (jwt_decode_other_algorithm _ _ _ _ _ _ Halg). reflexivity.
  - destruct (jwt_decode_bad_signature alg forged signature (JWT_SECRET settings)
                [JWT_ALGORITHM settings] (clock w) Hsig) as [E|E];
      rewrite E; reflexivity.
Qed.

(** The verification of an issued token, at any time. *)
Lemma verify_issued_token (user_id email : string) (w w' later : world) (token : jwt) :
  is_hmac (JWT_ALGORITHM settings) = true ->
  create_access_token user_id email w = (Ok token, w') ->
  verify_token token later =
  if clock w + JWT_EXPIRATION_HOURS settings * 3600 <=? clock later then
    (Raise (HTTPException 401 "Token expired"), later)
  else
    (Ok (token_payload user_id email (clock w + JWT_EXPIRATION_HOURS settings * 3600)),
     later).
Proof.
  intros Hmac Hcreate.
  destruct (create_access_token_ok user_id email w w' token Hcreate)
    as (_ & signature & Hsign & ->).
  rewrite verify_token_decoded.
  rewrite (jwt_decode_issued _ _ _ _ _ _ (clock later) Hmac Hsign).
  destruct (_ <=? clock later); reflexivity.
Qed.

(** *** Token lifetime and the two rejection kinds *)


(** *** The codec round trip *)


(** *** Running the handlers against a reachable store *)

Lemma select_customers_by_email_up (v : string) (w : world) :
  outage w OpSelect = false ->
  let w0 := if supabase_client w then w else connected w in
  select_customers_by_email v w0
  = (Ok (filter (fun c => String.eqb (c_email c) v) (customers w)), w0).
Proof.
  intros Hup. unfold select_customers_by_email.
  destruct (supabase_client w); simpl; rewrite Hup; reflexivity.
Qed.

Lemma select_customers_by_id_up (v : string) (w : world) :
  outage w OpSelect = false ->
  let w0 := if supabase_client w then w else connected w in
  select_customers_by_id v w0
  = (Ok (filter (fun c => String.eqb (c_id c) v) (customers w)), w0).
Proof.
  intros Hup. unfold select_customers_by_id.
  destruct (supabase_client w); simpl; rewrite Hup; reflexivity.
Qed.

Lemma select_products_by_customer_up (v : string) (w : world) :
  outage w OpSelect = false ->
  let w0 := if supabase_client w then w else connected w in
  select_products_by_customer v w0 = (Ok (products_of w v), w0).
Proof.
  intros Hup. unfold select_products_by_customer, products_of.
  destruct (supabase_client w); simpl; rewrite Hup; reflexivity.
Qed.

Lemma filter_finds {A : Type} (f : A -> bool) (x : A) (l : list A) :
  In x l -> f x = true -> exists y rest, filter f l = y :: rest.
Proof.
  intros Hin Hf.
  assert (Hx : In x (filter f l)) by (apply filter_In; split; assumption).
  destruct (filter f l) as [|y rest]; [destruct Hx|].
  exists y, rest. reflexivity.
Qed.

Lemma register_conflict (user : UserRegister) (w : world) (existing : customer) :
  client_ready w = true ->
  outage w OpSelect = false ->
  In existing (customers w) ->
  c_email existing = lower (reg_email user) ->
  register user w
  = (Raise (HTTPException 400 "Email already registered"),
     if supabase_client w then w else connected w).
Proof.
  intros Hready Hup Hin Hemail.
  unfold register, bind.
  rewrite (get_supabase_client_ready w Hready).
  rewrite (select_customers_by_email_up _ w Hup).
  destruct (filter_finds (fun c => String.eqb (c_email c) (lower (reg_email user)))
              existing (customers w) Hin) as (y & rest & E).
  { rewrite Hemail. apply String.eqb_refl. }
  rewrite E. reflexivity.
Qed.

Lemma has_insights_In (products : list string) :
  match products with
  | [] => false
  | _ :: _ => existsb (String.eqb "insights") products
  end = true <-> In "insights" products.
Proof.
  split.
  - destruct products as [|p ps]; [discriminate|].
    intros E. apply existsb_exists in E. destruct E as (x & Hin & Hx).
    apply String.eqb_eq in Hx. subst x. exact Hin.
  - intros Hin. destruct products as [|p ps]; [destruct Hin|].
    apply existsb_exists. exists "insights". split; [exact Hin|apply String.eqb_refl].
Qed.

(** *** Entitlements decide the premium status *)

(** C3. For every account, [get_user_info] answers [is_premium = true] and
    the unlimited sentinel 999999 exactly when the account's entitlement
    links contain the tag "insights", and [is_premium = false] with limit
    10 otherwise, whatever the stored [is_premium] flag is; the returned
    [analyses_this_week] is the stored [usage_count]. *)
Theorem C3_premium_is_the_insights_entitlement
    (user_id : string) (token : jwt) (payload : jwt_payload) (w : world)
    (account : customer) (others : list customer) :
  jwt_decode token (JWT_SECRET settings) [JWT_ALGORITHM settings] (clock w) = Ok payload ->
  claim_user_id payload = Some (JStr user_id) ->
  client_ready w = true ->
  outage w OpSelect = false ->
  filter (fun c => String.eqb (c_id c) user_id) (customers w) = account :: others ->
  exists (info : UserInfo) (w' : world),
    get_user_info user_id token w = (Ok info, w') /\
    (info_is_premium info = true <-> In "insights" (products_of w user_id)) /\
    (In "insights" (products_of w user_id) -> analyses_limit info = 999999) /\
    (~ In "insights" (products_of w user_id) ->
       info_is_premium info = false /\ analyses_limit info = 10) /\
    analyses_this_week info = c_usage_count account.
Proof.
  intros Hdec Hid Hready Hup Hrow.
  unfold get_user_info, bind.
  rewrite verify_token_decoded, Hdec.
  rewrite Hid. cbn [json_is_str]. rewrite String.eqb_refl. cbn [negb]. cbv beta iota.
  rewrite (get_supabase_client_ready w Hready).
  rewrite (select_customers_by_id_up _ w Hup), Hrow. cbv beta iota.
  rewrite (select_products_by_customer_up _ w Hup).
  eexists. eexists. split; [reflexivity|].
  cbn [info_is_premium analyses_limit analyses_this_week].
  pose proof (has_insights_In (products_of w user_id)) as Hin.
  destruct (match products_of w user_id with
            | [] => false
            | _ :: _ => existsb (String.eqb "insights") (products_of w user_id)
            end) eqn:E.
  - split; [exact Hin|]. split; [reflexivity|].
    split; [|reflexivity]. intros Hno. exfalso. apply Hno, Hin. reflexivity.
  - split; [exact Hin|]. split.
    + intros Hyes. apply Hin in Hyes. discriminate.
    + split; [|reflexivity]. intros _. split; reflexivity.
Qed.

(** *** Uniform credential errors *)

Lemma login_unknown_email (credentials : UserLogin) (w : world) :
  client_ready w = true -> outage w OpSelect = false ->
  filter (fun c => String.eqb (c_email c) (lower (login_email credentials))) (customers w)
    = [] ->
  fst (login credentials w) = Raise (HTTPException 401 "Invalid email or password").
Proof.
  intros Hr Hu Hnone. unfold login, bind.
  rewrite (get_supabase_client_ready w Hr).
  rewrite (select_customers_by_email_up _ w Hu), Hnone. reflexivity.
Qed.

(** What [login] answers once the account is found and the password has
    been checked, or the check has raised. *)
Lemma login_checked (credentials : UserLogin) (w : world)
    (account : customer) (others : list customer) :
  client_ready w = true -> outage w OpSelect = false ->
  filter (fun c => String.eqb (c_email c) (lower (login_email credentials))) (customers w)
    = account :: others ->
  match verify_password (login_password credentials) (c_password_hash account) with
  | Raise e => fst (login credentials w) = Raise e
  | Ok false =>
      fst (login credentials w) = Raise (HTTPException 401 "Invalid email or password")
  | Ok true => True
  end.
Proof.
  intros Hr Hu Hsome. unfold login, bind.
  rewrite (get_supabase_client_ready w Hr).
  rewrite (select_customers_by_email_up _ w Hu), Hsome.
  unfold lift.
  destruct (verify_password _ _) as [[|]|e]; [exact I|reflexivity|reflexivity].
Qed.

(** X27. A login with an email that matches no account and a login with
    an existing email and a password that the password library checks and
    finds wrong get the same answer: status 401 and the same message. *)
Theorem login_failures_are_indistinguishable
    (unknown wrong : UserLogin) (w1 w2 : world)
    (account : customer) (others : list customer) :
  client_ready w1 = true -> outage w1 OpSelect = false ->
  client_ready w2 = true -> outage w2 OpSelect = false ->
  filter (fun c => String.eqb (c_email c) (lower (login_email unknown))) (customers w1)
    = [] ->
  filter (fun c => String.eqb (c_email c) (lower (login_email wrong))) (customers w2)
    = account :: others ->
  verify_password (login_password wrong) (c_password_hash account) = Ok false ->
  fst (login unknown w1) = Raise (HTTPException 401 "Invalid email or password") /\
  fst (login wrong w2) = fst (login unknown w1) /\
  http_status 200 (fst (login unknown w1)) = 401 /\
  http_status 200 (fst (login wrong w2)) = 401.
Proof.
  intros Hr1 Hu1 Hr2 Hu2 Hnone Hsome Hpwd.
  pose proof (login_unknown_email unknown w1 Hr1 Hu1 Hnone) as E1.
  pose proof (login_checked wrong w2 account others Hr2 Hu2 Hsome) as E2.
  rewrite Hpwd in E2.
  rewrite E1, E2. repeat split.
Qed.

(** *** Tokens are bound to one account *)

(** C6. For every token that verifies and is bound to account A, and every
    requested user id B with B <> A, [get_user_info] fails with 403,
    whether or not an account with id B exists: the comparison is made
    before the store is touched. The state is left as it was. *)
Theorem C6_foreign_user_id_is_forbidden
    (requested : string) (token : jwt) (payload : jwt_payload) (bound : json)
    (w : world) :
  jwt_decode token (JWT_SECRET settings) [JWT_ALGORITHM settings] (clock w) = Ok payload ->
  claim_user_id payload = Some bound ->
  bound <> JStr requested ->
  get_user_info requested token w
  = (Raise (HTTPException 403 "Not authorized to access this user's data"), w).
Proof.
  intros Hdec Hbound Hne.
  unfold get_user_info, bind.
  rewrite verify_token_decoded, Hdec, Hbound.
  assert (E : json_is_str bound requested = false).
  { destruct bound as [s|n|raw]; try reflexivity. cbn [json_is_str].
    apply String.eqb_neq. intros ->. apply Hne. reflexivity. }
  rewrite E. reflexivity.
Qed.

(** *** Duplicate emails *)

(** Two spellings of an address that differ in the case of ASCII letters
    have the same lower-case form. *)
Lemma lower_ascii_spelling (a b : string) :
  is_ascii a = true -> is_ascii b = true -> ascii_lower a = ascii_lower b ->
  lower a = lower b.
Proof. intros Ha Hb E. unfold lower. rewrite Ha, Hb. exact E. Qed.

Lemma same_lower (a b : string) :
  lower a = lower b
  \/ (is_ascii a = true /\ is_ascii b = true /\ ascii_lower a = ascii_lower b) ->
  lower a = lower b.
Proof.
  intros [E|(Ha & Hb & E)]; [exact E|apply lower_ascii_spelling; assumption].
Qed.

(** After a successful [register] the singleton is there and the store
    holds a row with the lower-case email. *)
Lemma register_leaves_the_row (user : UserRegister) (w w' : world)
    (response : UserResponse) :
  register user w = (Ok response, w') ->
  supabase_client w' = true /\
  exists created, In created (customers w') /\ c_email created = lower (reg_email user).
Proof.
  intros Hreg. unfold register, bind in Hreg.
  destruct (get_supabase_client w) as [[[]|e] w0] eqn:Hclient; [|discriminate].
  assert (Hc0 : supabase_client w0 = true).
  { unfold get_supabase_client in Hclient.
    destruct (supabase_client w) eqn:Hs.
    - inversion Hclient. subst w0. exact Hs.
    - destruct (negb credentials_configured); [discriminate|].
      destruct (create_client _ _) as [[]|e]; inversion Hclient. reflexivity. }
  destruct (select_customers_by_email (lower (reg_email user)) w0)
    as [[found|e] w1] eqn:Hsel; [|discriminate].
  assert (w1 = w0).
  { unfold select_customers_by_email in Hsel.
    destruct (outage w0 OpSelect); inversion Hsel; reflexivity. }
  subst w1. destruct found as [|? ?]; [|discriminate].
  unfold hash_password, bind, draw, lift, ret, utcnow in Hreg.
  destruct (pwd_hash _ _) as [hash|e]; [|discriminate].
  unfold insert_customer in Hreg. cbn [outage insert_dropped customers] in Hreg.
  destruct (outage w0 OpInsert); [discriminate|].
  destruct (insert_dropped w0); [discriminate|].
  rewrite create_access_token_eq in Hreg. cbv zeta in Hreg.
  destruct ((datetime_min <=? _) && _); [|discriminate].
  destruct (jwt_encode _ _ _) as [token|e]; [|discriminate].
  injection Hreg as _ <-. cbn [supabase_client customers]. split; [exact Hc0|].
  eexists. split; [apply in_or_app; right; left; reflexivity|reflexivity].
Qed.

Lemma register_again (first second : UserRegister) (w w' : world)
    (response : UserResponse) :
  register first w = (Ok response, w') ->
  lower (reg_email second) = lower (reg_email first) ->
  outage w' OpSelect = false ->
  register second w' = (Raise (HTTPException 400 "Email already registered"), w').
Proof.
  intros Hfirst Hsame Hup.
  destruct (register_leaves_the_row first w w' response Hfirst)
    as (Hclient & created & Hin & Hmail).
  rewrite (register_conflict second w' created); [rewrite Hclient; reflexivity| |exact Hup| |].
  - unfold client_ready. rewrite Hclient. reflexivity.
  - exact Hin.
  - rewrite Hmail. symmetry. exact Hsame.
Qed.

(** C7. If an account already exists whose stored email equals the
    lower-case form of the submitted email, [register] fails with the
    duplicate-email error (status 400) and creates no record. So
    registering an email twice makes the second call fail, whenever the
    two spellings have the same lower-case form, as they have when they
    are ASCII and differ in the case of their letters. *)
Theorem C7_register_rejects_a_known_email (user : UserRegister) (w : world) :
  outage w OpSelect = false ->
  (forall existing : customer,
     client_ready w = true ->
     In existing (customers w) ->
     c_email existing = lower (reg_email user) ->
     exists w' : world,
       register user w = (Raise (HTTPException 400 "Email already registered"), w') /\
       http_status 201 (fst (register user w)) = 400 /\
       customers w' = customers w /\
       customer_products w' = customer_products w) /\
  (forall (first : UserRegister) (before : world) (response : UserResponse),
     register first before = (Ok response, w) ->
     lower (reg_email user) = lower (reg_email first)
     \/ (is_ascii (reg_email user) = true /\ is_ascii (reg_email first) = true /\
         ascii_lower (reg_email user) = ascii_lower (reg_email first)) ->
     register user w = (Raise (HTTPException 400 "Email already registered"), w) /\
     http_status 201 (fst (register user w)) = 400).
Proof.
  intros Hup. split.
  - intros existing Hready Hin Hemail.
    exists (if supabase_client w then w else connected w).
    rewrite (register_conflict user w existing Hready Hup Hin Hemail).
    destruct (connected_fields w) as (Hc & Hp & _).
    repeat split; assumption.
  - intros first before response Hfirst Hsame.
    apply same_lower in Hsame.
    rewrite (register_again first user before w response Hfirst Hsame Hup).
    split; reflexivity.
Qed.

(** *** Best-effort bookkeeping *)

(** What [login] does once the account is found and the password
    verified: the update of [last_login] is tried and its failure dropped,
    then the token is issued. *)
Lemma login_verified (credentials : UserLogin) (w : world)
    (account : customer) (others : list customer) :
  client_ready w = true -> outage w OpSelect = false ->
  filter (fun c => String.eqb (c_email c) (lower (login_email credentials))) (customers w)
    = account :: others ->
  verify_password (login_password credentials) (c_password_hash account) = Ok true ->
  let w0 := if supabase_client w then w else connected w in
  login credentials w
  = (match fst (create_access_token (c_id account) (c_email account) w) with
     | Ok token => Ok {| user_id := c_id account;
                         email := c_email account;
                         name := c_shop_name account;
                         is_premium := c_is_premium account;
                         access_token := token |}
     | Raise e => Raise e
     end,
     snd (try_except
            (update_last_login (c_id account) (isoformat (clock w)))
            (fun _ => ret tt) w0)).
Proof.
  intros Hr Hup Hrow Hpwd w0. unfold login, bind.
  rewrite (get_supabase_client_ready w Hr).
  rewrite (select_customers_by_email_up _ w Hup), Hrow. fold w0.
  unfold lift. rewrite Hpwd. cbn [negb]. cbv beta iota.
  destruct (connected_fields w) as (_ & _ & Hclock & Hout & _). fold w0 in Hclock, Hout.
  unfold try_except, bind, utcnow, update_last_login, ret.
  rewrite Hclock.
  destruct (outage w0 OpUpdate); cbn [snd];
    rewrite !create_access_token_eq; cbn [clock fst]; rewrite ?Hclock;
    cbv zeta;
    destruct ((datetime_min <=? _) && (_ <=? datetime_max));
    try reflexivity;
    destruct (jwt_encode _ _ _); reflexivity.
Qed.


End WithPlatform.

(** *** The theorems at work on the demo store *)

Section Witnesses.
Import Demo.
Local Open Scope string_scope.
Local Open Scope Z_scope.
Local Existing Instance demo_platform.
Local Existing Instance demo_deployment.

Lemma C3_witness :
  exists (info : UserInfo) (w' : world),
    get_user_info "id-0" (alice_token 1000) (demo_world 2000 false) = (Ok info, w') /\
    (info_is_premium info = true
     <-> In "insights" (products_of (demo_world 2000 false) "id-0")) /\
    (In "insights" (products_of (demo_world 2000 false) "id-0") ->
     analyses_limit info = 999999) /\
    (~ In "insights" (products_of (demo_world 2000 false) "id-0") ->
     info_is_premium info = false /\ analyses_limit info = 10) /\
    analyses_this_week info = 7.
Proof.
  apply (C3_premium_is_the_insights_entitlement "id-0" (alice_token 1000)
           (alice_payload 1000) (demo_world 2000 false) alice []);
    vm_compute; reflexivity.
Defined.


Lemma login_failures_are_indistinguishable_witness :
  fst (login {| login_email := "Bob@Example.com"; login_password := "wonderland" |}
         (demo_world 2000 false))
  = Raise (HTTPException 401 "Invalid email or password") /\
  fst (login {| login_email := "Alice@Example.com"; login_password := "guess" |}
         (demo_world 2000 false))
  = fst (login {| login_email := "Bob@Example.com"; login_password := "wonderland" |}
           (demo_world 2000 false)) /\
  http_status 200
    (fst (login {| login_email := "Bob@Example.com"; login_password := "wonderland" |}
            (demo_world 2000 false))) = 401 /\
  http_status 200
    (fst (login {| login_email := "Alice@Example.com"; login_password := "guess" |}
            (demo_world 2000 false))) = 401.
Proof.
  apply (login_failures_are_indistinguishable
           {| login_email := "Bob@Example.com"; login_password := "wonderland" |}
           {| login_email := "Alice@Example.com"; login_password := "guess" |}
           (demo_world 2000 false) (demo_world 2000 false) alice []);
    vm_compute; reflexivity.
Defined.

(** C5, at a password the password library refuses. The library raises
    on a password that holds a NUL character, and [login] does not catch
    what [verify_password] raises. Submitted with the email of an account,
    such a wrong password is answered with status 500; submitted with an
    email that matches no account, it is answered 401: the two failures
    can be told apart. *)
Lemma C5_a_refused_password_tells_the_accounts :
  filter (fun c => String.eqb (c_email c) (lower "alice@example.com"))
    (customers (demo_world 2000 false)) = [alice] /\
  filter (fun c => String.eqb (c_email c) (lower "bob@example.com"))
    (customers (demo_world 2000 false)) = [] /\
  verify_password "wonderland" (c_password_hash alice) = Ok true /\
  http_status 200
    (fst (login {| login_email := "alice@example.com"; login_password := nul_password |}
            (demo_world 2000 false))) = 500 /\
  http_status 200
    (fst (login {| login_email := "bob@example.com"; login_password := nul_password |}
            (demo_world 2000 false))) = 401.
Proof. vm_compute. repeat split; reflexivity. Qed.

Lemma C6_witness :
  get_user_info "id-1" (alice_token 1000) (demo_world 2000 false)
  = (Raise (HTTPException 403 "Not authorized to access this user's data"),
     demo_world 2000 false).
Proof.
  apply (C6_foreign_user_id_is_forbidden "id-1" (alice_token 1000)
           (alice_payload 1000) (JStr "id-0") (demo_world 2000 false)).
  - vm_compute. reflexivity.
  - reflexivity.
  - discriminate.
Defined.

Lemma C7_witness :
  let again := {| reg_email := "BOB@EXAMPLE.COM"; reg_password := "pw";
                  reg_name := None |} in
  let w := snd (register bob (demo_world 2000 false)) in
  (exists w' : world,
     register again w = (Raise (HTTPException 400 "Email already registered"), w') /\
     http_status 201 (fst (register again w)) = 400 /\
     customers w' = customers w /\
     customer_products w' = customer_products w) /\
  register again w = (Raise (HTTPException 400 "Email already registered"), w) /\
  http_status 201 (fst (register again w)) = 400.
Proof.
  intros again w.
  destruct (C7_register_rejects_a_known_email again w eq_refl) as [Hknown Htwice].
  split.
  - apply (Hknown (nth 1 (customers w) alice)).
    + reflexivity.
    + right. left. reflexivity.
    + reflexivity.
  - assert (Hfirst : exists response,
              register bob (demo_world 2000 false) = (Ok response, w))
      by (eexists; lazy; reflexivity).
    destruct Hfirst as [response Hfirst].
    apply (Htwice bob (demo_world 2000 false) response Hfirst).
    right. repeat split; reflexivity.
Defined.



End Witnesses.

(** *** A deployment with [JWT_EXPIRATION_HOURS=1] *)

Section OneHour.
Import Demo.
Local Open Scope string_scope.
Local Open Scope Z_scope.
Local Existing Instance demo_platform.
Local Existing Instance one_hour_deployment.



End OneHour.

(** *** A deployment with a mistyped [JWT_ALGORITHM] *)

Section Mistyped.
Import Demo.
Local Open Scope string_scope.
Local Open Scope Z_scope.
Local Existing Instance demo_platform.
Local Existing Instance mistyped_deployment.


End Mistyped.

End AuthSpec.
(** * Further properties of the fee calculator *)

Module FeesLaws.
Import PyFloat Binary64 Fees FloatFacts FeesSpec.

(** ** The shape of a result *)

Lemma calculate_etsy_fees_inv
    (sale_price production_cost shipping_cost : float) (offsite_ads : bool)
    (response : FeeCalculationResponse) :
  calculate_etsy_fees sale_price production_cost shipping_cost offsite_ads
    = Ok response ->
  round (mul sale_price (decimal 65 3)) 2 = Ok (transaction_fee (fees response)) /\
  listing_fee (fees response) = decimal 20 2 /\
  round (add (mul sale_price (decimal 3 2)) (decimal 25 2)) 2
    = Ok (payment_processing (fees response)) /\
  (if offsite_ads then round (mul sale_price (decimal 15 2)) 2 else Ok zero)
    = Ok (offsite_ads_fee (fees response)) /\
  round (add (add (add (transaction_fee (fees response)) (listing_fee (fees response)))
                 (payment_processing (fees response)))
            (offsite_ads_fee (fees response))) 2
    = Ok (total_fees (fees response)) /\
  round (sub sale_price (total_fees (fees response))) 2 = Ok (net_revenue response) /\
  round (add production_cost shipping_cost) 2 = Ok (total_costs response) /\
  round (sub (net_revenue response) (total_costs response)) 2 = Ok (profit response) /\
  (if gt sale_price (of_int 0)
   then bind_result (truediv (profit response) sale_price)
          (fun q => round (mul q (of_int 100)) 1)
   else Ok zero) = Ok (profit_margin response).
Proof.
  unfold calculate_etsy_fees. intros Hcalc.
  destruct (round (mul sale_price (decimal 65 3)) 2) as [tf|]; [|discriminate].
  cbn [bind_result] in Hcalc.
  destruct (round (add (mul sale_price (decimal 3 2)) (decimal 25 2)) 2) as [pp|];
    [|discriminate].
  cbn [bind_result] in Hcalc.
  destruct (if offsite_ads then round (mul sale_price (decimal 15 2)) 2 else Ok zero)
    as [ads|]; [|discriminate].
  cbn [bind_result] in Hcalc.
  destruct (round (add (add (add tf (decimal 20 2)) pp) ads) 2) as [total|] eqn:Htotal;
    [|discriminate].
  cbn [bind_result] in Hcalc.
  destruct (round (sub sale_price total) 2) as [net|] eqn:Hnet; [|discriminate].
  cbn [bind_result] in Hcalc.
  destruct (round (add production_cost shipping_cost) 2) as [costs|]; [|discriminate].
  cbn [bind_result] in Hcalc.
  destruct (round (sub net costs) 2) as [profit|] eqn:Hprofit; [|discriminate].
  cbn [bind_result] in Hcalc.
  destruct (if gt sale_price (of_int 0)
            then bind_result (truediv profit sale_price)
                   (fun q => round (mul q (of_int 100)) 1)
            else Ok zero) as [margin|] eqn:Hmargin; [|discriminate].
  cbn [bind_result] in Hcalc. injection Hcalc as <-.
  cbn [fees transaction_fee listing_fee payment_processing offsite_ads_fee total_fees
       net_revenue total_costs Fees.profit profit_margin].
  repeat split; assumption.
Qed.

(** ** The two costs only count through their sum *)

Lemma add_comm (x y : float) : add x y = add y x.
Proof.
  unfold add.
  destruct x as [sx|sx| |sx mx ex], y as [sy|sy| |sy my ey]; try reflexivity;
    try (destruct sx, sy; reflexivity).
  cbn [SFadd]. rewrite (Z.min_comm ey ex). f_equal. apply Z.add_comm.
Qed.

(** X17. The production cost and the shipping cost are interchangeable:
    for all four arguments, doubles of any kind, swapping the two costs
    gives the same outcome, the same response field for field or the same
    exception. *)
Theorem costs_are_interchangeable
    (sale_price production_cost shipping_cost : float) (offsite_ads : bool) :
  calculate_etsy_fees sale_price production_cost shipping_cost offsite_ads
  = calculate_etsy_fees sale_price shipping_cost production_cost offsite_ads.
Proof.
  unfold calculate_etsy_fees. rewrite (add_comm production_cost shipping_cost).
  reflexivity.
Qed.

(** ** Requests that bypass the schema *)

(** X18. The calculator itself never raises, validated arguments or not:
    for any three doubles (zero, negative, infinite and NaN included) and
    either flag it returns a response, so the handler's status-500 branch
    is dead code; the guard on [sale_price > 0] is what keeps the division
    from a zero price, and when it fails [profit_margin] is [0.0]. *)
Theorem calculate_etsy_fees_never_raises (request : FeeCalculationRequest) :
  well_formed (sale_price request) = true ->
  well_formed (production_cost request) = true ->
  well_formed (shipping_cost request) = true ->
  exists response,
    calculate_etsy_fees (sale_price request) (production_cost request)
      (shipping_cost request) (offsite_ads request) = Ok response /\
    calculate_fees request = Ok response /\
    (gt (sale_price request) (of_int 0) = false -> profit_margin response = zero).
Proof.
  unfold well_formed. intros Hsp Hpc Hsc.
  destruct (gt (sale_price request) (of_int 0)) eqn:Hgt.
  - destruct (calculate_etsy_fees_total (sale_price request) (production_cost request)
                (shipping_cost request) (offsite_ads request) Hsp Hpc Hsc Hgt)
      as (response & Hcalc).
    exists response. split; [exact Hcalc|]. split; [|discriminate].
    unfold calculate_fees. rewrite Hcalc. reflexivity.
  - assert (Hcalc : exists response,
               calculate_etsy_fees (sale_price request) (production_cost request)
                 (shipping_cost request) (offsite_ads request) = Ok response /\
               profit_margin response = zero).
    { unfold calculate_etsy_fees.
      destruct (round_ok (mul (sale_price request) (decimal 65 3)) 2) as (tf & -> & Htf);
        [apply mul_valid; [assumption|reflexivity]|lia|].
      cbn [bind_result].
      destruct (round_ok (add (mul (sale_price request) (decimal 3 2)) (decimal 25 2)) 2)
        as (pp & -> & Hpp);
        [apply add_valid; [apply mul_valid; [assumption|reflexivity]|reflexivity]|lia|].
      cbn [bind_result].
      assert (Hads : exists ads,
                 (if offsite_ads request
                  then round (mul (sale_price request) (decimal 15 2)) 2 else Ok zero)
                 = Ok ads /\ valid_binary prec emax ads = true).
      { destruct (offsite_ads request).
        - apply round_ok; [apply mul_valid; [assumption|reflexivity]|lia].
        - exists zero. split; reflexivity. }
      destruct Hads as (ads & -> & Hads). cbn [bind_result].
      destruct (round_ok (add (add (add tf (decimal 20 2)) pp) ads) 2)
        as (total & -> & Htotal);
        [repeat apply add_valid; try assumption; reflexivity|lia|].
      cbn [bind_result].
      destruct (round_ok (sub (sale_price request) total) 2) as (net & -> & Hnet);
        [apply sub_valid; assumption|lia|].
      cbn [bind_result].
      destruct (round_ok (add (production_cost request) (shipping_cost request)) 2)
        as (costs & -> & Hcosts);
        [apply add_valid; assumption|lia|].
      cbn [bind_result].
      destruct (round_ok (sub net costs) 2) as (profit & -> & Hprofit);
        [apply sub_valid; assumption|lia|].
      cbn [bind_result]. rewrite Hgt. cbn [bind_result].
      eexists. split; reflexivity. }
    destruct Hcalc as (response & Hcalc & Hmargin).
    exists response. split; [exact Hcalc|]. split; [|intros _; exact Hmargin].
    unfold calculate_fees. rewrite Hcalc. reflexivity.
Qed.

(** ** The sign of the margin *)

Lemma binary_round_aux_sign (s : bool) (m e : Z) (l : location) :
  (s = false -> lt (binary_round_aux prec emax s m e l) (of_int 0) = false) /\
  (s = true -> gt (binary_round_aux prec emax s m e l) (of_int 0) = false).
Proof.
  rewrite binary_round_aux_core.
  destruct (round_core m e l) as [[|m'|m'] e']; try (destruct (e' <=? 971));
    split; intros ->; reflexivity.
Qed.

Lemma div_sign (x y : float) :
  gt y (of_int 0) = true ->
  (lt x (of_int 0) = false -> lt (SFdiv prec emax x y) (of_int 0) = false) /\
  (gt x (of_int 0) = false -> gt (SFdiv prec emax x y) (of_int 0) = false).
Proof.
  intros Hy.
  destruct y as [sy|[]| |[] my ey]; try discriminate;
    destruct x as [sx|[]| |[] mx ex]; try (split; intros H; try discriminate; reflexivity);
    try (destruct sx; split; intros H; try discriminate; reflexivity).
  - cbn [SFdiv xorb].
    destruct (SFdiv_core_binary prec emax (Zpos mx) ex (Zpos my) ey) as [[mz ez] lz].
    split; [discriminate|intros _]. apply binary_round_aux_sign. reflexivity.
  - cbn [SFdiv xorb].
    destruct (SFdiv_core_binary prec emax (Zpos mx) ex (Zpos my) ey) as [[mz ez] lz].
    split; [intros _|discriminate]. apply binary_round_aux_sign. reflexivity.
Qed.

Lemma mul_100_sign (x : float) :
  (lt x (of_int 0) = false -> lt (mul x (of_int 100)) (of_int 0) = false) /\
  (gt x (of_int 0) = false -> gt (mul x (of_int 100)) (of_int 0) = false).
Proof.
  assert (E : of_int 100 = S754_finite false 7036874417766400 (-46))
    by (vm_compute; reflexivity).
  rewrite E. unfold mul.
  destruct x as [sx|[]| |[] mx ex]; try (split; intros H; try discriminate; reflexivity);
    try (destruct sx; split; intros H; try discriminate; reflexivity).
  - cbn [SFmul xorb]. split; [discriminate|intros _].
    apply binary_round_aux_sign. reflexivity.
  - cbn [SFmul xorb]. split; [intros _|discriminate].
    apply binary_round_aux_sign. reflexivity.
Qed.

Lemma round_sign (x r : float) (ndigits : Z) :
  round x ndigits = Ok r ->
  (lt x (of_int 0) = false -> lt r (of_int 0) = false) /\
  (gt x (of_int 0) = false -> gt r (of_int 0) = false).
Proof.
  unfold round. intros Hr.
  destruct x as [sx|sx| |sx mx ex]; try (injection Hr as <-; split; intros H; exact H).
  assert (Hshape :
            (sx = false -> lt (of_ratio sx (scaled_digits ndigits mx ex)
                                 (Z.to_pos (10 ^ ndigits))) (of_int 0) = false) /\
            (sx = true -> gt (of_ratio sx (scaled_digits ndigits mx ex)
                                (Z.to_pos (10 ^ ndigits))) (of_int 0) = false)).
  { unfold of_ratio. destruct (scaled_digits ndigits mx ex) as [|n|n];
      try (split; intros ->; reflexivity).
    cbn [SFdiv]. rewrite xorb_false_r.
    destruct (SFdiv_core_binary prec emax (Zpos n) 0 (Zpos (Z.to_pos (10 ^ ndigits))) 0)
      as [[mz ez] lz].
    apply binary_round_aux_sign. }
  destruct Hshape as [Hpos Hneg].
  destruct (of_ratio sx _ _) as [s'|s'| |s' m' e'] eqn:E; try discriminate;
    injection Hr as <-; destruct sx; split; intros H; try discriminate;
    first [apply Hpos; reflexivity|apply Hneg; reflexivity].
Qed.

(** X19. The margin never has the wrong sign. For every request with
    [sale_price > 0], doubles of any size, the returned [profit_margin] is
    below zero only if [profit] is, and above zero only if [profit] is. *)
Theorem margin_has_the_sign_of_the_profit
    (sale_price production_cost shipping_cost : float) (offsite_ads : bool)
    (response : FeeCalculationResponse) :
  calculate_etsy_fees sale_price production_cost shipping_cost offsite_ads
    = Ok response ->
  gt sale_price (of_int 0) = true ->
  (lt (profit_margin response) (of_int 0) = true ->
   lt (profit response) (of_int 0) = true) /\
  (gt (profit_margin response) (of_int 0) = true ->
   gt (profit response) (of_int 0) = true).
Proof.
  intros Hcalc Hgt.
  destruct (calculate_etsy_fees_inv _ _ _ _ _ Hcalc)
    as (_ & _ & _ & _ & _ & _ & _ & _ & Hmargin).
  rewrite Hgt in Hmargin. unfold truediv in Hmargin.
  rewrite (gt_zero_not_zero sale_price Hgt) in Hmargin. cbn [bind_result] in Hmargin.
  destruct (round_sign _ _ _ Hmargin) as [Hneg Hpos].
  destruct (mul_100_sign (SFdiv prec emax (profit response) sale_price)) as [Mneg Mpos].
  destruct (div_sign (profit response) sale_price Hgt) as [Dneg Dpos].
  split.
  - intros Hm. destruct (lt (profit response) (of_int 0)) eqn:E; [reflexivity|].
    rewrite (Hneg (Mneg (Dneg eq_refl))) in Hm. discriminate.
  - intros Hm. destruct (gt (profit response) (of_int 0)) eqn:E; [reflexivity|].
    rewrite (Hpos (Mpos (Dpos eq_refl))) in Hm. discriminate.
Qed.

(** ** How far a product is from the exact one *)

Lemma abs_ticks_finite (s : bool) (m : positive) (e : Z) :
  -1074 <= e ->
  Z.abs (ticks (S754_finite s m e)) = Zpos m * 2 ^ (e + scale).
Proof.
  intros He. pose proof (pow2_pos (e + scale) ltac:(slia)).
  cbn [ticks]. destruct s; cbn [cond_Zopp]; rewrite ?Z.abs_opp; apply Z.abs_eq;
    apply Z.mul_nonneg_nonneg; slia.
Qed.

Lemma mul_near (x y : float) (mB eB : Z) :
  valid_binary prec emax x = true -> valid_binary prec emax y = true ->
  is_finite x = true -> is_finite y = true ->
  0 < mB -> fexp64 (Zdigits2 mB + eB) = eB -> eB <= 971 ->
  Z.abs (ticks x) * Z.abs (ticks y) <= mB * 2 ^ (eB + scale) * 2 ^ scale ->
  - (2 ^ (eB + scale) * 2 ^ scale)
  <= 2 * (Z.abs (ticks (mul x y)) * 2 ^ scale - Z.abs (ticks x) * Z.abs (ticks y))
  <= 2 ^ (eB + scale) * 2 ^ scale.
Proof.
  intros Hx Hy Hfx Hfy HmB HcanB HeB Hle. unfold mul.
  assert (HeBlo : -1074 <= eB) by (unfold fexp64 in HcanB; slia).
  pose proof (pow2_pos (eB + scale) ltac:(slia)) as HpB.
  pose proof (pow2_pos scale ltac:(slia)) as HU.
  assert (Hpos : 0 <= 2 ^ (eB + scale) * 2 ^ scale) by (apply Z.mul_nonneg_nonneg; lia).
  destruct x as [sx|sx| |sx mx ex], y as [sy|sy| |sy my ey]; try discriminate;
    try (cbn [SFmul ticks]; change (Z.abs 0) with 0; rewrite ?Z.mul_0_l, ?Z.mul_0_r; lia).
  cbn [SFmul].
  destruct (mul_shift mx my ex ey) as [Hlo Hshift].
  { destruct sx; exact Hx. }
  { destruct sy; exact Hy. }
  pose proof (valid_finite_facts sx mx ex Hx) as (_ & Hex & _).
  pose proof (valid_finite_facts sy my ey Hy) as (_ & Hey & _).
  rewrite (abs_ticks_finite sx mx ex) in * by lia.
  rewrite (abs_ticks_finite sy my ey) in * by lia.
  assert (Hprod : Zpos mx * 2 ^ (ex + scale) * (Zpos my * 2 ^ (ey + scale))
                  = Zpos (mx * my) * 2 ^ (ex + ey + scale) * 2 ^ scale).
  { rewrite Pos2Z.inj_mul.
    replace (Zpos mx * 2 ^ (ex + scale) * (Zpos my * 2 ^ (ey + scale)))
      with (Zpos mx * Zpos my * (2 ^ (ex + scale) * 2 ^ (ey + scale))) by ring.
    rewrite <- pow2_split by slia.
    replace (ex + scale + (ey + scale)) with ((ex + ey + scale) + scale) by slia.
    rewrite pow2_split by slia. ring. }
  rewrite Hprod in *.
  assert (Hbound : Zpos (mx * my) * 2 ^ (ex + ey + scale) <= mB * 2 ^ (eB + scale) * 1).
  { rewrite Z.mul_1_r. apply (Z.mul_le_mono_pos_r _ _ (2 ^ scale)); assumption. }
  destruct (binary_round_aux_bounded (xorb sx sy) (Zpos (mx * my)) 1 (ex + ey) loc_Exact
              mB eB ltac:(slia) ltac:(slia)) as (_ & _ & _ & _ & _ & Herr);
    try assumption.
  { cbn [loc_ok]. apply Z.mod_1_r. }
  rewrite !Z.mul_1_r, Z.div_1_r in Herr.
  set (A := Z.abs (ticks (binary_round_aux prec emax (xorb sx sy) (Zpos (mx * my))
                            (ex + ey) loc_Exact))) in *.
  set (X := Zpos (mx * my) * 2 ^ (ex + ey + scale)) in *.
  set (E := 2 ^ (eB + scale)) in *. set (U := 2 ^ scale) in *.
  clearbody A X E U. clear - Herr HU.
  destruct Herr as [Hlo' Hhi'].
  split.
  - replace (- (E * U)) with ((- E) * U) by ring.
    replace (2 * (A * U - X * U)) with ((2 * (A - X)) * U) by ring.
    apply Z.mul_le_mono_nonneg_r; lia.
  - replace (2 * (A * U - X * U)) with ((2 * (A - X)) * U) by ring.
    apply Z.mul_le_mono_nonneg_r; lia.
Qed.

(** ** Percentages of a price in whole cents *)

Lemma price_range (sale_price : float) :
  valid_binary prec emax sale_price = true ->
  gt sale_price (of_int 0) = true -> le sale_price (of_int 1000000000) = true ->
  is_finite sale_price = true /\ 0 < ticks sale_price <= 1000000000 * 2 ^ scale.
Proof.
  intros Hv Hgt Hle.
  destruct (range_ticks sale_price (of_int 1000000000) Hv eq_refl eq_refl
              (gt_ge _ Hgt) Hle) as (Hf & Hr).
  rewrite of_int_1e9_ticks in Hr.
  pose proof (gt_ticks _ Hv Hf Hgt). split; [exact Hf|lia].
Qed.

Lemma rate_product (sale_price rate : float) :
  0 < ticks sale_price <= 1000000000 * 2 ^ scale ->
  Z.abs (ticks rate) <= 2 ^ scale ->
  Z.abs (ticks sale_price) * Z.abs (ticks rate)
  <= 2 ^ 52 * 2 ^ (-22 + scale) * 2 ^ scale.
Proof.
  intros Hr Hbr.
  apply Z.le_trans with (1000000000 * 2 ^ scale * 2 ^ scale).
  - apply Z.mul_le_mono_nonneg; slia.
  - apply Z.mul_le_mono_nonneg_r; [apply Z.pow_nonneg; slia|].
    apply Z.leb_le. vm_compute. reflexivity.
Qed.

Lemma fine_scale (k : Z) :
  0 <= k <= 60 ->
  2 ^ scale = 2 ^ k * 2 ^ (- k + scale) /\ 0 < 2 ^ (- k + scale).
Proof.
  intros Hk. split.
  - rewrite <- pow2_split by slia. f_equal. lia.
  - apply pow2_pos. slia.
Qed.

Lemma fine_scale_at (j k : Z) :
  0 <= j <= k -> k <= 60 ->
  2 ^ (- j + scale) = 2 ^ (k - j) * 2 ^ (- k + scale).
Proof.
  intros Hj Hk. rewrite <- pow2_split by slia. f_equal. lia.
Qed.

(** The product of a price near [p] cents with a rate [m * 2^-k], in
    cents, against [m * p / 2^k]. *)
Lemma product_of_rate (sale_price rate : float) (m : positive) (k : Z) :
  valid_binary prec emax sale_price = true -> is_finite sale_price = true ->
  0 < ticks sale_price <= 1000000000 * 2 ^ scale ->
  rate = S754_finite false m (- k) -> valid_binary prec emax rate = true ->
  22 <= k <= 60 -> Zpos m <= 2 ^ k ->
  let V := 2 ^ (- k + scale) in
  let P := ticks (mul sale_price rate) in
  valid_binary prec emax (mul sale_price rate) = true /\
  is_finite (mul sale_price rate) = true /\
  sign_of (mul sale_price rate) = false /\
  0 <= P <= 2 ^ 30 * 2 ^ scale /\
  - (2 ^ (k - 22) * 2 ^ k * V) <= 2 * (2 ^ k * P - Zpos m * ticks sale_price)
  <= 2 ^ (k - 22) * 2 ^ k * V.
Proof.
  intros Hv Hf Hr -> Hvr Hk Hm V P.
  destruct (fine_scale k ltac:(lia)) as (HU & HV). fold V in HU, HV.
  assert (Hrt : ticks (S754_finite false m (- k)) = Zpos m * V) by reflexivity.
  assert (Hbr : Z.abs (ticks (S754_finite false m (- k))) <= 2 ^ scale).
  { rewrite Hrt, Z.abs_eq by (apply Z.mul_nonneg_nonneg; lia).
    rewrite HU. apply Z.mul_le_mono_nonneg_r; lia. }
  destruct (rate_bounded sale_price (S754_finite false m (- k)) Hv Hf Hr Hvr eq_refl
              eq_refl Hbr) as (Hvp & Hfp & Hbp).
  fold P in Hbp.
  split; [exact Hvp|]. split; [exact Hfp|].
  split.
  { destruct (mul_bounded sale_price (S754_finite false m (- k)) (2 ^ 52) (-22) Hv Hvr Hf
                eq_refl ltac:(lia) eq_refl ltac:(lia) (rate_product _ _ Hr Hbr))
      as (_ & _ & Hs & _).
    rewrite Hs, (ticks_sign sale_price Hf ltac:(lia)). reflexivity. }
  split; [exact Hbp|].
  pose proof (mul_near sale_price (S754_finite false m (- k)) (2 ^ 52) (-22) Hv Hvr Hf
                eq_refl ltac:(lia) eq_refl ltac:(lia)
                (rate_product _ _ Hr Hbr)) as Hnear.
  fold P in Hnear.
  rewrite (Z.abs_eq P), (Z.abs_eq (ticks sale_price)), Hrt in Hnear by lia.
  rewrite (Z.abs_eq (Zpos m * V)) in Hnear by (apply Z.mul_nonneg_nonneg; lia).
  change (-22 + scale) with (- (22) + scale) in Hnear.
  rewrite (fine_scale_at 22 k) in Hnear by lia. fold V in Hnear.
  rewrite HU in Hnear.
  set (T := ticks sale_price) in *. set (A := 2 ^ k) in *. set (B := 2 ^ (k - 22)) in *.
  clearbody T P V A B. clear - Hnear HV.
  destruct Hnear as [Hlo Hhi]. split.
  - apply (scale_cancel_le _ _ V HV).
    replace (- (B * A * V) * V) with (- (B * V * (A * V))) by ring.
    replace (2 * (A * P - Zpos m * T) * V) with (2 * (P * (A * V) - T * (Zpos m * V))) by ring.
    exact Hlo.
  - apply (scale_cancel_le _ _ V HV).
    replace (B * A * V * V) with (B * V * (A * V)) by ring.
    replace (2 * (A * P - Zpos m * T) * V) with (2 * (P * (A * V) - T * (Zpos m * V))) by ring.
    exact Hhi.
Qed.

Lemma transaction_fee_cents (sale_price : float) (p : Z) :
  approx sale_price p 100 ->
  0 < ticks sale_price <= 1000000000 * 2 ^ scale ->
  0 <= p <= 100000000000 ->
  let fee := mul sale_price (decimal 65 3) in
  valid_binary prec emax fee = true /\ is_finite fee = true /\
  sign_of fee = false /\
  0 <= ticks fee <= 2 ^ 30 * 2 ^ scale /\
  -500 <= 1000 * cents fee - 65 * p <= 500.
Proof.
  intros (Hv & Hf & He) Hr Hp fee. unfold fee.
  assert (Hd : decimal 65 3 = S754_finite false 4683743612465316 (- (56)))
    by (vm_compute; reflexivity).
  destruct (product_of_rate sale_price (decimal 65 3) 4683743612465316 56 Hv Hf Hr Hd
              eq_refl ltac:(lia) ltac:(lia)) as (Hvp & Hfp & Hsp & Hbp & Hnear).
  split; [exact Hvp|]. split; [exact Hfp|]. split; [exact Hsp|]. split; [exact Hbp|].
  pose proof (cents_spec _ Hvp) as Hc.
  destruct (fine_scale 56 ltac:(lia)) as (HU & HV).
  change (-18 + scale) with (- (18) + scale) in He.
  rewrite (fine_scale_at 18 56) in He by lia.
  rewrite HU in He, Hc.
  set (a := cents (mul sale_price (decimal 65 3))) in *.
  set (P := ticks (mul sale_price (decimal 65 3))) in *.
  set (T := ticks sale_price) in *. set (V := 2 ^ (- (56) + scale)) in *.
  clearbody a P T V. clear - Hnear Hc He HV Hp.
  change (2 ^ (56 - 22)) with 17179869184 in Hnear.
  change (2 ^ (56 - 18)) with 274877906944 in He.
  change (2 ^ 56) with 72057594037927936 in *.
  pose proof (scale_between p 0 100000000000 V HV Hp).
  assert (2 * (1000 * a - 65 * p) <= 1001)
    by (apply (scale_cancel_le _ _ V HV); lia).
  assert (-1001 <= 2 * (1000 * a - 65 * p))
    by (apply (scale_cancel_le _ _ V HV); lia).
  lia.
Qed.

Lemma offsite_ads_fee_cents (sale_price : float) (p : Z) :
  approx sale_price p 100 ->
  0 < ticks sale_price <= 1000000000 * 2 ^ scale ->
  0 <= p <= 100000000000 ->
  let fee := mul sale_price (decimal 15 2) in
  valid_binary prec emax fee = true /\ is_finite fee = true /\
  sign_of fee = false /\
  0 <= ticks fee <= 2 ^ 30 * 2 ^ scale /\
  -50 <= 100 * cents fee - 15 * p <= 50.
Proof.
  intros (Hv & Hf & He) Hr Hp fee. unfold fee.
  assert (Hd : decimal 15 2 = S754_finite false 5404319552844595 (- (55)))
    by (vm_compute; reflexivity).
  destruct (product_of_rate sale_price (decimal 15 2) 5404319552844595 55 Hv Hf Hr Hd
              eq_refl ltac:(lia) ltac:(lia)) as (Hvp & Hfp & Hsp & Hbp & Hnear).
  split; [exact Hvp|]. split; [exact Hfp|]. split; [exact Hsp|]. split; [exact Hbp|].
  pose proof (cents_spec _ Hvp) as Hc.
  destruct (fine_scale 55 ltac:(lia)) as (HU & HV).
  change (-18 + scale) with (- (18) + scale) in He.
  rewrite (fine_scale_at 18 55) in He by lia.
  rewrite HU in He, Hc.
  set (a := cents (mul sale_price (decimal 15 2))) in *.
  set (P := ticks (mul sale_price (decimal 15 2))) in *.
  set (T := ticks sale_price) in *. set (V := 2 ^ (- (55) + scale)) in *.
  clearbody a P T V. clear - Hnear Hc He HV Hp.
  change (2 ^ (55 - 22)) with 8589934592 in Hnear.
  change (2 ^ (55 - 18)) with 137438953472 in He.
  change (2 ^ 55) with 36028797018963968 in *.
  pose proof (scale_between p 0 100000000000 V HV Hp).
  assert (2 * (100 * a - 15 * p) <= 101)
    by (apply (scale_cancel_le _ _ V HV); lia).
  assert (-101 <= 2 * (100 * a - 15 * p))
    by (apply (scale_cancel_le _ _ V HV); lia).
  lia.
Qed.

Lemma payment_processing_cents (sale_price : float) (p : Z) :
  approx sale_price p 100 ->
  0 < ticks sale_price <= 1000000000 * 2 ^ scale ->
  0 <= p <= 100000000000 ->
  let fee := add (mul sale_price (decimal 3 2)) (decimal 25 2) in
  valid_binary prec emax fee = true /\ is_finite fee = true /\
  0 < ticks fee <= (2 ^ 30 + 1) * 2 ^ scale /\
  -50 <= 100 * cents fee - (3 * p + 2500) <= 50.
Proof.
  intros (Hv & Hf & He) Hr Hp fee. unfold fee.
  assert (Hd : decimal 3 2 = S754_finite false 8646911284551352 (- (58)))
    by (vm_compute; reflexivity).
  destruct (product_of_rate sale_price (decimal 3 2) 8646911284551352 58 Hv Hf Hr Hd
              eq_refl ltac:(lia) ltac:(lia)) as (Hvp & Hfp & _ & Hbp & Hnear).
  assert (Hq : ticks (decimal 25 2) = 2 ^ (- (2) + scale)) by (vm_compute; reflexivity).
  destruct (fine_scale 58 ltac:(lia)) as (HU & HV).
  change (-18 + scale) with (- (18) + scale) in He.
  rewrite (fine_scale_at 18 58) in He by lia.
  rewrite (fine_scale_at 2 58) in Hq by lia.
  assert (HW : 2 ^ (-18 + scale) = 2 ^ (58 - 18) * 2 ^ (- (58) + scale))
    by (apply (fine_scale_at 18 58); lia).
  assert (Hsum : Z.abs (ticks (mul sale_price (decimal 3 2)) + ticks (decimal 25 2))
                 <= 2 ^ 52 * 2 ^ (-18 + scale)).
  { rewrite Hq, HW. rewrite HU in Hbp. clear - Hbp HV.
    set (P := ticks (mul sale_price (decimal 3 2))) in *.
    set (V := 2 ^ (- (58) + scale)) in *. clearbody P V.
    change (2 ^ (58 - 18)) with 1099511627776.
    change (2 ^ (58 - 2)) with 72057594037927936.
    change (2 ^ 58) with 288230376151711744 in Hbp.
    change (2 ^ 30) with 1073741824 in Hbp.
    change (2 ^ 52) with 4503599627370496. lia. }
  destruct (add_bounded _ _ (2 ^ 52) (-18) Hvp
              (eq_refl : valid_binary prec emax (decimal 25 2) = true)
              Hfp eq_refl ltac:(lia) eq_refl ltac:(lia) Hsum)
    as (Hva & Hfa & _ & Hea).
  split; [exact Hva|]. split; [exact Hfa|].
  pose proof (cents_spec _ Hva) as Hc.
  rewrite Hq, HW in Hea. rewrite HU in He, Hc, Hbp. rewrite HU.
  set (b := cents (add (mul sale_price (decimal 3 2)) (decimal 25 2))) in *.
  set (X := ticks (add (mul sale_price (decimal 3 2)) (decimal 25 2))) in *.
  set (P := ticks (mul sale_price (decimal 3 2))) in *.
  set (T := ticks sale_price) in *. set (V := 2 ^ (- (58) + scale)) in *.
  clearbody b X P T V. clear - Hnear Hc He Hea Hbp HV Hp.
  change (2 ^ (58 - 22)) with 68719476736 in Hnear.
  change (2 ^ (58 - 18)) with 1099511627776 in *.
  change (2 ^ (58 - 2)) with 72057594037927936 in *.
  change (2 ^ 58) with 288230376151711744 in *.
  change (2 ^ 30) with 1073741824 in *.
  pose proof (scale_between p 0 100000000000 V HV Hp).
  split; [lia|].
  assert (2 * (100 * b - (3 * p + 2500)) <= 101)
    by (apply (scale_cancel_le _ _ V HV); lia).
  assert (-101 <= 2 * (100 * b - (3 * p + 2500)))
    by (apply (scale_cancel_le _ _ V HV); lia).
  lia.
Qed.

(** ** Rounded amounts are decimal literals *)

Lemma round_2_decimal (x r : float) :
  valid_binary prec emax x = true -> is_finite x = true ->
  round x 2 = Ok r ->
  cents x <> 0 \/ sign_of x = false ->
  r = decimal (cents x) 2.
Proof.
  intros Hv Hf Hr Hz.
  destruct x as [s|s| |s m e]; try discriminate.
  - cbn [round] in Hr. injection Hr as <-. cbn [cents sign_of] in *.
    destruct Hz as [Hz| ->]; [contradiction|reflexivity].
  - pose proof (valid_finite_facts s m e Hv) as (_ & He & _).
    destruct (scaled_digits_spec 2 m e ltac:(lia) ltac:(lia)) as (Hn & _).
    unfold round in Hr. cbn [cents sign_of] in *.
    set (n := scaled_digits 2 m e) in *.
    assert (E : of_ratio s n (Z.to_pos (10 ^ 2)) = decimal (cond_Zopp s n) 2).
    { unfold decimal. destruct s; cbn [cond_Zopp] in *.
      - destruct Hz as [Hz|Hz]; [|discriminate].
        replace (- n <? 0) with true by (symmetry; apply Z.ltb_lt; lia).
        rewrite Z.abs_opp, Z.abs_eq by lia. reflexivity.
      - replace (n <? 0) with false by (symmetry; apply Z.ltb_ge; lia).
        rewrite Z.abs_eq by lia. reflexivity. }
    rewrite E in Hr.
    destruct (decimal (cond_Zopp s n) 2); try discriminate; injection Hr as <-;
      reflexivity.
Qed.

Lemma sub_self (x : float) : is_finite x = true -> sub x x = S754_zero false.
Proof.
  destruct x as [[]|s| |s m e]; try discriminate; try reflexivity.
  intros _. unfold sub. cbn [SFsub]. rewrite Z.sub_diag. reflexivity.
Qed.

Lemma approx_cents (x : float) (z k : Z) :
  approx x z k -> 0 <= k <= 1000 -> cents x = z.
Proof.
  intros (Hv & Hf & He) Hk.
  apply cents_near; [exact Hv|].
  set (T := ticks x) in *. clearbody T. scale_consts.
  pose proof (scale_between k 0 1000 W HWpos ltac:(lia)). lia.
Qed.

Lemma positive_gt (x : float) :
  valid_binary prec emax x = true -> is_finite x = true ->
  0 < ticks x -> gt x (of_int 0) = true.
Proof.
  intros Hv Hf Hpos. unfold gt, SFltb.
  rewrite (SFcompare_ticks (of_int 0) x eq_refl Hv eq_refl Hf).
  change (ticks (of_int 0)) with 0.
  destruct (Z.compare_spec 0 (ticks x)); [lia|reflexivity|lia].
Qed.

(** ** Prices and costs in whole cents *)

Lemma add_zero_cents : sign_of (add (decimal 0 2) (decimal 0 2)) = false.
Proof. reflexivity. Qed.

(** X20. What the calculator computes for amounts in whole cents. For a
    price of [p] cents below one billion and costs of [q1] and [q2] cents
    up to one billion, every amount of the response is the double written
    with two decimals for a whole number of cents: the transaction fee is
    6.5 % of the price and the offsite-ads fee 15 %, each to the nearest
    cent, the payment processing fee is 3 % of the price plus 25 cents to
    the nearest cent (an exact half cent may go either way); the listing
    fee is 20 cents; [total_fees] is the exact sum of the four,
    [net_revenue] the price minus that sum, [total_costs] the sum of the
    two costs and [profit] the net revenue minus the costs, all exactly,
    with no floating-point drift. *)
Theorem amounts_in_whole_cents (p q1 q2 : Z) (offsite_ads : bool) :
  1 <= p < 100000000000 ->
  0 <= q1 <= 100000000000 -> 0 <= q2 <= 100000000000 ->
  exists (a b c : Z) (margin : float),
    -500 <= 1000 * a - 65 * p <= 500 /\
    -50 <= 100 * b - (3 * p + 2500) <= 50 /\
    (if offsite_ads then -50 <= 100 * c - 15 * p <= 50 else c = 0) /\
    calculate_etsy_fees (decimal p 2) (decimal q1 2) (decimal q2 2) offsite_ads
    = Ok {| fees := {| transaction_fee := decimal a 2;
                       listing_fee := decimal 20 2;
                       payment_processing := decimal b 2;
                       offsite_ads_fee := decimal c 2;
                       total_fees := decimal (a + 20 + b + c) 2 |};
            net_revenue := decimal (p - (a + 20 + b + c)) 2;
            total_costs := decimal (q1 + q2) 2;
            profit := decimal (p - (a + 20 + b + c) - (q1 + q2)) 2;
            profit_margin := margin |}.
Proof.
  intros Hp Hq1 Hq2.
  assert (K100 : 0 <= 100 <= 1000) by lia.
  assert (K300 : 0 <= 300 <= 1000) by lia.
  assert (K500 : 0 <= 500 <= 1000) by lia.
  assert (K700 : 0 <= 700 <= 1000) by lia.
  set (sp := decimal p 2).
  pose proof (decimal_cents_approx p ltac:(lia)) as Ap. fold sp in Ap.
  assert (Hvsp := proj1 Ap). assert (Hfsp := proj1 (proj2 Ap)).
  assert (Hr : 0 < ticks sp <= 1000000000 * 2 ^ scale).
  { destruct Ap as (_ & _ & He). clear - He Hp.
    set (T := ticks sp) in *. clearbody T. scale_consts.
    pose proof (scale_between p 1 99999999999 W HWpos ltac:(lia)). lia. }
  (* transaction fee *)
  destruct (transaction_fee_cents sp p Ap Hr ltac:(lia)) as (Hv1 & Hf1 & Hs1 & Hb1 & Ha).
  set (a := cents (mul sp (decimal 65 3))) in *.
  destruct (round_amount (mul sp (decimal 65 3)) (2 ^ 30) Hv1 Hf1
              ltac:(rewrite Z.abs_eq by lia; lia) ltac:(lia))
    as (tf & Htf & Atf & _).
  fold a in Atf.
  pose proof (round_2_decimal _ _ Hv1 Hf1 Htf (or_intror Hs1)) as Etf.
  fold a in Etf. subst tf.
  (* payment processing *)
  destruct (payment_processing_cents sp p Ap Hr ltac:(lia)) as (Hv2 & Hf2 & Hb2 & Hb).
  set (b := cents (add (mul sp (decimal 3 2)) (decimal 25 2))) in *.
  destruct (round_amount (add (mul sp (decimal 3 2)) (decimal 25 2)) (2 ^ 30 + 1) Hv2 Hf2
              ltac:(rewrite Z.abs_eq by lia; lia) ltac:(lia))
    as (pp & Hpp & App & _).
  fold b in App.
  pose proof (round_2_decimal _ _ Hv2 Hf2 Hpp
                (or_intror (ticks_sign _ Hf2 (proj1 Hb2)))) as Epp.
  fold b in Epp. subst pp.
  (* offsite ads *)
  assert (Hads : exists c,
             (if offsite_ads then round (mul sp (decimal 15 2)) 2 else Ok zero)
             = Ok (decimal c 2) /\ approx (decimal c 2) c 100 /\
             (if offsite_ads then -50 <= 100 * c - 15 * p <= 50 else c = 0)).
  { destruct offsite_ads.
    - destruct (offsite_ads_fee_cents sp p Ap Hr ltac:(lia))
        as (Hv3 & Hf3 & Hs3 & Hb3 & Hc).
      set (c := cents (mul sp (decimal 15 2))) in *.
      destruct (round_amount (mul sp (decimal 15 2)) (2 ^ 30) Hv3 Hf3
                  ltac:(rewrite Z.abs_eq by lia; lia) ltac:(lia))
        as (fee & Hfee & Afee & _).
      fold c in Afee.
      pose proof (round_2_decimal _ _ Hv3 Hf3 Hfee (or_intror Hs3)) as Efee.
      fold c in Efee. subst fee.
      exists c. split; [exact Hfee|]. split; [exact Afee|exact Hc].
    - exists 0. split; [reflexivity|]. split; [|reflexivity].
      apply (approx_weaken zero 0 0 100 approx_zero). lia. }
  destruct Hads as (c & Hfee & Afee & Hc).
  assert (Hc' : 0 <= c <= 15000000001) by (destruct offsite_ads; lia).
  (* the total *)
  set (t := a + 20 + b + c).
  pose proof (add_approx _ _ a 20 100 100 Atf approx_literal_20
                ltac:(lia) ltac:(lia) K100 K100) as As1.
  pose proof (add_approx _ _ (a + 20) b 300 100 As1 App
                ltac:(lia) ltac:(lia) K300 K100) as As2.
  pose proof (add_approx _ _ (a + 20 + b) c 500 100 As2 Afee
                ltac:(lia) ltac:(lia) K500 K100) as As3.
  fold t in As3.
  destruct (round_approx _ t 700 As3 ltac:(unfold t; lia) K700)
    as (total & Htotal & Atotal & _).
  pose proof (approx_cents _ _ _ As3 K700) as Ct.
  pose proof (round_2_decimal _ _ (proj1 As3) (proj1 (proj2 As3)) Htotal
                ltac:(left; rewrite Ct; unfold t; lia)) as Etotal.
  rewrite Ct in Etotal. subst total.
  (* net revenue *)
  pose proof (sub_approx sp (decimal t 2) p t 100 100 Ap Atotal
                ltac:(lia) ltac:(unfold t; lia) K100 K100) as An.
  destruct (round_approx _ (p - t) 300 An ltac:(unfold t; lia) K300)
    as (net & Hnet & Anet & _).
  pose proof (approx_cents _ _ _ An K300) as Cn.
  assert (Enet : net = decimal (p - t) 2).
  { rewrite <- Cn. apply round_2_decimal; [apply An|apply An|exact Hnet|].
    destruct (Z.eq_dec (p - t) 0) as [E|E]; [right|left; rewrite Cn; exact E].
    replace t with p by lia. fold sp. rewrite (sub_self sp Hfsp). reflexivity. }
  subst net.
  (* costs *)
  pose proof (add_approx _ _ q1 q2 100 100 (decimal_cents_approx q1 Hq1)
                (decimal_cents_approx q2 Hq2) ltac:(lia) ltac:(lia) K100 K100) as Ak.
  destruct (round_approx _ (q1 + q2) 300 Ak ltac:(lia) K300)
    as (costs & Hcosts & Acosts & _).
  pose proof (approx_cents _ _ _ Ak K300) as Ck.
  assert (Ecosts : costs = decimal (q1 + q2) 2).
  { rewrite <- Ck. apply round_2_decimal; [apply Ak|apply Ak|exact Hcosts|].
    destruct (Z.eq_dec (q1 + q2) 0) as [E|E]; [right|left; rewrite Ck; exact E].
    replace q1 with 0 by lia. replace q2 with 0 by lia. exact add_zero_cents. }
  subst costs.
  (* profit *)
  pose proof (sub_approx _ _ (p - t) (q1 + q2) 100 100 Anet Acosts
                ltac:(unfold t; lia) ltac:(lia) K100 K100) as Apr.
  destruct (round_approx _ (p - t - (q1 + q2)) 300 Apr ltac:(unfold t; lia) K300)
    as (profit & Hprofit & Aprofit & _).
  pose proof (approx_cents _ _ _ Apr K300) as Cpr.
  assert (Eprofit : profit = decimal (p - t - (q1 + q2)) 2).
  { rewrite <- Cpr. apply round_2_decimal; [apply Apr|apply Apr|exact Hprofit|].
    destruct (Z.eq_dec (p - t - (q1 + q2)) 0) as [E|E];
      [right|left; rewrite Cpr; exact E].
    replace (q1 + q2) with (p - t) by lia.
    rewrite (sub_self _ (proj1 (proj2 Anet))). reflexivity. }
  subst profit.
  (* the margin *)
  destruct (round_ok (mul (SFdiv prec emax (decimal (p - t - (q1 + q2)) 2) sp)
                        (of_int 100)) 1) as (margin & Hmargin & _);
    [apply mul_valid; [apply div_valid; [apply Aprofit|exact Hvsp]|reflexivity]|lia|].
  pose proof (positive_gt sp Hvsp Hfsp (proj1 Hr)) as Hgt.
  exists a, b, c, margin.
  split; [exact Ha|]. split; [exact Hb|]. split; [exact Hc|].
  unfold calculate_etsy_fees. fold sp.
  rewrite Htf. cbn [bind_result]. rewrite Hpp. cbn [bind_result].
  rewrite Hfee. cbn [bind_result]. rewrite Htotal. cbn [bind_result].
  rewrite Hnet. cbn [bind_result]. rewrite Hcosts. cbn [bind_result].
  rewrite Hprofit. cbn [bind_result]. rewrite Hgt.
  unfold truediv. rewrite (gt_zero_not_zero sp Hgt). cbn [bind_result].
  rewrite Hmargin. reflexivity.
Qed.

(** ** The amounts of a response add up *)

Lemma round_cents (x r : float) (bound : Z) :
  valid_binary prec emax x = true -> is_finite x = true ->
  Z.abs (ticks x) <= bound * 2 ^ scale -> bound <= 2 ^ 31 ->
  round x 2 = Ok r -> cents r = cents x.
Proof.
  intros Hv Hf Hb Hbound Hr.
  destruct (round_amount x bound Hv Hf Hb Hbound) as (r' & Hr' & _ & Hc & _).
  congruence.
Qed.

Lemma nonnegative_cents (x : float) :
  valid_binary prec emax x = true -> 0 <= ticks x -> 0 <= cents x.
Proof.
  intros Hv Hpos. pose proof (cents_spec x Hv) as Hc.
  pose proof (pow2_pos scale ltac:(slia)) as HU.
  set (T := ticks x) in *. set (U := 2 ^ scale) in *. set (c := cents x) in *.
  clearbody T U c.
  assert (-1 <= 2 * c) by (apply (scale_cancel_le _ _ U HU); lia).
  lia.
Qed.

Lemma payment_processing_floor (sale_price : float) :
  valid_binary prec emax sale_price = true -> is_finite sale_price = true ->
  0 < ticks sale_price <= 1000000000 * 2 ^ scale ->
  let fee := add (mul sale_price (decimal 3 2)) (decimal 25 2) in
  valid_binary prec emax fee = true /\ is_finite fee = true /\
  Z.abs (ticks fee) <= (2 ^ 30 + 1) * 2 ^ scale /\
  25 <= cents fee.
Proof.
  intros Hv Hf Hr fee. unfold fee.
  assert (Hr3 : Z.abs (ticks (decimal 3 2)) <= 2 ^ scale)
    by (apply Z.leb_le; vm_compute; reflexivity).
  destruct (rate_bounded sale_price (decimal 3 2) Hv Hf Hr eq_refl eq_refl eq_refl Hr3)
    as (Hvp & Hfp & Hbp).
  assert (Hq : ticks (decimal 25 2) = 65536 * 2 ^ (-18 + scale))
    by (vm_compute; reflexivity).
  assert (Hsum : Z.abs (ticks (mul sale_price (decimal 3 2)) + ticks (decimal 25 2))
                 <= 2 ^ 52 * 2 ^ (-18 + scale)).
  { rewrite Hq. clear - Hbp.
    set (P := ticks (mul sale_price (decimal 3 2))) in *. clearbody P.
    change (2 ^ 30) with 1073741824 in Hbp. scale_consts. lia. }
  destruct (add_bounded _ _ (2 ^ 52) (-18) Hvp
              (eq_refl : valid_binary prec emax (decimal 25 2) = true)
              Hfp eq_refl ltac:(lia) eq_refl ltac:(lia) Hsum)
    as (Hva & Hfa & _ & Hea).
  split; [exact Hva|]. split; [exact Hfa|].
  pose proof (cents_spec _ Hva) as Hc.
  rewrite Hq in Hea.
  set (b := cents (add (mul sale_price (decimal 3 2)) (decimal 25 2))) in *.
  set (X := ticks (add (mul sale_price (decimal 3 2)) (decimal 25 2))) in *.
  set (P := ticks (mul sale_price (decimal 3 2))) in *.
  clearbody b X P. clear - Hbp Hea Hc.
  change (2 ^ 30) with 1073741824 in *. scale_consts.
  split; [lia|].
  assert (12844956 <= 524288 * b) by (apply (scale_cancel_le _ _ W HWpos); lia).
  lia.
Qed.

(** X21. The amounts of a response are consistent to the cent. For every
    request the schema accepts with a price and costs of at most one
    billion, taken in whole cents: [total_fees] is exactly the sum of the
    four fees listed beside it, and [profit] is exactly [net_revenue]
    minus [total_costs]; the listing fee is 20 cents, the payment
    processing fee at least 25 cents, no fee and no cost is negative, so
    the fees are never below 45 cents; without offsite ads that fee is
    [0.0]. *)
Theorem amounts_add_up_to_the_cent
    (sale_price production_cost shipping_cost : float) (offsite_ads : bool) :
  well_formed sale_price = true ->
  well_formed production_cost = true ->
  well_formed shipping_cost = true ->
  gt sale_price (of_int 0) = true ->
  le sale_price (of_int 1000000000) = true ->
  ge production_cost (of_int 0) = true ->
  le production_cost (of_int 1000000000) = true ->
  ge shipping_cost (of_int 0) = true ->
  le shipping_cost (of_int 1000000000) = true ->
  exists response,
    calculate_etsy_fees sale_price production_cost shipping_cost offsite_ads
      = Ok response /\
    cents (total_fees (fees response))
    = cents (transaction_fee (fees response)) + cents (listing_fee (fees response))
      + cents (payment_processing (fees response))
      + cents (offsite_ads_fee (fees response)) /\
    cents (profit response)
    = cents (net_revenue response) - cents (total_costs response) /\
    0 <= cents (transaction_fee (fees response)) /\
    cents (listing_fee (fees response)) = 20 /\
    25 <= cents (payment_processing (fees response)) /\
    0 <= cents (offsite_ads_fee (fees response)) /\
    45 <= cents (total_fees (fees response)) /\
    0 <= cents (total_costs response) /\
    (offsite_ads = false -> offsite_ads_fee (fees response) = zero).
Proof.
  intros Hsp Hpc Hsc Hgt Hle Hpc0 Hpc1 Hsc0 Hsc1.
  destruct (calculate_etsy_fees_cents sale_price production_cost shipping_cost
              offsite_ads Hsp Hpc Hsc Hgt Hle Hpc0 Hpc1 Hsc0 Hsc1)
    as (response & Hcalc & Hfee & Coff & Ctotal & Cprofit & _).
  unfold well_formed in *.
  destruct (calculate_etsy_fees_inv _ _ _ _ _ Hcalc)
    as (Rtf & Elf & Rpp & _ & _ & _ & Rcosts & _).
  destruct (price_range sale_price Hsp Hgt Hle) as (Hf & Hr).
  (* transaction fee *)
  assert (Hr65 : Z.abs (ticks (decimal 65 3)) <= 2 ^ scale)
    by (apply Z.leb_le; vm_compute; reflexivity).
  destruct (rate_bounded sale_price (decimal 65 3) Hsp Hf Hr eq_refl eq_refl eq_refl
              Hr65) as (Hv1 & Hf1 & Hb1).
  pose proof (round_cents _ _ (2 ^ 30) Hv1 Hf1
                ltac:(rewrite Z.abs_eq by lia; lia) ltac:(lia) Rtf) as Ctf.
  pose proof (nonnegative_cents _ Hv1 (proj1 Hb1)) as Ntf.
  (* payment processing *)
  destruct (payment_processing_floor sale_price Hsp Hf Hr) as (Hv2 & Hf2 & Hb2 & Nb).
  pose proof (round_cents _ _ (2 ^ 30 + 1) Hv2 Hf2 Hb2 ltac:(lia) Rpp) as Cpp.
  (* offsite ads *)
  assert (Noff : 0 <= cents (offsite_ads_fee (fees response))
                 /\ (offsite_ads = false -> offsite_ads_fee (fees response) = zero)).
  { rewrite Coff. destruct offsite_ads.
    - split; [|discriminate].
      assert (Hr15 : Z.abs (ticks (decimal 15 2)) <= 2 ^ scale)
        by (apply Z.leb_le; vm_compute; reflexivity).
      destruct (rate_bounded sale_price (decimal 15 2) Hsp Hf Hr eq_refl eq_refl eq_refl
                  Hr15) as (Hv3 & _ & Hb3).
      exact (nonnegative_cents _ Hv3 (proj1 Hb3)).
    - split; [lia|]. intros _. injection Hfee as <-. reflexivity. }
  (* costs *)
  destruct (range_ticks production_cost (of_int 1000000000) Hpc eq_refl eq_refl Hpc0 Hpc1)
    as (Hfpc & Hrpc).
  destruct (range_ticks shipping_cost (of_int 1000000000) Hsc eq_refl eq_refl Hsc0 Hsc1)
    as (Hfsc & Hrsc).
  rewrite of_int_1e9_ticks in Hrpc, Hrsc.
  assert (Hsumc : Z.abs (ticks production_cost + ticks shipping_cost)
                  <= 2 ^ 52 * 2 ^ (-18 + scale)).
  { clear - Hrpc Hrsc.
    set (T := ticks production_cost) in *. set (T' := ticks shipping_cost) in *.
    clearbody T T'. scale_consts. lia. }
  destruct (add_bounded _ _ (2 ^ 52) (-18) Hpc Hsc Hfpc Hfsc ltac:(lia) eq_refl
              ltac:(lia) Hsumc) as (Hvc & Hfc & _ & Hec).
  assert (Hbc : Z.abs (ticks (add production_cost shipping_cost))
                <= 2000000001 * 2 ^ scale).
  { clear - Hrpc Hrsc Hec.
    set (T := ticks production_cost) in *. set (T' := ticks shipping_cost) in *.
    set (X := ticks (add production_cost shipping_cost)) in *. clearbody T T' X.
    scale_consts. lia. }
  pose proof (round_cents _ _ 2000000001 Hvc Hfc Hbc ltac:(lia) Rcosts) as Ccosts.
  assert (Ncosts : 0 <= cents (add production_cost shipping_cost)).
  { pose proof (cents_spec _ Hvc) as Hc. clear - Hrpc Hrsc Hec Hc.
    set (T := ticks production_cost) in *. set (T' := ticks shipping_cost) in *.
    set (X := ticks (add production_cost shipping_cost)) in *.
    set (k := cents (add production_cost shipping_cost)) in *. clearbody T T' X k.
    scale_consts.
    assert (-262244 <= 524288 * k) by (apply (scale_cancel_le _ _ W HWpos); lia).
    lia. }
  assert (Clf : cents (listing_fee (fees response)) = 20) by (rewrite Elf; reflexivity).
  destruct Noff as [Noff Zoff]. cbv zeta in Ctotal, Cprofit, Coff.
  exists response. split; [exact Hcalc|].
  repeat (split; [lia|]). exact Zoff.
Qed.

(** *** The theorems at work *)

Lemma calculate_etsy_fees_never_raises_witness :
  exists response,
    calculate_etsy_fees (decimal (-500) 2) (decimal 120 1) (decimal 40 1) true
      = Ok response /\
    calculate_fees {| sale_price := decimal (-500) 2;
                      production_cost := decimal 120 1;
                      shipping_cost := decimal 40 1;
                      offsite_ads := true |} = Ok response /\
    (gt (decimal (-500) 2) (of_int 0) = false -> profit_margin response = zero).
Proof.
  apply (calculate_etsy_fees_never_raises
           {| sale_price := decimal (-500) 2;
              production_cost := decimal 120 1;
              shipping_cost := decimal 40 1;
              offsite_ads := true |});
    vm_compute; reflexivity.
Defined.

Lemma margin_has_the_sign_of_the_profit_witness :
  (lt (decimal 356 1) (of_int 0) = true -> lt (decimal 1069 2) (of_int 0) = true) /\
  (gt (decimal 356 1) (of_int 0) = true -> gt (decimal 1069 2) (of_int 0) = true).
Proof.
  apply (margin_has_the_sign_of_the_profit
           (decimal 2999 2) (decimal 120 1) (decimal 40 1) false
           {| fees := {| transaction_fee := decimal 195 2;
                         listing_fee := decimal 20 2;
                         payment_processing := decimal 115 2;
                         offsite_ads_fee := decimal 0 1;
                         total_fees := decimal 330 2 |};
              net_revenue := decimal 2669 2;
              total_costs := decimal 1600 2;
              profit := decimal 1069 2;
              profit_margin := decimal 356 1 |});
    vm_compute; reflexivity.
Defined.

Lemma amounts_in_whole_cents_witness :
  exists (a b c : Z) (margin : float),
    -500 <= 1000 * a - 65 * 2999 <= 500 /\
    -50 <= 100 * b - (3 * 2999 + 2500) <= 50 /\
    c = 0 /\
    calculate_etsy_fees (decimal 2999 2) (decimal 1200 2) (decimal 400 2) false
    = Ok {| fees := {| transaction_fee := decimal a 2;
                       listing_fee := decimal 20 2;
                       payment_processing := decimal b 2;
                       offsite_ads_fee := decimal c 2;
                       total_fees := decimal (a + 20 + b + c) 2 |};
            net_revenue := decimal (2999 - (a + 20 + b + c)) 2;
            total_costs := decimal (1200 + 400) 2;
            profit := decimal (2999 - (a + 20 + b + c) - (1200 + 400)) 2;
            profit_margin := margin |}.
Proof.
  apply (amounts_in_whole_cents 2999 1200 400 false); lia.
Defined.

Lemma amounts_add_up_to_the_cent_witness :
  exists response,
    calculate_etsy_fees (decimal 125 3) (decimal 120 1) (decimal 40 1) true
      = Ok response /\
    cents (total_fees (fees response))
    = cents (transaction_fee (fees response)) + cents (listing_fee (fees response))
      + cents (payment_processing (fees response))
      + cents (offsite_ads_fee (fees response)) /\
    cents (profit response)
    = cents (net_revenue response) - cents (total_costs response) /\
    0 <= cents (transaction_fee (fees response)) /\
    cents (listing_fee (fees response)) = 20 /\
    25 <= cents (payment_processing (fees response)) /\
    0 <= cents (offsite_ads_fee (fees response)) /\
    45 <= cents (total_fees (fees response)) /\
    0 <= cents (total_costs response) /\
    (true = false -> offsite_ads_fee (fees response) = zero).
Proof.
  apply (amounts_add_up_to_the_cent (decimal 125 3) (decimal 120 1) (decimal 40 1) true);
    vm_compute; reflexivity.
Defined.

End FeesLaws.

(** * The profit margin of the fee calculator *)

Module MarginLaws.
Import PyFloat Binary64 Fees FloatFacts FeesSpec FeesLaws.

(** ** Relative accuracy of one rounding *)

(** A rounding of [N / D * 2^ex], a number between [2^(g-1)] and [2^g]
    that is neither tiny nor huge, is off by at most [2^-53] of [2^g], so by
    at most [2^-52] of the number. *)
Lemma binary_round_aux_rel (sx : bool) (N D ex : Z) (lx : location) (g : Z) :
  0 <= N -> 0 < D -> loc_ok lx (N mod D) D ->
  ex <= fexp64 (Zdigits2 (N / D) + ex) ->
  - scale <= ex ->
  -1000 <= g <= 1000 ->
  N * 2 ^ (ex + scale) <= 2 ^ (g + scale) * D ->
  2 ^ (g - 1 + scale) * D <= N * 2 ^ (ex + scale) ->
  let r := binary_round_aux prec emax sx (N / D) ex lx in
  valid_binary prec emax r = true /\
  is_finite r = true /\
  sign_of r = sx /\
  - (N * 2 ^ (ex + scale))
  <= 2 ^ 52 * (Z.abs (ticks r) * D - N * 2 ^ (ex + scale))
  <= N * 2 ^ (ex + scale).
Proof.
  intros HN HD Hl Hshift Hex Hg Hup Hlo r.
  assert (Hcan : fexp64 (Zdigits2 (2 ^ 52) + (g - 52)) = g - 52).
  { rewrite Zdigits2_pow2 by lia. unfold fexp64. lia. }
  assert (Hsplit : 2 ^ (g + scale) = 2 ^ 52 * 2 ^ (g - 52 + scale)).
  { rewrite <- pow2_split by slia. f_equal. lia. }
  assert (Hsplit' : 2 ^ (g - 1 + scale) = 2 ^ 51 * 2 ^ (g - 52 + scale)).
  { rewrite <- pow2_split by slia. f_equal. lia. }
  destruct (binary_round_aux_bounded sx N D ex lx (2 ^ 52) (g - 52) HN HD Hl Hshift Hex
              ltac:(lia) Hcan ltac:(lia) ltac:(rewrite <- Hsplit; exact Hup))
    as (Hv & Hf & Hs & _ & _ & Herr).
  fold r in Hv, Hf, Hs, Herr.
  split; [exact Hv|]. split; [exact Hf|]. split; [exact Hs|].
  rewrite Hsplit' in Hlo.
  pose proof (pow2_pos (g - 52 + scale) ltac:(slia)) as HE.
  set (X := N * 2 ^ (ex + scale)) in *. set (E := 2 ^ (g - 52 + scale)) in *.
  set (R := Z.abs (ticks r)) in *. clearbody X E R.
  change (2 ^ 51) with 2251799813685248 in Hlo.
  change (2 ^ 52) with 4503599627370496.
  clear - Herr Hlo HE HD.
  assert (0 < E * D) by (apply Z.mul_pos_pos; lia).
  set (ED := E * D) in *. replace (2251799813685248 * E * D) with (2251799813685248 * ED) in Hlo
    by (unfold ED; ring).
  clearbody ED. lia.
Qed.

(** A positive fraction [X / D] between two powers of two lies between
    two successive ones. *)
Lemma binade_exists (X D : Z) (n : nat) (lo : Z) :
  0 < D -> 0 <= lo + scale ->
  2 ^ (lo + scale) * D <= X -> X <= 2 ^ (lo + Z.of_nat n + scale) * D ->
  exists g, lo < g <= lo + Z.of_nat n + 1 /\
            2 ^ (g - 1 + scale) * D <= X <= 2 ^ (g + scale) * D.
Proof.
  revert lo. induction n as [|n IH]; intros lo HD Hlo Hdown Hup.
  - exists (lo + 1). split; [lia|].
    replace (lo + 1 - 1 + scale) with (lo + scale) by lia.
    split; [exact Hdown|].
    replace (lo + Z.of_nat 0 + scale) with (lo + scale) in Hup by lia.
    pose proof (pow2_le (lo + scale) (lo + 1 + scale) ltac:(lia)).
    assert (2 ^ (lo + scale) * D <= 2 ^ (lo + 1 + scale) * D)
      by (apply Z.mul_le_mono_nonneg_r; lia).
    lia.
  - destruct (Z.le_gt_cases X (2 ^ (lo + 1 + scale) * D)) as [Hle|Hgt].
    + exists (lo + 1). split; [lia|].
      replace (lo + 1 - 1 + scale) with (lo + scale) by lia.
      split; assumption.
    + destruct (IH (lo + 1) HD ltac:(lia) ltac:(lia)) as (g & Hg & Hb).
      { replace (lo + 1 + Z.of_nat n + scale) with (lo + Z.of_nat (S n) + scale) by lia.
        exact Hup. }
      exists g. split; [lia|exact Hb].
Qed.

Lemma binary_round_aux_rel_range (sx : bool) (N D ex : Z) (lx : location)
    (lo hi : Z) :
  0 <= N -> 0 < D -> loc_ok lx (N mod D) D ->
  ex <= fexp64 (Zdigits2 (N / D) + ex) ->
  - scale <= ex ->
  -999 <= lo -> hi <= 999 ->
  2 ^ (lo + scale) * D <= N * 2 ^ (ex + scale) <= 2 ^ (hi + scale) * D ->
  let r := binary_round_aux prec emax sx (N / D) ex lx in
  valid_binary prec emax r = true /\
  is_finite r = true /\
  sign_of r = sx /\
  - (N * 2 ^ (ex + scale))
  <= 2 ^ 52 * (Z.abs (ticks r) * D - N * 2 ^ (ex + scale))
  <= N * 2 ^ (ex + scale).
Proof.
  intros HN HD Hl Hshift Hex Hlo Hhi [Hdown Hup].
  assert (Hlh : lo <= hi).
  { destruct (Z.le_gt_cases lo hi) as [|Hgt]; [assumption|exfalso].
    pose proof (pow2_pos (lo + scale) ltac:(slia)) as HL.
    assert (0 < 2 ^ (lo + scale) * D) by (apply Z.mul_pos_pos; lia).
    destruct (Z.le_gt_cases 0 (hi + scale)) as [Hnn|Hneg].
    - pose proof (pow2_lt (hi + scale) (lo + scale) ltac:(lia)).
      assert (2 ^ (hi + scale) * D < 2 ^ (lo + scale) * D)
        by (apply Z.mul_lt_mono_pos_r; lia).
      lia.
    - rewrite (Z.pow_neg_r 2 (hi + scale)) in Hup by lia. lia. }
  destruct (binade_exists (N * 2 ^ (ex + scale)) D (Z.to_nat (hi - lo)) lo HD
              ltac:(slia) Hdown) as (g & Hg & Hgd & Hgu).
  { rewrite Z2Nat.id by lia. replace (lo + (hi - lo) + scale) with (hi + scale) by lia.
    exact Hup. }
  rewrite Z2Nat.id in Hg by lia.
  apply (binary_round_aux_rel sx N D ex lx g); try assumption. lia.
Qed.

(** ** A product *)

Lemma mul_rel (x y : float) (lo hi : Z) :
  valid_binary prec emax x = true -> valid_binary prec emax y = true ->
  -999 <= lo -> hi <= 999 ->
  2 ^ (lo + scale) * 2 ^ scale <= Z.abs (ticks x) * Z.abs (ticks y)
  <= 2 ^ (hi + scale) * 2 ^ scale ->
  valid_binary prec emax (mul x y) = true /\
  is_finite (mul x y) = true /\
  sign_of (mul x y) = xorb (sign_of x) (sign_of y) /\
  - (Z.abs (ticks x) * Z.abs (ticks y))
  <= 2 ^ 52 * (Z.abs (ticks (mul x y)) * 2 ^ scale
               - Z.abs (ticks x) * Z.abs (ticks y))
  <= Z.abs (ticks x) * Z.abs (ticks y).
Proof.
  intros Hx Hy Hlo Hhi Hrange.
  pose proof (pow2_pos scale ltac:(slia)) as HU.
  pose proof (pow2_pos (lo + scale) ltac:(slia)) as HL.
  assert (Hpos : 0 < Z.abs (ticks x) * Z.abs (ticks y)).
  { assert (0 < 2 ^ (lo + scale) * 2 ^ scale) by (apply Z.mul_pos_pos; lia). lia. }
  destruct x as [sx|sx| |sx mx ex];
    try (cbn [ticks] in Hpos; change (Z.abs 0) with 0 in Hpos; lia).
  destruct y as [sy|sy| |sy my ey];
    try (cbn [ticks] in Hpos; change (Z.abs 0) with 0 in Hpos; lia).
  unfold mul. cbn [SFmul sign_of].
  destruct (mul_shift mx my ex ey) as [Hlow Hshift].
  { destruct sx; exact Hx. }
  { destruct sy; exact Hy. }
  pose proof (valid_finite_facts sx mx ex Hx) as (_ & Hex & _).
  pose proof (valid_finite_facts sy my ey Hy) as (_ & Hey & _).
  rewrite (abs_ticks_finite sx mx ex) in * by lia.
  rewrite (abs_ticks_finite sy my ey) in * by lia.
  assert (Hprod : Zpos mx * 2 ^ (ex + scale) * (Zpos my * 2 ^ (ey + scale))
                  = Zpos (mx * my) * 2 ^ (ex + ey + scale) * 2 ^ scale).
  { rewrite Pos2Z.inj_mul.
    replace (Zpos mx * 2 ^ (ex + scale) * (Zpos my * 2 ^ (ey + scale)))
      with (Zpos mx * Zpos my * (2 ^ (ex + scale) * 2 ^ (ey + scale))) by ring.
    rewrite <- pow2_split by slia.
    replace (ex + scale + (ey + scale)) with ((ex + ey + scale) + scale) by slia.
    rewrite pow2_split by slia. ring. }
  rewrite Hprod in *.
  destruct (binary_round_aux_rel_range (xorb sx sy) (Zpos (mx * my)) 1 (ex + ey) loc_Exact
              lo hi ltac:(lia) ltac:(lia)) as (Hv & Hf & Hs & Herr);
    try assumption.
  - cbn [loc_ok]. apply Z.mod_1_r.
  - rewrite !Z.mul_1_r. destruct Hrange as [H1 H2]. split.
    + apply (Z.mul_le_mono_pos_r _ _ (2 ^ scale)); assumption.
    + apply (Z.mul_le_mono_pos_r _ _ (2 ^ scale)); assumption.
  - rewrite Z.div_1_r in *. rewrite !Z.mul_1_r in Herr.
    split; [exact Hv|]. split; [exact Hf|]. split; [exact Hs|].
    set (A := Z.abs (ticks (binary_round_aux prec emax (xorb sx sy) (Zpos (mx * my))
                              (ex + ey) loc_Exact))) in *.
    set (X := Zpos (mx * my) * 2 ^ (ex + ey + scale)) in *.
    set (U := 2 ^ scale) in *. clearbody A X U. clear - Herr HU.
    change (2 ^ 52) with 4503599627370496 in *.
    destruct Herr as [H1 H2]. split.
    + replace (- (X * U)) with ((- X) * U) by ring.
      replace (4503599627370496 * (A * U - X * U))
        with ((4503599627370496 * (A - X)) * U) by ring.
      apply Z.mul_le_mono_nonneg_r; lia.
    + replace (4503599627370496 * (A * U - X * U))
        with ((4503599627370496 * (A - X)) * U) by ring.
      apply Z.mul_le_mono_nonneg_r; lia.
Qed.

(** ** A quotient *)

Lemma div_rel (sy sx : bool) (my mx : positive) (ey ex : Z) (lo hi : Z) :
  -1074 <= ey <= 1074 -> -1074 <= ex <= 1074 ->
  -999 <= lo -> hi <= 999 ->
  2 ^ (lo + scale) * (Zpos mx * 2 ^ (ex + scale))
  <= Zpos my * 2 ^ (ey + scale) * 2 ^ scale
  <= 2 ^ (hi + scale) * (Zpos mx * 2 ^ (ex + scale)) ->
  let q := SFdiv prec emax (S754_finite sy my ey) (S754_finite sx mx ex) in
  valid_binary prec emax q = true /\
  is_finite q = true /\
  sign_of q = xorb sy sx /\
  - (Zpos my * 2 ^ (ey + scale) * 2 ^ scale)
  <= 2 ^ 52 * (Z.abs (ticks q) * (Zpos mx * 2 ^ (ex + scale))
               - Zpos my * 2 ^ (ey + scale) * 2 ^ scale)
  <= Zpos my * 2 ^ (ey + scale) * 2 ^ scale.
Proof.
  intros Hey Hex Hlo Hhi Hrange q. unfold q. cbn [SFdiv].
  destruct (SFdiv_core_spec my mx ey ex) as (N & e' & l & -> & He' & HN & Hl & Hshift).
  assert (He'lo : -2148 <= e' <= ey - ex) by (unfold fexp64 in He'; slia).
  pose proof (pow2_pos (ex + scale) ltac:(slia)) as HE.
  assert (Hscale : N * 2 ^ (e' + scale) * 2 ^ (ex + scale)
                   = Zpos my * 2 ^ (ey + scale) * 2 ^ scale).
  { rewrite HN, <- !Z.mul_assoc. f_equal.
    rewrite <- !pow2_split by slia. f_equal. slia. }
  assert (HN0 : 0 <= N).
  { rewrite HN. apply Z.mul_nonneg_nonneg; [lia|apply Z.pow_nonneg; lia]. }
  rewrite <- Hscale in *.
  destruct (binary_round_aux_rel_range (xorb sy sx) N (Zpos mx) e' l lo hi HN0
              ltac:(lia) Hl Hshift ltac:(slia) Hlo Hhi) as (Hv & Hf & Hs & Herr).
  { destruct Hrange as [H1 H2]. split.
    - apply (scale_cancel_le _ _ (2 ^ (ex + scale)) HE).
      rewrite <- Z.mul_assoc. exact H1.
    - apply (scale_cancel_le _ _ (2 ^ (ex + scale)) HE).
      rewrite <- (Z.mul_assoc (2 ^ (hi + scale))). exact H2. }
  split; [exact Hv|]. split; [exact Hf|]. split; [exact Hs|].
  set (A := Z.abs (ticks (binary_round_aux prec emax (xorb sy sx) (N / Zpos mx) e' l))) in *.
  set (X := N * 2 ^ (e' + scale)) in *. set (E := 2 ^ (ex + scale)) in *.
  set (D := Zpos mx) in *. clearbody A X E D. clear - Herr HE.
  change (2 ^ 52) with 4503599627370496 in *.
  destruct Herr as [H1 H2]. split.
  - replace (- (X * E)) with ((- X) * E) by ring.
    replace (4503599627370496 * (A * (D * E) - X * E))
      with ((4503599627370496 * (A * D - X)) * E) by ring.
    apply Z.mul_le_mono_nonneg_r; lia.
  - replace (4503599627370496 * (A * (D * E) - X * E))
      with ((4503599627370496 * (A * D - X)) * E) by ring.
    apply Z.mul_le_mono_nonneg_r; lia.
Qed.

(** A finite double that is not a zero, by its mantissa and exponent. *)
Lemma finite_form (x : float) :
  valid_binary prec emax x = true -> is_finite x = true -> 0 < Z.abs (ticks x) ->
  exists (m : positive) (e : Z),
    x = S754_finite (sign_of x) m e /\ -1074 <= e <= 971 /\
    Z.abs (ticks x) = Zpos m * 2 ^ (e + scale).
Proof.
  intros Hv Hf Hpos.
  destruct x as [s|s| |s m e]; try discriminate;
    try (cbn [ticks] in Hpos; change (Z.abs 0) with 0 in Hpos; lia).
  pose proof (valid_finite_facts s m e Hv) as (_ & He & _).
  exists m, e. split; [reflexivity|]. split; [exact He|].
  apply abs_ticks_finite. lia.
Qed.

(** ** A decimal *)

Lemma of_ratio_rel (s : bool) (n den : positive) (lo hi : Z) :
  -999 <= lo -> hi <= 999 ->
  2 ^ (lo + scale) * Zpos den <= Zpos n * 2 ^ scale <= 2 ^ (hi + scale) * Zpos den ->
  exists (m : positive) (e : Z),
    of_ratio s (Zpos n) den = S754_finite s m e /\
    valid_binary prec emax (S754_finite s m e) = true /\
    - (Zpos n * 2 ^ scale)
    <= 2 ^ 52 * (Zpos m * 2 ^ (e + scale) * Zpos den - Zpos n * 2 ^ scale)
    <= Zpos n * 2 ^ scale.
Proof.
  intros Hlo Hhi [Hdown Hup]. unfold of_ratio.
  pose proof (pow2_pos scale ltac:(slia)) as HU.
  destruct (div_rel s false n den 0 0 lo hi ltac:(lia) ltac:(lia) Hlo Hhi)
    as (Hv & Hf & Hs & Herr).
  { cbn [Z.add]. split.
    - rewrite Z.mul_assoc. apply Z.mul_le_mono_nonneg_r; [lia|exact Hdown].
    - rewrite Z.mul_assoc. apply Z.mul_le_mono_nonneg_r; [lia|exact Hup]. }
  cbn [Z.add] in Herr. rewrite xorb_false_r in Hs.
  set (q := SFdiv prec emax (S754_finite s n 0) (S754_finite false den 0)) in *.
  assert (Herr' : - (Zpos n * 2 ^ scale)
                  <= 2 ^ 52 * (Z.abs (ticks q) * Zpos den - Zpos n * 2 ^ scale)
                  <= Zpos n * 2 ^ scale).
  { set (A := Z.abs (ticks q)) in *. set (U := 2 ^ scale) in *.
    clearbody A U. clear - Herr HU. change (2 ^ 52) with 4503599627370496 in *.
    destruct Herr as [H1 H2]. split.
    - apply (scale_cancel_le _ _ U HU). lia.
    - apply (scale_cancel_le _ _ U HU). lia. }
  assert (Hpos : 0 < Z.abs (ticks q)).
  { assert (0 < Zpos n * 2 ^ scale) by (apply Z.mul_pos_pos; lia).
    destruct (Z.le_gt_cases (Z.abs (ticks q)) 0) as [Hz|]; [exfalso|assumption].
    assert (Z.abs (ticks q) = 0) by lia.
    set (A := Z.abs (ticks q)) in *. clearbody A. subst A.
    change (2 ^ 52) with 4503599627370496 in *. lia. }
  destruct (finite_form q Hv Hf Hpos) as (m & e & Hq & He & Habs).
  rewrite Hs in Hq. exists m, e. split; [exact Hq|].
  split; [rewrite <- Hq; exact Hv|]. rewrite <- Habs. exact Herr'.
Qed.

(** An amount of [z] cents, up to a billion dollars, as a double. *)
Lemma amount_rel (z : Z) :
  z <> 0 -> Z.abs z <= 1000000000000 ->
  exists (m : positive) (e : Z),
    decimal z 2 = S754_finite (z <? 0) m e /\
    valid_binary prec emax (S754_finite (z <? 0) m e) = true /\
    - (Z.abs z * 2 ^ scale)
    <= 2 ^ 52 * (100 * (Zpos m * 2 ^ (e + scale)) - Z.abs z * 2 ^ scale)
    <= Z.abs z * 2 ^ scale.
Proof.
  intros Hz Hb. unfold decimal. change (Z.to_pos (10 ^ 2)) with 100%positive.
  destruct (Z.abs z) as [|n|n] eqn:Habs; [lia| |lia].
  destruct (fine_scale 7) as [HU HW]; [lia|].
  destruct (of_ratio_rel (z <? 0) n 100 (-7) 34 ltac:(lia) ltac:(lia))
    as (m & e & Hq & Hv & Herr).
  { replace (34 + scale) with (41 + (-7 + scale)) by lia.
    rewrite (pow2_split 41 (-7 + scale)) by slia. rewrite HU.
    change (- (7) + scale) with (-7 + scale) in *.
    set (W := 2 ^ (-7 + scale)) in *. clearbody W.
    change (2 ^ 7) with 128. change (2 ^ 41) with 2199023255552.
    assert (1 * W <= Zpos n * W <= 1000000000000 * W)
      by (apply scale_between; lia).
    lia. }
  exists m, e. split; [exact Hq|]. split; [exact Hv|].
  replace (100 * (Zpos m * 2 ^ (e + scale))) with (Zpos m * 2 ^ (e + scale) * 100) by ring.
  exact Herr.
Qed.

Lemma hundred_ticks :
  valid_binary prec emax (of_int 100) = true /\ sign_of (of_int 100) = false /\
  Z.abs (ticks (of_int 100)) = 100 * 2 ^ scale.
Proof. vm_compute. repeat split; reflexivity. Qed.

(** ** The nearest tenth *)

Lemma nearest_tenth (p a n U Tx Ty Q V : Z) :
  0 < U -> 1 <= p -> 1 <= a <= 500000000000 -> 0 <= n -> 0 < Tx ->
  - (p * U) <= 4503599627370496 * (100 * Tx - p * U) <= p * U ->
  - (a * U) <= 4503599627370496 * (100 * Ty - a * U) <= a * U ->
  - (Ty * U) <= 4503599627370496 * (Q * Tx - Ty * U) <= Ty * U ->
  - (100 * Q) <= 4503599627370496 * (V - 100 * Q) <= 100 * Q ->
  - U <= 2 * (n * U - 10 * V) <= U ->
  - p <= 2 * (n * p - 1000 * a) <= p.
Proof.
  intros HU Hp Ha Hn HTx E1 E2 E3 E4 E5.
  assert (HnU : 0 <= n * U) by (apply Z.mul_nonneg_nonneg; lia).
  assert (Hnp : 0 <= n * p) by (apply Z.mul_nonneg_nonneg; lia).
  split.
  - (* 2000 a <= (2 n + 1) p *)
    assert (G1 : 2000 * 4503599627370495 * Q <= 4503599627370496 * ((2 * n + 1) * U)) by lia.
    assert (G1' : 2000 * 4503599627370495 * Q * Tx
                  <= 4503599627370496 * ((2 * n + 1) * U) * Tx)
      by (apply Z.mul_le_mono_nonneg_r; lia).
    assert (G2 : (2000 * 4503599627370495 * 4503599627370495 * Ty) * U
                 <= (4503599627370496 * 4503599627370496 * ((2 * n + 1) * Tx)) * U) by lia.
    apply scale_cancel_le in G2; [|exact HU].
    assert (X1 : 100 * 4503599627370496 * Tx * (2 * n + 1)
                 <= 4503599627370497 * (p * U) * (2 * n + 1))
      by (apply Z.mul_le_mono_nonneg_r; lia).
    assert (G3 : (2000 * 4503599627370495 * 4503599627370495 * 4503599627370495 * a) * U
                 <= (4503599627370496 * 4503599627370496 * 4503599627370497
                     * ((2 * n + 1) * p)) * U) by lia.
    apply scale_cancel_le in G3; [|exact HU].
    lia.
  - destruct (Z.eq_dec n 0) as [->|Hn0]; [lia|].
    assert (F1 : 4503599627370496 * ((2 * n - 1) * U) <= 2000 * 4503599627370497 * Q) by lia.
    assert (F1' : 4503599627370496 * ((2 * n - 1) * U) * Tx
                  <= 2000 * 4503599627370497 * Q * Tx)
      by (apply Z.mul_le_mono_nonneg_r; lia).
    assert (F2 : (4503599627370496 * 4503599627370496 * ((2 * n - 1) * Tx)) * U
                 <= (2000 * 4503599627370497 * 4503599627370497 * Ty) * U) by lia.
    apply scale_cancel_le in F2; [|exact HU].
    assert (X1 : 4503599627370495 * (p * U) * (2 * n - 1)
                 <= 100 * 4503599627370496 * Tx * (2 * n - 1))
      by (apply Z.mul_le_mono_nonneg_r; lia).
    assert (F3 : (4503599627370496 * 4503599627370496 * 4503599627370495
                  * ((2 * n - 1) * p)) * U
                 <= (2000 * 4503599627370497 * 4503599627370497 * 4503599627370497 * a) * U)
      by lia.
    apply scale_cancel_le in F3; [|exact HU].
    lia.
Qed.

(** ** The margin *)

(** The quotient of two amounts in cents, times 100 and rounded to one
    place, is the tenth of a percent nearest to the exact quotient. *)
Lemma margin_of_amounts (p z : Z) :
  1 <= p <= 100000000000 -> z <> 0 -> -500000000000 <= z <= 500000000000 ->
  exists n : Z,
    0 <= n /\
    - p <= 2 * (n * p - 1000 * Z.abs z) <= p /\
    round (mul (SFdiv prec emax (decimal z 2) (decimal p 2)) (of_int 100)) 1
    = Ok (of_ratio (z <? 0) n 10).
Proof.
  intros Hp Hz Hzb.
  destruct (amount_rel p ltac:(lia) ltac:(lia)) as (mx & ex & Hx & Hvx & E1).
  destruct (amount_rel z Hz ltac:(lia)) as (my & ey & Hy & Hvy & E2).
  replace (p <? 0) with false in * by (symmetry; apply Z.ltb_ge; lia).
  rewrite (Z.abs_eq p) in E1 by lia.
  rewrite Hx, Hy.
  pose proof (valid_finite_facts _ mx ex Hvx) as (_ & Hex & _).
  pose proof (valid_finite_facts _ my ey Hvy) as (_ & Hey & _).
  pose proof (pow2_pos scale ltac:(slia)) as HU.
  pose proof (pow2_pos (ex + scale) ltac:(slia)) as HEx.
  pose proof (pow2_pos (ey + scale) ltac:(slia)) as HEy.
  assert (HTx : 0 < Zpos mx * 2 ^ (ex + scale)) by (apply Z.mul_pos_pos; lia).
  assert (HTy : 0 < Zpos my * 2 ^ (ey + scale)) by (apply Z.mul_pos_pos; lia).
  assert (Ha : 1 <= Z.abs z <= 500000000000) by lia.
  set (a := Z.abs z) in *. clearbody a.
  set (Tx := Zpos mx * 2 ^ (ex + scale)) in *.
  set (Ty := Zpos my * 2 ^ (ey + scale)) in *.
  change (2 ^ 52) with 4503599627370496 in E1, E2.
  pose proof (scale_between p 1 100000000000 (2 ^ scale) HU ltac:(lia)) as HpU.
  pose proof (scale_between a 1 500000000000 (2 ^ scale) HU ltac:(lia)) as HaU.
  assert (Hxy : Tx <= 2199023255552 * Ty) by lia.
  assert (Hyx : Ty <= 2199023255552 * Tx) by lia.
  pose proof (scale_mono_le _ _ (2 ^ scale) HU Hxy) as HxyU.
  pose proof (scale_mono_le _ _ (2 ^ scale) HU Hyx) as HyxU.
  (* the quotient *)
  destruct (fine_scale 41 ltac:(lia)) as [HU41 HL41].
  change (- (41) + scale) with (-41 + scale) in *.
  destruct (div_rel (z <? 0) false my mx ey ex (-41) 41 ltac:(lia) ltac:(lia)
              ltac:(lia) ltac:(lia)) as (Hvq & Hfq & Hsq & E3).
  { fold Tx Ty. rewrite (pow2_split 41 scale) by slia.
    change (2 ^ 41) with 2199023255552 in *. split.
    - pose proof (scale_mono_le _ _ (2 ^ (-41 + scale)) HL41 Hxy). rewrite HU41. lia.
    - lia. }
  fold Tx Ty in E3. rewrite xorb_false_r in Hsq.
  set (q := SFdiv prec emax (S754_finite (z <? 0) my ey) (S754_finite false mx ex)) in *.
  change (2 ^ 52) with 4503599627370496 in E3.
  set (Q := Z.abs (ticks q)) in *.
  assert (HQhi : Q <= 4398046511104 * 2 ^ scale).
  { assert (H : (4503599627370496 * Q) * Tx
                <= (4503599627370497 * 2199023255552 * 2 ^ scale) * Tx) by lia.
    apply scale_cancel_le in H; [lia|exact HTx]. }
  assert (HQlo : 2 ^ scale <= 4398046511104 * Q).
  { assert (H : (4503599627370495 * 2 ^ scale) * Tx
                <= (2199023255552 * 4503599627370496 * Q) * Tx) by lia.
    apply scale_cancel_le in H; [lia|exact HTx]. }
  (* times 100 *)
  destruct hundred_ticks as (Hv100 & Hs100 & Ht100).
  destruct (fine_scale 42 ltac:(lia)) as [HU42 HL42].
  change (- (42) + scale) with (-42 + scale) in *.
  destruct (mul_rel q (of_int 100) (-42) 49 Hvq Hv100 ltac:(lia) ltac:(lia))
    as (Hvv & Hfv & Hsv & E4).
  { rewrite Ht100. fold Q. rewrite (pow2_split 49 scale) by slia.
    change (2 ^ 49) with 562949953421312. change (2 ^ 42) with 4398046511104 in HU42.
    split.
    - assert (HL : 2 ^ (-42 + scale) <= 100 * Q) by lia.
      pose proof (scale_mono_le _ _ (2 ^ scale) HU HL). lia.
    - assert (HL : 100 * Q <= 562949953421312 * 2 ^ scale) by lia.
      pose proof (scale_mono_le _ _ (2 ^ scale) HU HL). lia. }
  rewrite Ht100, Hsq, Hs100, xorb_false_r in *. fold Q in E4.
  set (v := mul q (of_int 100)) in *. set (V := Z.abs (ticks v)) in *.
  change (2 ^ 52) with 4503599627370496 in E4.
  assert (E4' : - (100 * Q) <= 4503599627370496 * (V - 100 * Q) <= 100 * Q).
  { destruct E4 as [H1 H2]. split.
    - apply (scale_cancel_le _ _ (2 ^ scale) HU). lia.
    - apply (scale_cancel_le _ _ (2 ^ scale) HU). lia. }
  destruct (finite_form v Hvv Hfv ltac:(lia)) as (mv & ev & Hform & Hev & HV).
  rewrite Hsv in Hform. fold V in HV.
  (* to one place *)
  rewrite Hform. unfold round. change (Z.to_pos (10 ^ 1)) with 10%positive.
  destruct (scaled_digits_spec 1 mv ev ltac:(lia) ltac:(lia)) as (Hn & E5 & _).
  change (10 ^ 1) with 10 in E5. rewrite <- HV in E5.
  set (n := scaled_digits 1 mv ev) in *.
  exists n. split; [exact Hn|]. split.
  - apply (nearest_tenth p a n (2 ^ scale) Tx Ty Q V); try assumption; lia.
  - destruct (of_ratio_bounded (z <? 0) n 10 (2 ^ 52) 10 Hn ltac:(lia) eq_refl ltac:(lia))
      as (_ & Hfin & _).
    { rewrite (pow2_split 10 scale) by slia.
      change (2 ^ 52) with 4503599627370496. change (2 ^ 10) with 1024.
      assert (HnU : 0 <= n * 2 ^ scale) by (apply Z.mul_nonneg_nonneg; lia).
      lia. }
    clear - Hfin. destruct (of_ratio (z <? 0) n 10); try discriminate; reflexivity.
Qed.

(** X25. The margin is the profit as a share of the price, to the nearest
    tenth of a percent. For a price of [p] cents, up to a billion, and a
    returned profit of [z] cents, up to five billion either way, the
    returned [profit_margin] is the double written with one decimal for [m]
    tenths of a percent, where [m / 10] is as near to [100 * z / p] as a
    number with one decimal can be (an exact tie may go either way). The
    two roundings of the quotient and of its product with 100 never move
    it across a tie. A loss too small to show is returned as [-0.0]. *)
Theorem margin_is_the_nearest_tenth_of_a_percent
    (p z : Z) (production_cost shipping_cost : float) (offsite_ads : bool)
    (response : FeeCalculationResponse) :
  1 <= p <= 100000000000 -> -500000000000 <= z <= 500000000000 ->
  calculate_etsy_fees (decimal p 2) production_cost shipping_cost offsite_ads
    = Ok response ->
  profit response = decimal z 2 ->
  exists m : Z,
    - p <= 2 * (m * p - 1000 * z) <= p /\
    (profit_margin response = decimal m 1
     \/ (m = 0 /\ z < 0 /\ profit_margin response = S754_zero true)).
Proof.
  intros Hp Hz Hcalc Hprofit.
  destruct (calculate_etsy_fees_inv _ _ _ _ _ Hcalc)
    as (_ & _ & _ & _ & _ & _ & _ & _ & Hmargin).
  destruct (amount_rel p ltac:(lia) ltac:(lia)) as (mx & ex & Hx & Hvx & _).
  replace (p <? 0) with false in * by (symmetry; apply Z.ltb_ge; lia).
  assert (Hgt : gt (decimal p 2) (of_int 0) = true).
  { rewrite Hx. apply positive_gt; [exact Hvx|reflexivity|].
    pose proof (valid_finite_facts _ mx ex Hvx) as (_ & Hex & _).
    pose proof (pow2_pos (ex + scale) ltac:(slia)).
    cbn [ticks cond_Zopp]. apply Z.mul_pos_pos; lia. }
  rewrite Hgt, Hprofit in Hmargin. unfold truediv in Hmargin.
  replace (is_zero (decimal p 2)) with false in Hmargin by (rewrite Hx; reflexivity).
  cbn [bind_result] in Hmargin.
  destruct (Z.eq_dec z 0) as [->|Hz0].
  - exists 0. split; [lia|]. left.
    rewrite Hx in Hmargin. injection Hmargin as <-. reflexivity.
  - destruct (margin_of_amounts p z Hp Hz0 Hz) as (n & Hn & Hnear & Hround).
    rewrite Hround in Hmargin. injection Hmargin as <-.
    destruct (Z.ltb_spec z 0) as [Hneg|Hpos].
    + rewrite (Z.abs_neq z) in Hnear by lia.
      destruct (Z.eq_dec n 0) as [->|Hn0].
      * exists 0. split; [lia|]. right. split; [reflexivity|]. split; [exact Hneg|reflexivity].
      * exists (- n). split; [lia|]. left. unfold decimal.
        replace (- n <? 0) with true by (symmetry; apply Z.ltb_lt; lia).
        rewrite Z.abs_opp, Z.abs_eq by lia. reflexivity.
    + rewrite (Z.abs_eq z) in Hnear by lia.
      exists n. split; [lia|]. left. unfold decimal.
      replace (n <? 0) with false by (symmetry; apply Z.ltb_ge; lia).
      rewrite Z.abs_eq by lia. reflexivity.
Qed.

(** *** The theorem at work *)

Lemma margin_is_the_nearest_tenth_of_a_percent_witness :
  exists m : Z,
    - 2999 <= 2 * (m * 2999 - 1000 * 1069) <= 2999 /\
    (decimal 356 1 = decimal m 1
     \/ (m = 0 /\ 1069 < 0 /\ decimal 356 1 = S754_zero true)).
Proof.
  refine (margin_is_the_nearest_tenth_of_a_percent
            2999 1069 (decimal 120 1) (decimal 40 1) false
            {| fees := {| transaction_fee := decimal 195 2;
                          listing_fee := decimal 20 2;
                          payment_processing := decimal 115 2;
                          offsite_ads_fee := decimal 0 1;
                          total_fees := decimal 330 2 |};
               net_revenue := decimal 2669 2;
               total_costs := decimal 1600 2;
               profit := decimal 1069 2;
               profit_margin := decimal 356 1 |} _ _ _ _);
    first [lia | vm_compute; reflexivity].
Defined.

End MarginLaws.


(** * Further properties of the account service *)

Module AccountLaws.
Import Python Config Auth.

Section WithPlatform.
Context `{Platform} `{Deployment}.
Local Open Scope string_scope.
Local Open Scope Z_scope.

(** ** The client singleton *)

Lemma credentials_configured_iff :
  credentials_configured = true
  <-> SUPABASE_URL settings <> "" /\ SUPABASE_SERVICE_ROLE_KEY settings <> "".
Proof.
  unfold credentials_configured.
  destruct (String.eqb_spec (SUPABASE_URL settings) "") as [Hu|Hu];
    destruct (String.eqb_spec (SUPABASE_SERVICE_ROLE_KEY settings) "") as [Hk|Hk];
    cbn [orb negb]; split; try discriminate; try tauto.
Qed.

Lemma get_supabase_client_cases (w : world) :
  (client_ready w = true /\
   get_supabase_client w = (Ok tt, if supabase_client w then w else connected w))
  \/ (client_ready w = false /\ supabase_client w = false /\
      exists e, get_supabase_client w = (Raise e, w) /\
        ((credentials_configured = false /\ exists msg, e = ValueError msg)
         \/ (credentials_configured = true /\
             create_client (SUPABASE_URL settings) (SUPABASE_SERVICE_ROLE_KEY settings)
             = Raise e))).
Proof.
  unfold client_ready, get_supabase_client.
  destruct (supabase_client w); cbn [orb]; [left; split; reflexivity|].
  destruct credentials_configured; cbn [andb negb].
  - destruct (create_client _ _) as [[]|e].
    + left. split; reflexivity.
    + right. split; [reflexivity|]. split; [reflexivity|].
      exists e. split; [reflexivity|]. right. split; reflexivity.
  - right. split; [reflexivity|]. split; [reflexivity|].
    eexists. split; [reflexivity|]. left. split; [reflexivity|]. eexists. reflexivity.
Qed.

(** X1. [get_supabase_client] hands out a client exactly when one exists
    already, or both [SUPABASE_URL] and [SUPABASE_SERVICE_ROLE_KEY] are set
    and [create_client] accepts them; it then leaves a client behind, so
    that a second call succeeds without changing anything. Otherwise it
    raises, [ValueError] when one of the two settings is empty and the
    exception of [create_client] when the library refuses them, changes
    nothing and leaves no client behind. In both cases the tables are
    untouched. *)
Theorem get_supabase_client_is_a_singleton (w : world) :
  exists (r : result unit) (w1 : world),
    get_supabase_client w = (r, w1) /\
    customers w1 = customers w /\ customer_products w1 = customer_products w /\
    (client_ready w = true ->
     r = Ok tt /\ supabase_client w1 = true /\ get_supabase_client w1 = (Ok tt, w1)) /\
    (client_ready w = false ->
     w1 = w /\ supabase_client w1 = false /\
     (((SUPABASE_URL settings = "" \/ SUPABASE_SERVICE_ROLE_KEY settings = "") /\
       exists msg, r = Raise (ValueError msg))
      \/ (SUPABASE_URL settings <> "" /\ SUPABASE_SERVICE_ROLE_KEY settings <> "" /\
          exists e, r = Raise e /\
            create_client (SUPABASE_URL settings) (SUPABASE_SERVICE_ROLE_KEY settings)
            = Raise e))).
Proof.
  destruct (get_supabase_client_cases w) as [(Hr & E)|(Hnr & Hc & e & E & Hwhy)].
  - exists (Ok tt), (if supabase_client w then w else connected w).
    destruct (AuthSpec.connected_fields w) as (Hcust & Hprod & _).
    split; [exact E|]. split; [exact Hcust|]. split; [exact Hprod|].
    split; [|rewrite Hr; discriminate]. intros _. split; [reflexivity|].
    assert (Hclient : supabase_client (if supabase_client w then w else connected w)
                      = true).
    { destruct (supabase_client w) eqn:Hs; [exact Hs|reflexivity]. }
    split; [exact Hclient|].
    unfold get_supabase_client at 1. rewrite Hclient. reflexivity.
  - exists (Raise e), w. split; [exact E|]. split; [reflexivity|]. split; [reflexivity|].
    split; [rewrite Hnr; discriminate|]. intros _.
    split; [reflexivity|]. split; [exact Hc|].
    destruct Hwhy as [(Hcfg & msg & ->)|(Hcfg & Hlib)].
    + left. split; [|exists msg; reflexivity].
      destruct (String.eqb_spec (SUPABASE_URL settings) "") as [Hu|Hu]; [left; exact Hu|].
      destruct (String.eqb_spec (SUPABASE_SERVICE_ROLE_KEY settings) "") as [Hk|Hk];
        [right; exact Hk|].
      assert (Hx : credentials_configured = true)
        by (apply credentials_configured_iff; split; assumption).
      rewrite Hx in Hcfg. discriminate.
    + right. apply credentials_configured_iff in Hcfg. destruct Hcfg as [Hu Hk].
      split; [exact Hu|]. split; [exact Hk|]. exists e. split; [reflexivity|exact Hlib].
Qed.

(** ** Tokens *)

Lemma validate_claims_unregistered (payload : jwt_payload) (now : Z) :
  (forall name, In name ["iat"; "nbf"; "exp"; "aud"; "sub"; "jti"] ->
                claim name payload = None) ->
  validate_claims payload now = Ok tt.
Proof.
  intros Hnone. unfold validate_claims, validate_claim, validate_exp.
  rewrite !Hnone by (cbn [In]; tauto). reflexivity.
Qed.

(** When the claims validate, an integer expiry is in the future. *)
Lemma validate_claims_fresh (payload : jwt_payload) (now exp : Z) (u : unit) :
  validate_claims payload now = Ok u ->
  claim "exp" payload = Some (JInt exp) -> now < exp.
Proof.
  unfold validate_claims, validate_exp. intros Hok Hexp. rewrite Hexp in Hok.
  destruct (validate_claim "iat" payload now); [|discriminate].
  destruct (validate_claim "nbf" payload now); [|discriminate].
  cbn [bind_result] in Hok.
  destruct (Z.leb_spec exp now); [discriminate|assumption].
Qed.

Lemma validate_claims_expired (payload : jwt_payload) (now exp : Z) :
  validate_claim "iat" payload now = Ok tt ->
  validate_claim "nbf" payload now = Ok tt ->
  claim "exp" payload = Some (JInt exp) -> exp <= now ->
  validate_claims payload now = Raise ExpiredSignatureError.
Proof.
  intros Hiat Hnbf Hexp Hpast. unfold validate_claims, validate_exp.
  rewrite Hiat, Hnbf, Hexp. cbn [bind_result].
  destruct (Z.leb_spec exp now); [reflexivity|lia].
Qed.

(** X2. [verify_token] never changes the state. The payload it returns is
    the payload of the token, and the token then carries the configured
    algorithm and a signature that verifies under the configured secret;
    when the payload has an integer expiry, that expiry is in the future.
    A token so signed whose expiry has passed (its issue and not-before
    claims, if any, being valid) is answered 401 "Token expired"; one that
    has no registered claim at all, so no expiry, is accepted. A token that
    is not made of three segments, names another algorithm, or carries a
    signature that does not verify is answered 401 "Invalid token". *)
Theorem verify_token_accepts_only_signed_tokens (token : jwt) (w : world) :
  snd (verify_token token w) = w /\
  (forall payload,
     fst (verify_token token w) = Ok payload ->
     exists signature,
       token = Signed (JWT_ALGORITHM settings) payload signature /\
       signature_valid (JWT_ALGORITHM settings) (JWT_SECRET settings) payload signature
       = Ok true /\
       (forall exp, claim_exp payload = Some (JInt exp) -> clock w < exp)) /\
  (forall payload signature,
     token = Signed (JWT_ALGORITHM settings) payload signature ->
     signature_valid (JWT_ALGORITHM settings) (JWT_SECRET settings) payload signature
     = Ok true ->
     (forall exp,
        validate_claim "iat" payload (clock w) = Ok tt ->
        validate_claim "nbf" payload (clock w) = Ok tt ->
        claim_exp payload = Some (JInt exp) -> exp <= clock w ->
        fst (verify_token token w) = Raise (HTTPException 401 "Token expired")) /\
     ((forall name, In name ["iat"; "nbf"; "exp"; "aud"; "sub"; "jti"] ->
                    claim name payload = None) ->
      fst (verify_token token w) = Ok payload)) /\
  ((exists raw, token = Garbage raw)
   \/ (exists alg payload signature,
         token = Signed alg payload signature /\
         (alg <> JWT_ALGORITHM settings
          \/ signature_valid alg (JWT_SECRET settings) payload signature = Ok false)) ->
   fst (verify_token token w) = Raise (HTTPException 401 "Invalid token")).
Proof.
  split; [|split; [|split]].
  - rewrite AuthSpec.verify_token_decoded.
    destruct (jwt_decode _ _ _ _) as [p|e]; [reflexivity|].
    destruct e; reflexivity.
  - intros payload. rewrite AuthSpec.verify_token_decoded.
    destruct (jwt_decode token (JWT_SECRET settings) [JWT_ALGORITHM settings] (clock w))
      as [p|e] eqn:Hdec.
    + cbn [fst]. intros E. injection E as ->.
      unfold jwt_decode in Hdec. destruct token as [raw|alg p signature]; [discriminate|].
      cbn [existsb] in Hdec.
      destruct (String.eqb_spec alg (JWT_ALGORITHM settings)) as [->|Hne];
        cbn [orb negb] in Hdec; [|discriminate].
      destruct (signature_valid _ _ _ _) as [[|]|e] eqn:Hsig; try discriminate.
      destruct (validate_claims p (clock w)) as [u|e] eqn:Hclaims; [|discriminate].
      injection Hdec as ->. exists signature.
      split; [reflexivity|]. split; [exact Hsig|].
      intros exp Hexp. exact (validate_claims_fresh payload (clock w) exp u Hclaims Hexp).
    + destruct e; cbn [is_InvalidTokenError fst]; discriminate.
  - intros payload signature -> Hsig.
    rewrite AuthSpec.verify_token_decoded. unfold jwt_decode.
    cbn [existsb]. rewrite String.eqb_refl. cbn [orb negb]. rewrite Hsig.
    split.
    + intros exp Hiat Hnbf Hexp Hpast.
      rewrite (validate_claims_expired payload (clock w) exp Hiat Hnbf Hexp Hpast).
      reflexivity.
    + intros Hnone. rewrite (validate_claims_unregistered payload (clock w) Hnone).
      reflexivity.
  - intros [(raw & ->)|(alg & payload & signature & -> & Hbad)].
    + rewrite AuthSpec.verify_token_decoded. reflexivity.
    + rewrite (AuthSpec.verify_token_tampered alg signature payload w Hbad). reflexivity.
Qed.

(** ** Reading an account *)

Lemma filter_id_absent (id : string) (rows : list customer) :
  ~ In id (map c_id rows) ->
  filter (fun c => String.eqb (c_id c) id) rows = [].
Proof.
  induction rows as [|r rs IH]; [reflexivity|].
  cbn [map filter]. intros Hnotin.
  destruct (String.eqb (c_id r) id) eqn:E.
  - exfalso. apply Hnotin. left. apply String.eqb_eq. exact E.
  - apply IH. intros Hx. apply Hnotin. right. exact Hx.
Qed.

Lemma NoDup_filter_id (id : string) (row : customer) (rows : list customer) :
  NoDup (map c_id rows) -> In row rows -> c_id row = id ->
  filter (fun c => String.eqb (c_id c) id) rows = [row].
Proof.
  intros Hnd Hin Hid. subst id. induction rows as [|r rs IH]; [destruct Hin|].
  cbn [map] in Hnd. inversion Hnd as [|? ? Hnotin Hnd']. subst.
  cbn [filter]. destruct Hin as [->|Hin].
  - rewrite String.eqb_refl. f_equal. apply filter_id_absent. exact Hnotin.
  - destruct (String.eqb (c_id r) (c_id row)) eqn:E.
    + exfalso. apply Hnotin. apply String.eqb_eq in E. rewrite E.
      apply in_map. exact Hin.
    + apply IH; assumption.
Qed.

(** X3. [get_user_info] only reads: whatever the token, the user id and
    the state of the store, the customers, the entitlement links, the
    clock and the entropy counter are the same after the call as before. *)
Theorem get_user_info_only_reads (user_id : string) (token : jwt) (w : world) :
  let w' := snd (get_user_info user_id token w) in
  customers w' = customers w /\
  customer_products w' = customer_products w /\
  clock w' = clock w /\
  draws w' = draws w.
Proof.
  cbv zeta. unfold get_user_info, bind.
  rewrite AuthSpec.verify_token_decoded.
  destruct (jwt_decode _ _ _ _) as [payload|e].
  - destruct (claim_user_id payload) as [bound|]; [|repeat split].
    destruct (negb (json_is_str bound user_id)); [repeat split|].
    destruct (get_supabase_client_cases w) as [(Hr & E)|(_ & _ & e & E & _)];
      rewrite E; [|repeat split].
    destruct (AuthSpec.connected_fields w) as (Hc & Hp & Hclock & Hout & _ & Hd).
    unfold select_customers_by_id, select_products_by_customer, ret.
    rewrite Hout.
    destruct (outage w OpSelect) eqn:Ho; [repeat split; assumption|].
    destruct (filter _ _); [repeat split; assumption|].
    rewrite Hout, Ho. repeat split; assumption.
  - destruct e; cbn; repeat split.
Qed.

Lemma get_user_info_rejects (user_id : string) (token : jwt) (w : world) (e : exn) :
  jwt_decode token (JWT_SECRET settings) [JWT_ALGORITHM settings] (clock w) = Raise e ->
  (is_InvalidTokenError e = true ->
   exists detail,
     get_user_info user_id token w = (Raise (HTTPException 401 detail), w)) /\
  (is_InvalidTokenError e = false -> get_user_info user_id token w = (Raise e, w)).
Proof.
  intros He. unfold get_user_info, bind.
  rewrite AuthSpec.verify_token_decoded, He.
  destruct e; cbn [is_InvalidTokenError]; split; intros Hx; try discriminate;
    try reflexivity; eexists; reflexivity.
Qed.

Lemma get_user_info_foreign (user_id : string) (token : jwt) (payload : jwt_payload)
    (bound : json) (w : world) :
  jwt_decode token (JWT_SECRET settings) [JWT_ALGORITHM settings] (clock w) = Ok payload ->
  claim_user_id payload = Some bound ->
  json_is_str bound user_id = false ->
  get_user_info user_id token w
  = (Raise (HTTPException 403 "Not authorized to access this user's data"), w).
Proof.
  intros Hdec Hbound Hne. unfold get_user_info, bind.
  rewrite AuthSpec.verify_token_decoded, Hdec, Hbound, Hne. reflexivity.
Qed.

Lemma json_is_str_true (bound : json) (s : string) :
  json_is_str bound s = true <-> bound = JStr s.
Proof.
  destruct bound as [t|n|raw]; cbn [json_is_str]; split; try discriminate.
  - intros E. apply String.eqb_eq in E. subst t. reflexivity.
  - intros E. injection E as ->. apply String.eqb_refl.
Qed.

(** X4. The checks of [get_user_info] come in a fixed order. A token that
    does not decode is answered before anything else happens: no client is
    created and the store is not asked, so the answer is the same when the
    store is down or not configured. The answer is 401 when what the
    decoding raised is a token error, and the exception itself when the
    token library raised anything else. A token that verifies for the
    requested id, with a reachable store that holds no customer of that id,
    is answered 404. *)
Theorem get_user_info_rejects_then_looks_up
    (user_id : string) (token : jwt) (w : world) :
  (forall e, jwt_decode token (JWT_SECRET settings) [JWT_ALGORITHM settings] (clock w)
             = Raise e ->
     (is_InvalidTokenError e = true ->
      exists detail,
        get_user_info user_id token w = (Raise (HTTPException 401 detail), w)) /\
     (is_InvalidTokenError e = false ->
      get_user_info user_id token w = (Raise e, w))) /\
  (forall payload,
     jwt_decode token (JWT_SECRET settings) [JWT_ALGORITHM settings] (clock w)
       = Ok payload ->
     claim_user_id payload = Some (JStr user_id) ->
     client_ready w = true -> outage w OpSelect = false ->
     filter (fun c => String.eqb (c_id c) user_id) (customers w) = [] ->
     fst (get_user_info user_id token w) = Raise (HTTPException 404 "User not found")).
Proof.
  split.
  - intros e He. exact (get_user_info_rejects user_id token w e He).
  - intros payload Hdec Hid Hready Hup Hnone.
    unfold get_user_info, bind.
    rewrite AuthSpec.verify_token_decoded, Hdec, Hid.
    cbn [json_is_str]. rewrite String.eqb_refl. cbn [negb]. cbv beta iota.
    rewrite (AuthSpec.get_supabase_client_ready w Hready).
    rewrite (AuthSpec.select_customers_by_id_up _ w Hup), Hnone. reflexivity.
Qed.

(** ** Issuing tokens *)

Lemma create_access_token_pair (user_id email : string) (w : world) :
  create_access_token user_id email w = (fst (create_access_token user_id email w), w).
Proof. rewrite AuthSpec.create_access_token_eq. reflexivity. Qed.

Lemma create_access_token_clock (user_id email : string) (w1 w2 : world) :
  clock w1 = clock w2 ->
  fst (create_access_token user_id email w1) = fst (create_access_token user_id email w2).
Proof.
  intros Hclock. rewrite !AuthSpec.create_access_token_eq. cbn [fst].
  rewrite Hclock. reflexivity.
Qed.

(** ** Logging in *)

Lemma login_not_ready (credentials : UserLogin) (w : world) :
  client_ready w = false ->
  exists e, login credentials w = (Raise e, w) /\ get_supabase_client w = (Raise e, w).
Proof.
  intros Hnr. unfold login, bind.
  destruct (get_supabase_client_cases w) as [(Hr & _)|(_ & _ & e & E & _)];
    [congruence|].
  rewrite E. exists e. split; reflexivity.
Qed.

Lemma login_select_down (credentials : UserLogin) (w : world) :
  client_ready w = true -> outage w OpSelect = true ->
  login credentials w = (Raise APIError, if supabase_client w then w else connected w).
Proof.
  intros Hr Hdown. unfold login, bind.
  rewrite (AuthSpec.get_supabase_client_ready w Hr).
  unfold select_customers_by_email.
  destruct (supabase_client w); cbn [connected outage]; rewrite Hdown; reflexivity.
Qed.

Lemma login_ready (credentials : UserLogin) (w : world) :
  client_ready w = true -> outage w OpSelect = false ->
  let w0 := if supabase_client w then w else connected w in
  login credentials w =
  match filter (fun c => String.eqb (c_email c) (lower (login_email credentials)))
          (customers w) with
  | [] => (Raise (HTTPException 401 "Invalid email or password"), w0)
  | account :: _ =>
      match verify_password (login_password credentials) (c_password_hash account) with
      | Raise e => (Raise e, w0)
      | Ok false => (Raise (HTTPException 401 "Invalid email or password"), w0)
      | Ok true =>
          (match fst (create_access_token (c_id account) (c_email account) w) with
           | Ok token => Ok {| user_id := c_id account;
                               email := c_email account;
                               name := c_shop_name account;
                               is_premium := c_is_premium account;
                               access_token := token |}
           | Raise e => Raise e
           end,
           if outage w OpUpdate then w0
           else snd (update_last_login (c_id account) (isoformat (clock w)) w0))
      end
  end.
Proof.
  intros Hr Hup w0.
  destruct (filter (fun c => String.eqb (c_email c) (lower (login_email credentials)))
              (customers w)) as [|account rest] eqn:Hrow.
  - unfold login, bind.
    rewrite (AuthSpec.get_supabase_client_ready w Hr).
    rewrite (AuthSpec.select_customers_by_email_up _ w Hup), Hrow. reflexivity.
  - destruct (verify_password (login_password credentials) (c_password_hash account))
      as [[|]|e] eqn:Hpwd.
    + rewrite (AuthSpec.login_verified credentials w account rest Hr Hup Hrow Hpwd).
      fold w0. f_equal.
      destruct (AuthSpec.connected_fields w) as (_ & _ & _ & Hout & _).
      fold w0 in Hout.
      unfold try_except, update_last_login, ret. rewrite Hout.
      destruct (outage w OpUpdate); reflexivity.
    + unfold login, bind.
      rewrite (AuthSpec.get_supabase_client_ready w Hr).
      rewrite (AuthSpec.select_customers_by_email_up _ w Hup), Hrow.
      unfold lift. rewrite Hpwd. reflexivity.
    + unfold login, bind.
      rewrite (AuthSpec.get_supabase_client_ready w Hr).
      rewrite (AuthSpec.select_customers_by_email_up _ w Hup), Hrow.
      unfold lift. rewrite Hpwd. reflexivity.
Qed.

Lemma filter_head_In {A : Type} (f : A -> bool) (l : list A) (x : A) (rest : list A) :
  filter f l = x :: rest -> In x l /\ f x = true.
Proof.
  intros E. apply filter_In. rewrite E. left. reflexivity.
Qed.

(** X5. [login] writes nothing but [last_login]. Whatever the outcome, the
    entitlement links are unchanged. A login that succeeds sets
    [last_login] to the current time on the rows with the id it answers
    with, and only there, or leaves the rows as they were when the store
    refuses the update. A login that fails leaves every customer row as it
    was, unless what failed is the issue of the token, which comes after
    the update. *)
Theorem login_writes_only_last_login (credentials : UserLogin) (w : world) :
  let w' := snd (login credentials w) in
  customer_products w' = customer_products w /\
  match fst (login credentials w) with
  | Ok response =>
      customers w' =
      if outage w OpUpdate then customers w
      else map (fun c => if String.eqb (c_id c) (user_id response)
                         then set_last_login (isoformat (clock w)) c else c)
             (customers w)
  | Raise e =>
      customers w' = customers w
      \/ exists account,
           In account (customers w) /\
           verify_password (login_password credentials) (c_password_hash account)
           = Ok true /\
           fst (create_access_token (c_id account) (c_email account) w) = Raise e /\
           customers w' =
           map (fun c => if String.eqb (c_id c) (c_id account)
                         then set_last_login (isoformat (clock w)) c else c)
             (customers w)
  end.
Proof.
  cbv zeta.
  destruct (client_ready w) eqn:Hr.
  - destruct (AuthSpec.connected_fields w) as (Hc & Hp & _ & Hout & _).
    destruct (outage w OpSelect) eqn:Hup.
    + rewrite (login_select_down credentials w Hr Hup). cbn [fst snd].
      split; [assumption|left; assumption].
    + rewrite (login_ready credentials w Hr Hup).
      destruct (filter _ (customers w)) as [|account rest] eqn:Hrow; cbn [fst snd];
        [split; [assumption|left; assumption]|].
      apply filter_head_In in Hrow. destruct Hrow as [Hin _].
      destruct (verify_password _ _) as [[|]|e] eqn:Hpwd; cbn [fst snd];
        [|split; [assumption|left; assumption]..].
      unfold update_last_login. rewrite Hout.
      destruct (fst (create_access_token (c_id account) (c_email account) w))
        as [token|e] eqn:Htoken;
        destruct (outage w OpUpdate); cbn [snd customers customer_products user_id];
        rewrite ?Hc; split; try assumption; try reflexivity.
      * left. reflexivity.
      * right. exists account. repeat split; assumption.
  - destruct (login_not_ready credentials w Hr) as (e & -> & _). cbn [fst snd].
    split; [reflexivity|left; reflexivity].
Qed.

(** X6. [login] answers only for a stored account: when it succeeds, the
    store holds a customer whose email is the submitted one in lower case
    (for an address of ASCII characters: with the letters A to Z in lower
    case) and whose stored hash the submitted password verifies against;
    the answer carries that customer's id, email, shop name and stored
    [is_premium] flag, and the token [create_access_token] issues for that
    id and email: one signed under [JWT_ALGORITHM] that expires
    [JWT_EXPIRATION_HOURS] hours after the call. *)
Theorem login_answers_for_a_stored_account
    (credentials : UserLogin) (w w' : world) (response : UserResponse) :
  login credentials w = (Ok response, w') ->
  exists (account : customer) (signature : string),
    In account (customers w) /\
    c_email account = lower (login_email credentials) /\
    (is_ascii (login_email credentials) = true ->
     c_email account = ascii_lower (login_email credentials)) /\
    verify_password (login_password credentials) (c_password_hash account) = Ok true /\
    user_id response = c_id account /\
    email response = c_email account /\
    name response = c_shop_name account /\
    is_premium response = c_is_premium account /\
    create_access_token (c_id account) (c_email account) w
    = (Ok (access_token response), w) /\
    access_token response
    = Signed (JWT_ALGORITHM settings)
        (token_payload (c_id account) (c_email account)
           (clock w + JWT_EXPIRATION_HOURS settings * 3600))
        signature.
Proof.
  intros Hlogin.
  destruct (client_ready w) eqn:Hr.
  - destruct (outage w OpSelect) eqn:Hup.
    + rewrite (login_select_down credentials w Hr Hup) in Hlogin. discriminate.
    + rewrite (login_ready credentials w Hr Hup) in Hlogin.
      destruct (filter _ (customers w)) as [|account rest] eqn:Hrow; [discriminate|].
      destruct (verify_password _ _) as [[|]|e] eqn:Hpwd; try discriminate.
      destruct (fst (create_access_token (c_id account) (c_email account) w))
        as [token|e] eqn:Htoken; [|discriminate].
      apply filter_head_In in Hrow. destruct Hrow as [Hin Hmail].
      apply String.eqb_eq in Hmail.
      injection Hlogin as <- _. cbn [user_id email name is_premium access_token].
      assert (Hissued : create_access_token (c_id account) (c_email account) w
                        = (Ok token, w))
        by (rewrite create_access_token_pair, Htoken; reflexivity).
      destruct (AuthSpec.create_access_token_ok _ _ _ _ _ Hissued)
        as (_ & signature & _ & Hform).
      exists account, signature.
      split; [exact Hin|]. split; [exact Hmail|]. split.
      { intros Hascii. rewrite Hmail. unfold lower. rewrite Hascii. reflexivity. }
      repeat split; assumption.
  - destruct (login_not_ready credentials w Hr) as (e & E & _).
    rewrite E in Hlogin. discriminate.
Qed.

(** ** Registering *)

(** What [register] does with a client at hand and a store that answers
    its reads: the row it asks the store to create, and the state once the
    random strings have been drawn. *)
Lemma register_ready (user : UserRegister) (w : world) :
  client_ready w = true -> outage w OpSelect = false ->
  let drawn n customers' :=
    {| customers := customers';
       customer_products := customer_products w;
       clock := clock w;
       supabase_client := true;
       outage := outage w;
       insert_dropped := insert_dropped w;
       draws := n |} in
  let created hash :=
    {| c_id := store_id (List.length (customers w));
       c_email := lower (reg_email user);
       c_password_hash := hash;
       c_shop_name := reg_name user;
       c_access_key := sha256_hex (entropy (S (draws w)));
       c_data_consent := true;
       c_consent_updated_at := isoformat (clock w);
       c_signup_date := isoformat (clock w);
       c_usage_count := 0;
       c_usage_reset_date := isoformat (clock w);
       c_is_premium := false;
       c_is_email_verified := false;
       c_last_login := None |} in
  register user w =
  match filter (fun c => String.eqb (c_email c) (lower (reg_email user)))
          (customers w) with
  | _ :: _ => (Raise (HTTPException 400 "Email already registered"),
               if supabase_client w then w else connected w)
  | [] =>
      match pwd_hash (entropy (draws w)) (reg_password user) with
      | Raise e => (Raise e, drawn (S (draws w)) (customers w))
      | Ok hash =>
          if outage w OpInsert then (Raise APIError, drawn (S (S (draws w))) (customers w))
          else if insert_dropped w then
            (Raise (HTTPException 500 "Failed to create user"),
             drawn (S (S (draws w))) (customers w))
          else
            (match fst (create_access_token (store_id (List.length (customers w)))
                          (lower (reg_email user)) w) with
             | Ok token => Ok {| user_id := store_id (List.length (customers w));
                                 email := lower (reg_email user);
                                 name := reg_name user;
                                 is_premium := false;
                                 access_token := token |}
             | Raise e => Raise e
             end,
             drawn (S (S (draws w))) (customers w ++ [created hash])%list)
      end
  end.
Proof.
  intros Hr Hup. cbv zeta. unfold register, bind.
  rewrite (AuthSpec.get_supabase_client_ready w Hr).
  rewrite (AuthSpec.select_customers_by_email_up _ w Hup).
  destruct (filter _ (customers w)) as [|existing rest]; [|reflexivity].
  unfold hash_password, bind, draw, lift, ret, utcnow, insert_customer, raise.
  destruct (supabase_client w) eqn:Hc;
    cbn [connected customers customer_products clock supabase_client outage
         insert_dropped draws fst snd];
    rewrite ?Hc;
    (destruct (pwd_hash _ _) as [hash|e]; [|reflexivity]);
    (destruct (outage w OpInsert); [reflexivity|]);
    (destruct (insert_dropped w); [reflexivity|]);
    rewrite !AuthSpec.create_access_token_eq; cbn [clock fst c_id]; cbv zeta;
    (destruct ((datetime_min <=? _) && (_ <=? datetime_max)); [|reflexivity]);
    destruct (jwt_encode _ _ _); reflexivity.
Qed.

Lemma register_not_ready (user : UserRegister) (w : world) :
  client_ready w = false ->
  exists e, register user w = (Raise e, w) /\ get_supabase_client w = (Raise e, w).
Proof.
  intros Hnr. unfold register, bind.
  destruct (get_supabase_client_cases w) as [(Hr & _)|(_ & _ & e & E & _)];
    [congruence|].
  rewrite E. exists e. split; reflexivity.
Qed.

Lemma register_select_down (user : UserRegister) (w : world) :
  client_ready w = true -> outage w OpSelect = true ->
  register user w = (Raise APIError, if supabase_client w then w else connected w).
Proof.
  intros Hr Hdown. unfold register, bind.
  rewrite (AuthSpec.get_supabase_client_ready w Hr).
  unfold select_customers_by_email.
  destruct (supabase_client w); cbn [connected outage]; rewrite Hdown; reflexivity.
Qed.

Lemma filter_email_nil (v : string) (rows : list customer) :
  filter (fun c => String.eqb (c_email c) v) rows = [] <-> ~ In v (map c_email rows).
Proof.
  induction rows as [|r rs IH]; cbn [filter map].
  - split; [intros _ []|reflexivity].
  - destruct (String.eqb (c_email r) v) eqn:E.
    + split; [discriminate|]. intros Hn. exfalso. apply Hn. left.
      apply String.eqb_eq. exact E.
    + rewrite IH. apply String.eqb_neq in E. split.
      * intros Hn [Hx|Hx]; [exact (E Hx)|exact (Hn Hx)].
      * intros Hn Hx. apply Hn. right. exact Hx.
Qed.

Lemma register_outcome (user : UserRegister) (w : world) :
  let w' := snd (register user w) in
  customer_products w' = customer_products w /\
  match fst (register user w) with
  | Ok response =>
      ~ In (lower (reg_email user)) (map c_email (customers w)) /\
      exists created,
        customers w' = (customers w ++ [created])%list /\
        c_id created = user_id response /\
        c_email created = lower (reg_email user) /\
        c_is_premium created = false /\
        c_usage_count created = 0 /\
        c_last_login created = None
  | Raise e =>
      customers w' = customers w
      \/ (~ In (lower (reg_email user)) (map c_email (customers w)) /\
          exists created,
            customers w' = (customers w ++ [created])%list /\
            c_email created = lower (reg_email user) /\
            c_is_premium created = false /\
            c_usage_count created = 0 /\
            c_last_login created = None /\
            fst (create_access_token (c_id created) (lower (reg_email user)) w)
            = Raise e)
  end.
Proof.
  cbv zeta.
  destruct (client_ready w) eqn:Hr.
  - destruct (AuthSpec.connected_fields w) as (Hc & Hp & _).
    destruct (outage w OpSelect) eqn:Hup.
    + rewrite (register_select_down user w Hr Hup). cbn [fst snd].
      split; [assumption|left; assumption].
    + rewrite (register_ready user w Hr Hup).
      destruct (filter _ (customers w)) as [|existing rest] eqn:Hrow; cbn [fst snd];
        [|split; [assumption|left; assumption]].
      apply filter_email_nil in Hrow.
      destruct (pwd_hash _ _) as [hash|e]; cbn [fst snd customers customer_products];
        [|split; [reflexivity|left; reflexivity]].
      destruct (outage w OpInsert); cbn [fst snd customers customer_products];
        [split; [reflexivity|left; reflexivity]|].
      destruct (insert_dropped w); cbn [fst snd customers customer_products];
        [split; [reflexivity|left; reflexivity]|].
      split; [reflexivity|].
      destruct (fst (create_access_token _ _ w)) as [token|e] eqn:Htoken.
      * split; [exact Hrow|]. eexists. split; [reflexivity|]. repeat split.
      * right. split; [exact Hrow|]. eexists. split; [reflexivity|].
        cbn [c_id c_email c_is_premium c_usage_count c_last_login].
        repeat split. exact Htoken.
  - destruct (register_not_ready user w Hr) as (e & -> & _). cbn [fst snd].
    split; [reflexivity|left; reflexivity].
Qed.

(** X7. With a client at hand, a store that answers and an email that no
    customer has in its lower-case form, [register] hashes the password
    and, when the password library returns a hash and a token can be
    issued, succeeds (status 201): it appends exactly one customer row,
    with the id the store assigned, the email in lower case (for an
    address of ASCII characters: with the letters A to Z in lower case),
    that hash, a usage count of 0 and no premium flag; the entitlement
    links are unchanged; the answer carries that id, the lower-case email,
    the name, [is_premium = false] and the token, which under an HMAC
    algorithm and a positive [JWT_EXPIRATION_HOURS] verifies at once to
    that id and email. When the password library refuses the password,
    [register] fails with the library's exception and adds no row. *)
Theorem register_creates_the_account (user : UserRegister) (w : world) :
  client_ready w = true ->
  outage w OpSelect = false -> outage w OpInsert = false ->
  insert_dropped w = false ->
  ~ In (lower (reg_email user)) (map c_email (customers w)) ->
  (forall (hash : string) (token : jwt),
     pwd_hash (entropy (draws w)) (reg_password user) = Ok hash ->
     create_access_token (store_id (List.length (customers w)))
       (lower (reg_email user)) w = (Ok token, w) ->
     exists (response : UserResponse) (w' : world) (created : customer),
       register user w = (Ok response, w') /\
       http_status 201 (fst (register user w)) = 201 /\
       customers w' = (customers w ++ [created])%list /\
       customer_products w' = customer_products w /\
       c_id created = store_id (List.length (customers w)) /\
       c_email created = lower (reg_email user) /\
       (is_ascii (reg_email user) = true ->
        c_email created = ascii_lower (reg_email user)) /\
       c_password_hash created = hash /\
       c_shop_name created = reg_name user /\
       c_usage_count created = 0 /\
       c_is_premium created = false /\
       user_id response = c_id created /\
       email response = lower (reg_email user) /\
       name response = reg_name user /\
       is_premium response = false /\
       access_token response = token /\
       (is_hmac (JWT_ALGORITHM settings) = true ->
        0 < JWT_EXPIRATION_HOURS settings ->
        exists payload,
          verify_token token w' = (Ok payload, w') /\
          claim_user_id payload = Some (JStr (c_id created)) /\
          claim_email payload = Some (JStr (lower (reg_email user))))) /\
  (forall e : exn,
     pwd_hash (entropy (draws w)) (reg_password user) = Raise e ->
     fst (register user w) = Raise e /\
     customers (snd (register user w)) = customers w).
Proof.
  intros Hr Hup Hins Hkeep Hfree.
  apply filter_email_nil in Hfree.
  pose proof (register_ready user w Hr Hup) as E. cbv zeta in E.
  rewrite Hfree, Hins, Hkeep in E.
  split.
  - intros hash token Hhash Htoken. rewrite Hhash, Htoken in E. cbn [fst] in E.
    eexists. eexists. eexists.
    split; [exact E|]. rewrite E. cbn [fst http_status].
    split; [reflexivity|]. split; [reflexivity|]. split; [reflexivity|].
    cbn [c_id c_email c_password_hash c_shop_name c_usage_count c_is_premium
         user_id email name is_premium access_token].
    split; [reflexivity|]. split; [reflexivity|]. split.
    { intros Hascii. unfold lower. rewrite Hascii. reflexivity. }
    do 9 (split; [reflexivity|]).
    intros Hmac Hpos.
    eexists.
    rewrite (AuthSpec.verify_issued_token _ _ w w _ token Hmac Htoken). cbn [clock].
    destruct (Z.leb_spec (clock w + JWT_EXPIRATION_HOURS settings * 3600) (clock w));
      [lia|].
    split; [reflexivity|]. split; reflexivity.
  - intros e Hhash. rewrite Hhash in E. rewrite E. split; reflexivity.
Qed.

(** X8. [register] adds one customer row or none: whatever the state of
    the store, the entitlement links are unchanged. When the call returns,
    no customer had the lower-case email before, and the rows are the old
    ones followed by one new row with the answered id, that email, no
    premium flag, a usage count of 0 and no login date. When the call
    raises, the customer rows are as before, unless what failed is the
    issue of the token, which comes after the insert: the new row is then
    in the store although the caller got an error. *)
Theorem register_adds_one_row_or_none (user : UserRegister) (w : world) :
  let w' := snd (register user w) in
  customer_products w' = customer_products w /\
  match fst (register user w) with
  | Ok response =>
      ~ In (lower (reg_email user)) (map c_email (customers w)) /\
      exists created,
        customers w' = (customers w ++ [created])%list /\
        c_id created = user_id response /\
        c_email created = lower (reg_email user) /\
        c_is_premium created = false /\
        c_usage_count created = 0 /\
        c_last_login created = None
  | Raise e =>
      customers w' = customers w
      \/ (~ In (lower (reg_email user)) (map c_email (customers w)) /\
          exists created,
            customers w' = (customers w ++ [created])%list /\
            c_email created = lower (reg_email user) /\
            c_is_premium created = false /\
            c_usage_count created = 0 /\
            c_last_login created = None /\
            fst (create_access_token (c_id created) (lower (reg_email user)) w)
            = Raise e)
  end.
Proof. exact (register_outcome user w). Qed.

(** X9. [register] keeps emails unique: if no two customers share an
    email before the call, none do after it, whether it succeeds or
    fails. *)
Theorem register_keeps_emails_unique (user : UserRegister) (w : world) :
  NoDup (map c_email (customers w)) ->
  NoDup (map c_email (customers (snd (register user w)))).
Proof.
  intros Hnd. destruct (register_outcome user w) as (_ & Hout).
  assert (Hadd : forall created,
             ~ In (lower (reg_email user)) (map c_email (customers w)) ->
             c_email created = lower (reg_email user) ->
             NoDup (map c_email (customers w ++ [created]))).
  { intros created Hfree Hmail. rewrite map_app. cbn [map]. rewrite Hmail.
    apply NoDup_app; try assumption.
    - constructor; [intros []|constructor].
    - intros x Hx [Hy|[]]. subst x. exact (Hfree Hx). }
  destruct (fst (register user w)) as [response|e].
  - destruct Hout as (Hfree & created & -> & _ & Hmail & _).
    exact (Hadd created Hfree Hmail).
  - destruct Hout as [->|(Hfree & created & -> & Hmail & _)]; [exact Hnd|].
    exact (Hadd created Hfree Hmail).
Qed.

(** ** Handlers in sequence *)

Lemma register_ok_inv (user : UserRegister) (w w' : world) (response : UserResponse) :
  register user w = (Ok response, w') ->
  client_ready w = true /\ outage w OpSelect = false /\
  filter (fun c => String.eqb (c_email c) (lower (reg_email user))) (customers w) = [] /\
  exists created hash,
    pwd_hash (entropy (draws w)) (reg_password user) = Ok hash /\
    customers w' = (customers w ++ [created])%list /\
    customer_products w' = customer_products w /\
    clock w' = clock w /\ outage w' = outage w /\ supabase_client w' = true /\
    c_id created = user_id response /\
    c_email created = lower (reg_email user) /\
    c_password_hash created = hash /\
    c_shop_name created = reg_name user /\
    c_is_premium created = false /\
    email response = lower (reg_email user) /\
    name response = reg_name user /\
    is_premium response = false /\
    fst (create_access_token (user_id response) (lower (reg_email user)) w)
    = Ok (access_token response).
Proof.
  intros Hreg.
  destruct (client_ready w) eqn:Hr.
  - destruct (outage w OpSelect) eqn:Hup.
    + rewrite (register_select_down user w Hr Hup) in Hreg. discriminate.
    + rewrite (register_ready user w Hr Hup) in Hreg.
      destruct (filter _ (customers w)) as [|existing rest] eqn:Hrow; [|discriminate].
      destruct (pwd_hash _ _) as [hash|e] eqn:Hhash; [|discriminate].
      destruct (outage w OpInsert); [discriminate|].
      destruct (insert_dropped w); [discriminate|].
      destruct (fst (create_access_token _ _ w)) as [token|e] eqn:Htoken;
        [|discriminate].
      injection Hreg as <- <-.
      split; [reflexivity|]. split; [reflexivity|]. split; [reflexivity|].
      eexists. exists hash. split; [reflexivity|]. split; [reflexivity|].
      cbn [customer_products clock outage supabase_client c_id c_email
           c_password_hash c_shop_name c_is_premium user_id email name
           is_premium access_token].
      repeat split. exact Htoken.
  - destruct (register_not_ready user w Hr) as (e & E & _).
    rewrite E in Hreg. discriminate.
Qed.

(** X10. Registering and then logging in. After a successful [register],
    if the password library verifies the submitted password against the
    hash it made of it, a [login] with the same password and with an email
    that has the same lower-case form, as it has when both addresses are
    ASCII and differ in the case of their letters, succeeds, and answers
    with the id, the email and the name that [register] answered with, and
    [is_premium = false]. *)
Theorem login_after_register
    (user : UserRegister) (credentials : UserLogin) (w w' : world)
    (response : UserResponse) :
  register user w = (Ok response, w') ->
  lower (login_email credentials) = lower (reg_email user)
  \/ (is_ascii (login_email credentials) = true /\ is_ascii (reg_email user) = true /\
      ascii_lower (login_email credentials) = ascii_lower (reg_email user)) ->
  login_password credentials = reg_password user ->
  (forall hash,
     pwd_hash (entropy (draws w)) (reg_password user) = Ok hash ->
     verify_password (reg_password user) hash = Ok true) ->
  exists (token : jwt) (w'' : world),
    login credentials w'
    = (Ok {| user_id := user_id response;
             email := email response;
             name := name response;
             is_premium := false;
             access_token := token |}, w'').
Proof.
  intros Hreg Hmail Hpw Hverify.
  apply AuthSpec.same_lower in Hmail.
  destruct (register_ok_inv user w w' response Hreg)
    as (Hr & Hup & Hfree & created & hash & Hhash & Hrows & _ & Hclock & Hout & Hclient
        & Hid & Hcmail & Hchash & Hshop & Hprem & Hrmail & Hrname & _ & Htoken).
  assert (Hr' : client_ready w' = true)
    by (unfold client_ready; rewrite Hclient; reflexivity).
  assert (Hup' : outage w' OpSelect = false) by (rewrite Hout; exact Hup).
  pose proof (login_ready credentials w' Hr' Hup') as E. cbv zeta in E.
  rewrite Hrows, filter_app, Hmail, Hfree in E. cbn [filter app] in E.
  rewrite Hcmail, String.eqb_refl in E.
  rewrite Hpw, Hchash, (Hverify hash Hhash) in E.
  rewrite (create_access_token_clock _ _ w' w Hclock) in E.
  rewrite Hid, Hcmail, Htoken, Hshop, Hprem in E. rewrite Hrmail, Hrname.
  eexists. eexists. exact E.
Qed.

(** X22. Registering twice. After a successful [register], a second
    [register] with an email that has the same lower-case form, as it has
    when both addresses are ASCII and differ in the case of their letters,
    is answered 400 while the store answers, whatever password and name it
    submits, and changes nothing: the store keeps the one row with that
    email. *)
Theorem register_twice_conflicts
    (first second : UserRegister) (w w' : world) (response : UserResponse) :
  register first w = (Ok response, w') ->
  lower (reg_email second) = lower (reg_email first)
  \/ (is_ascii (reg_email second) = true /\ is_ascii (reg_email first) = true /\
      ascii_lower (reg_email second) = ascii_lower (reg_email first)) ->
  outage w' OpSelect = false ->
  register second w' = (Raise (HTTPException 400 "Email already registered"), w') /\
  http_status 201 (fst (register second w')) = 400 /\
  (NoDup (map c_email (customers w)) ->
   exists created,
     filter (fun c => String.eqb (c_email c) (lower (reg_email second)))
       (customers (snd (register second w'))) = [created]).
Proof.
  intros Hfirst Hsame Hup.
  apply AuthSpec.same_lower in Hsame.
  pose proof (AuthSpec.register_again first second w w' response Hfirst Hsame Hup) as E.
  rewrite E. cbn [fst snd http_status].
  split; [reflexivity|]. split; [reflexivity|].
  intros _.
  destruct (register_ok_inv first w w' response Hfirst)
    as (_ & _ & Hfree & created & hash & _ & Hrows & _ & _ & _ & _ & _ & Hcmail & _).
  exists created. rewrite Hrows, filter_app, Hsame, Hfree. cbn [filter app].
  rewrite Hcmail, String.eqb_refl. reflexivity.
Qed.

Lemma stamped_ids (id v : string) (rows : list customer) :
  map c_id (map (fun c => if String.eqb (c_id c) id then set_last_login v c else c) rows)
  = map c_id rows.
Proof.
  rewrite map_map. apply map_ext. intros c.
  destruct (String.eqb (c_id c) id); reflexivity.
Qed.

(** X11. Logging in and then asking for the account. If customer ids are
    unique and [login] succeeds, under an HMAC algorithm, then
    [get_user_info], called for the id and with the token [login] answered
    with, at any time less than [JWT_EXPIRATION_HOURS] hours later while
    the store answers and holds the rows [login] left, succeeds and
    reports the same id, email and name. *)
Theorem get_user_info_after_login
    (credentials : UserLogin) (w w' later : world) (response : UserResponse) :
  login credentials w = (Ok response, w') ->
  NoDup (map c_id (customers w)) ->
  customers later = customers w' ->
  client_ready later = true -> outage later OpSelect = false ->
  is_hmac (JWT_ALGORITHM settings) = true ->
  clock later < clock w + JWT_EXPIRATION_HOURS settings * 3600 ->
  exists (info : UserInfo) (w'' : world),
    get_user_info (user_id response) (access_token response) later = (Ok info, w'') /\
    info_user_id info = user_id response /\
    info_email info = email response /\
    info_name info = name response.
Proof.
  intros Hlogin Hnd Hrows Hr Hup Hmac Hclock.
  assert (Hr0 : client_ready w = true).
  { destruct (client_ready w) eqn:E; [reflexivity|].
    destruct (login_not_ready credentials w E) as (e & E' & _).
    rewrite E' in Hlogin. discriminate. }
  assert (Hup0 : outage w OpSelect = false).
  { destruct (outage w OpSelect) eqn:E; [|reflexivity].
    rewrite (login_select_down credentials w Hr0 E) in Hlogin. discriminate. }
  rewrite (login_ready credentials w Hr0 Hup0) in Hlogin.
  destruct (filter _ (customers w)) as [|account rest] eqn:Hrow; [discriminate|].
  destruct (verify_password _ _) as [[|]|e]; try discriminate.
  destruct (fst (create_access_token (c_id account) (c_email account) w))
    as [token|e] eqn:Htoken; [|discriminate].
  assert (Hissued : create_access_token (c_id account) (c_email account) w
                    = (Ok token, w))
    by (rewrite create_access_token_pair, Htoken; reflexivity).
  apply filter_head_In in Hrow. destruct Hrow as [Hin _].
  injection Hlogin as <- <-.
  cbn [user_id email name access_token].
  destruct (AuthSpec.connected_fields w) as (Hc & _ & _ & Hout & _).
  assert (Hfound : exists row,
             filter (fun c => String.eqb (c_id c) (c_id account)) (customers later) = [row]
             /\ c_id row = c_id account /\ c_email row = c_email account
             /\ c_shop_name row = c_shop_name account).
  { rewrite Hrows. unfold update_last_login. rewrite Hout.
    destruct (outage w OpUpdate); cbn [snd customers]; rewrite Hc.
    - exists account. split; [|repeat split].
      apply NoDup_filter_id; [assumption|assumption|reflexivity].
    - exists (set_last_login (isoformat (clock w)) account). split; [|repeat split].
      apply NoDup_filter_id.
      + rewrite stamped_ids. exact Hnd.
      + apply in_map_iff. exists account. rewrite String.eqb_refl.
        split; [reflexivity|exact Hin].
      + reflexivity. }
  destruct Hfound as (row & Hfilter & Hid & Hmail & Hshop).
  unfold get_user_info, bind.
  rewrite (AuthSpec.verify_issued_token _ _ w w later token Hmac Hissued).
  destruct (Z.leb_spec (clock w + JWT_EXPIRATION_HOURS settings * 3600) (clock later));
    [lia|].
  cbn [claim_user_id token_payload claim String.eqb Ascii.eqb Bool.eqb json_is_str].
  rewrite String.eqb_refl. cbn [negb]. cbv beta iota.
  rewrite (AuthSpec.get_supabase_client_ready later Hr).
  rewrite (AuthSpec.select_customers_by_id_up _ later Hup), Hfilter. cbv beta iota.
  rewrite (AuthSpec.select_products_by_customer_up _ later Hup).
  eexists. eexists. split; [reflexivity|].
  cbn [info_user_id info_email info_name]. repeat split; assumption.
Qed.

(** ** What the endpoints answer with *)

Lemma get_user_info_ready (user_id : string) (token : jwt) (payload : jwt_payload)
    (w : world) :
  jwt_decode token (JWT_SECRET settings) [JWT_ALGORITHM settings] (clock w) = Ok payload ->
  claim_user_id payload = Some (JStr user_id) ->
  client_ready w = true -> outage w OpSelect = false ->
  (exists info w', get_user_info user_id token w = (Ok info, w'))
  \/ fst (get_user_info user_id token w) = Raise (HTTPException 404 "User not found").
Proof.
  intros Hdec Hid Hr Hup.
  unfold get_user_info, bind.
  rewrite AuthSpec.verify_token_decoded, Hdec, Hid.
  cbn [json_is_str]. rewrite String.eqb_refl. cbn [negb]. cbv beta iota.
  rewrite (AuthSpec.get_supabase_client_ready w Hr).
  rewrite (AuthSpec.select_customers_by_id_up _ w Hup).
  destruct (filter _ (customers w)) as [|row rest]; [right; reflexivity|left].
  rewrite (AuthSpec.select_products_by_customer_up _ w Hup).
  eexists. eexists. reflexivity.
Qed.

Lemma get_user_info_no_user_id (user_id : string) (token : jwt) (payload : jwt_payload)
    (w : world) :
  jwt_decode token (JWT_SECRET settings) [JWT_ALGORITHM settings] (clock w) = Ok payload ->
  claim_user_id payload = None ->
  get_user_info user_id token w = (Raise (KeyError "user_id"), w).
Proof.
  intros Hdec Hnone. unfold get_user_info, bind.
  rewrite AuthSpec.verify_token_decoded, Hdec, Hnone. reflexivity.
Qed.

(** X23. The answers of the three account endpoints, when a client can be
    had and the store answers its reads (and, for [register], performs its
    writes). [register] answers 201 or 400; [login] answers 200 or 401;
    [get_user_info] answers 200, 401, 403 or 404. The only other outcome
    is an exception that no handler catches, which the application
    answers 500: for [register], what the password library or the issue of
    the token raised; for [login], what the password check or the issue of
    the token raised; for [get_user_info], what the decoding raised that
    is not a token error, or the [KeyError] of a verified payload that has
    no [user_id]. An update the store refuses does not change the answer
    of [login]. *)
Theorem statuses_with_a_working_store (w : world) :
  client_ready w = true -> outage w OpSelect = false ->
  (forall user,
     outage w OpInsert = false -> insert_dropped w = false ->
     http_status 201 (fst (register user w)) = 201
     \/ http_status 201 (fst (register user w)) = 400
     \/ exists e,
          fst (register user w) = Raise e /\
          (pwd_hash (entropy (draws w)) (reg_password user) = Raise e
           \/ fst (create_access_token (store_id (List.length (customers w)))
                     (lower (reg_email user)) w) = Raise e)) /\
  (forall credentials,
     http_status 200 (fst (login credentials w)) = 200
     \/ http_status 200 (fst (login credentials w)) = 401
     \/ exists e account,
          fst (login credentials w) = Raise e /\
          In account (customers w) /\
          (verify_password (login_password credentials) (c_password_hash account)
           = Raise e
           \/ fst (create_access_token (c_id account) (c_email account) w) = Raise e)) /\
  (forall user_id token,
     http_status 200 (fst (get_user_info user_id token w)) = 200
     \/ http_status 200 (fst (get_user_info user_id token w)) = 401
     \/ http_status 200 (fst (get_user_info user_id token w)) = 403
     \/ http_status 200 (fst (get_user_info user_id token w)) = 404
     \/ (exists e,
           jwt_decode token (JWT_SECRET settings) [JWT_ALGORITHM settings] (clock w)
           = Raise e /\
           is_InvalidTokenError e = false /\
           fst (get_user_info user_id token w) = Raise e)
     \/ (exists payload,
           jwt_decode token (JWT_SECRET settings) [JWT_ALGORITHM settings] (clock w)
           = Ok payload /\
           claim_user_id payload = None /\
           fst (get_user_info user_id token w) = Raise (KeyError "user_id") /\
           http_status 200 (fst (get_user_info user_id token w)) = 500)) /\
  (forall credentials (down : bool),
     fst (login credentials
            {| customers := customers w;
               customer_products := customer_products w;
               clock := clock w;
               supabase_client := supabase_client w;
               outage := fun op => match op with
                                   | OpUpdate => down
                                   | _ => outage w op
                                   end;
               insert_dropped := insert_dropped w;
               draws := draws w |})
     = fst (login credentials w)).
Proof.
  intros Hr Hup. split; [|split; [|split]].
  - intros user Hins Hkeep.
    rewrite (register_ready user w Hr Hup), Hins, Hkeep.
    destruct (filter _ (customers w)); [|right; left; reflexivity].
    destruct (pwd_hash _ _) as [hash|e].
    + cbn [fst].
      destruct (fst (create_access_token _ _ w)) as [token|e];
        [left; reflexivity|].
      right. right. exists e. split; [reflexivity|right; reflexivity].
    + right. right. exists e. split; [reflexivity|left; reflexivity].
  - intros credentials. rewrite (login_ready credentials w Hr Hup).
    destruct (filter _ (customers w)) as [|account rest] eqn:Hrow;
      [right; left; reflexivity|].
    apply filter_head_In in Hrow. destruct Hrow as [Hin _].
    destruct (verify_password _ _) as [[|]|e] eqn:Hpwd.
    + cbn [fst].
      destruct (fst (create_access_token _ _ w)) as [token|e] eqn:Htoken;
        [left; reflexivity|].
      right. right. exists e, account.
      split; [reflexivity|]. split; [exact Hin|right; exact Htoken].
    + right. left. reflexivity.
    + right. right. exists e, account.
      split; [reflexivity|]. split; [exact Hin|left; exact Hpwd].
  - intros user_id token.
    destruct (jwt_decode token (JWT_SECRET settings) [JWT_ALGORITHM settings] (clock w))
      as [payload|e] eqn:Hdec.
    + destruct (claim_user_id payload) as [bound|] eqn:Hbound.
      * destruct (json_is_str bound user_id) eqn:Hid.
        -- apply json_is_str_true in Hid. subst bound.
           destruct (get_user_info_ready user_id token payload w Hdec Hbound Hr Hup)
             as [(info & w' & E)|E]; rewrite E;
             [left|right; right; right; left]; reflexivity.
        -- rewrite (get_user_info_foreign user_id token payload bound w Hdec Hbound Hid).
           right. right. left. reflexivity.
      * right. right. right. right. right. exists payload.
        rewrite (get_user_info_no_user_id user_id token payload w Hdec Hbound).
        repeat split. exact Hbound.
    + destruct (get_user_info_rejects user_id token w e Hdec) as (Htoken & Hother).
      destruct (is_InvalidTokenError e) eqn:Hkind.
      * destruct (Htoken eq_refl) as (detail & E). rewrite E. right. left. reflexivity.
      * right. right. right. right. left. exists e.
        rewrite (Hother eq_refl). repeat split. exact Hkind.
  - intros credentials down.
    set (w2 := {| customers := customers w; customer_products := customer_products w;
                  clock := clock w; supabase_client := supabase_client w;
                  outage := fun op => match op with
                                      | OpUpdate => down
                                      | _ => outage w op
                                      end;
                  insert_dropped := insert_dropped w; draws := draws w |}).
    assert (Hr2 : client_ready w2 = true) by exact Hr.
    assert (Hup2 : outage w2 OpSelect = false) by exact Hup.
    rewrite (login_ready credentials w Hr Hup).
    rewrite (login_ready credentials w2 Hr2 Hup2).
    cbn [customers w2].
    destruct (filter _ (customers w)) as [|account rest]; [reflexivity|].
    destruct (verify_password _ _) as [[|]|e]; try reflexivity.
    cbn [fst].
    rewrite (create_access_token_clock (c_id account) (c_email account) w2 w eq_refl).
    reflexivity.
Qed.

(** X24. [login] does not look at the entitlement links: in two states
    that differ only in those links it gives the same answer. The
    [is_premium] it reports is the stored flag, which [register] sets to
    false and no endpoint changes, whereas [get_user_info] reports the
    "insights" entitlement. *)
Theorem login_ignores_the_entitlements
    (credentials : UserLogin) (w : world) (links : list customer_product) :
  fst (login credentials
         {| customers := customers w;
            customer_products := links;
            clock := clock w;
            supabase_client := supabase_client w;
            outage := outage w;
            insert_dropped := insert_dropped w;
            draws := draws w |})
  = fst (login credentials w).
Proof.
  set (w2 := {| customers := customers w; customer_products := links;
                clock := clock w; supabase_client := supabase_client w;
                outage := outage w; insert_dropped := insert_dropped w;
                draws := draws w |}).
  destruct (client_ready w) eqn:Hr.
  - assert (Hr2 : client_ready w2 = true) by exact Hr.
    destruct (outage w OpSelect) eqn:Hup.
    + rewrite (login_select_down credentials w Hr Hup).
      rewrite (login_select_down credentials w2 Hr2 Hup). reflexivity.
    + rewrite (login_ready credentials w Hr Hup).
      rewrite (login_ready credentials w2 Hr2 Hup). cbn [customers clock w2].
      destruct (filter _ (customers w)) as [|account rest]; [reflexivity|].
      destruct (verify_password _ _) as [[|]|e]; try reflexivity.
      cbn [fst].
      rewrite (create_access_token_clock (c_id account) (c_email account) w2 w eq_refl).
      reflexivity.
  - assert (Hr2 : client_ready w2 = false) by exact Hr.
    destruct (login_not_ready credentials w Hr) as (e & E & Eg).
    destruct (login_not_ready credentials w2 Hr2) as (e2 & E2 & Eg2).
    rewrite E, E2. cbn [fst].
    assert (Hsame : fst (get_supabase_client w2) = fst (get_supabase_client w)).
    { unfold get_supabase_client. cbn [supabase_client w2].
      destruct (supabase_client w); [reflexivity|].
      destruct (negb credentials_configured); [reflexivity|].
      destruct (create_client _ _) as [[]|]; reflexivity. }
    rewrite Eg, Eg2 in Hsame. cbn [fst] in Hsame. injection Hsame as ->. reflexivity.
Qed.

(** ** The connection test *)

(** X12. [test_connection] never raises and never touches the tables. It
    answers [True], printing nothing, exactly when a client can be had,
    the store answers and the store has a [users] table; otherwise it
    answers [False] and prints one line saying why. It answers [False] on
    a store without a [users] table, a table no endpoint reads, and a
    client it created stays behind even when the test fails. *)
Theorem test_connection_never_raises (users : option (list string)) (w : world) :
  exists (answer : bool) (printed : list string) (w' : world),
    test_connection users w = (Ok (answer, printed), w') /\
    (answer = true <->
     client_ready w = true /\ outage w OpSelect = false /\ users <> None) /\
    (answer = true -> printed = []) /\
    (answer = false ->
     exists e, printed = [String.append "Supabase connection test failed: " (exn_str e)]) /\
    customers w' = customers w /\
    customer_products w' = customer_products w /\
    supabase_client w' = client_ready w.
Proof.
  unfold test_connection, try_except, bind, ret.
  destruct (get_supabase_client_cases w) as [(Hr & E)|(Hnr & Hc & e & E & _)];
    rewrite E.
  - destruct (AuthSpec.connected_fields w) as (Hcust & Hprod & _ & Hout & _).
    assert (Hclient : supabase_client (if supabase_client w then w else connected w) = true).
    { destruct (supabase_client w) eqn:Hs; [exact Hs|reflexivity]. }
    unfold select_users_id_limit_1. rewrite Hout.
    destruct (outage w OpSelect) eqn:Hup.
    + eexists. eexists. eexists. split; [reflexivity|].
      split; [split; [discriminate|intros (_ & Hx & _); discriminate]|].
      split; [discriminate|]. split; [intros _; eexists; reflexivity|].
      rewrite Hr. repeat split; assumption.
    + destruct users as [ids|].
      * eexists. eexists. eexists. split; [reflexivity|].
        split; [split; [intros _; repeat split; [assumption|discriminate]|reflexivity]|].
        split; [reflexivity|]. split; [discriminate|].
        rewrite Hr. repeat split; assumption.
      * eexists. eexists. eexists. split; [reflexivity|].
        split; [split; [discriminate|intros (_ & _ & Hx); exfalso; apply Hx; reflexivity]|].
        split; [discriminate|]. split; [intros _; eexists; reflexivity|].
        rewrite Hr. repeat split; assumption.
  - eexists. eexists. eexists. split; [reflexivity|].
    split; [split; [discriminate|intros (Hx & _); congruence]|].
    split; [discriminate|]. split; [intros _; eexists; reflexivity|].
    rewrite Hnr, Hc. repeat split.
Qed.

End WithPlatform.

(** *** The theorems at work on the demo store *)

Section Witnesses.
Import Demo.
Local Open Scope string_scope.
Local Open Scope Z_scope.
Local Existing Instance demo_platform.
Local Existing Instance demo_deployment.

Lemma login_answers_for_a_stored_account_witness :
  exists (account : customer) (signature : string),
    In account (customers (demo_world 2000 false)) /\
    c_email account = lower "Alice@Example.com" /\
    (is_ascii "Alice@Example.com" = true ->
     c_email account = ascii_lower "Alice@Example.com") /\
    verify_password "wonderland" (c_password_hash account) = Ok true /\
    "id-0" = c_id account /\
    "alice@example.com" = c_email account /\
    Some "Alice" = c_shop_name account /\
    false = c_is_premium account /\
    create_access_token (c_id account) (c_email account) (demo_world 2000 false)
    = (Ok (alice_token 2000), demo_world 2000 false) /\
    alice_token 2000
    = Signed (JWT_ALGORITHM settings)
        (token_payload (c_id account) (c_email account)
           (2000 + JWT_EXPIRATION_HOURS settings * 3600))
        signature.
Proof.
  exact (login_answers_for_a_stored_account
           {| login_email := "Alice@Example.com"; login_password := "wonderland" |}
           (demo_world 2000 false)
           (snd (login {| login_email := "Alice@Example.com";
                          login_password := "wonderland" |} (demo_world 2000 false)))
           {| user_id := "id-0"; email := "alice@example.com"; name := Some "Alice";
              is_premium := false; access_token := alice_token 2000 |}
           eq_refl).
Defined.

Lemma register_creates_the_account_witness :
  exists (response : UserResponse) (w' : world) (created : customer),
    register bob (demo_world 2000 false) = (Ok response, w') /\
    http_status 201 (fst (register bob (demo_world 2000 false))) = 201 /\
    customers w' = [alice; created] /\
    customer_products w' = customer_products (demo_world 2000 false) /\
    c_id created = "id-1" /\
    c_email created = "bob@example.com" /\
    (is_ascii "Bob@Example.com" = true ->
     c_email created = ascii_lower "Bob@Example.com") /\
    c_password_hash created = "$2b$saltbuilder" /\
    c_shop_name created = Some "Bob" /\
    c_usage_count created = 0 /\
    c_is_premium created = false /\
    user_id response = c_id created /\
    email response = "bob@example.com" /\
    name response = Some "Bob" /\
    is_premium response = false /\
    access_token response = bob_token 2000 /\
    (is_hmac (JWT_ALGORITHM settings) = true ->
     0 < JWT_EXPIRATION_HOURS settings ->
     exists payload,
       verify_token (bob_token 2000) w' = (Ok payload, w') /\
       claim_user_id payload = Some (JStr (c_id created)) /\
       claim_email payload = Some (JStr "bob@example.com")).
Proof.
  assert (Hfree : ~ In (lower (reg_email bob))
                      (map c_email (customers (demo_world 2000 false)))).
  { vm_compute. intros [E|[]]. discriminate. }
  assert (Hboth := register_creates_the_account bob (demo_world 2000 false)
                     eq_refl eq_refl eq_refl eq_refl Hfree).
  destruct Hboth as [Hcreated _].
  exact (Hcreated "$2b$saltbuilder" (bob_token 2000) eq_refl eq_refl).
Defined.

Lemma register_keeps_emails_unique_witness :
  NoDup (map c_email (customers (snd (register bob (demo_world 2000 false))))).
Proof.
  apply (register_keeps_emails_unique bob (demo_world 2000 false)).
  vm_compute. constructor; [intros []|constructor].
Defined.

Lemma login_after_register_witness :
  exists (token : jwt) (w'' : world),
    login {| login_email := "BOB@example.com"; login_password := "builder" |}
      (snd (register bob (demo_world 2000 false)))
    = (Ok {| user_id := "id-1"; email := "bob@example.com"; name := Some "Bob";
             is_premium := false; access_token := token |}, w'').
Proof.
  apply (login_after_register bob
           {| login_email := "BOB@example.com"; login_password := "builder" |}
           (demo_world 2000 false)
           (snd (register bob (demo_world 2000 false)))
           {| user_id := "id-1"; email := "bob@example.com"; name := Some "Bob";
              is_premium := false; access_token := bob_token 2000 |}).
  - vm_compute. reflexivity.
  - right. repeat split; reflexivity.
  - reflexivity.
  - intros hash Hhash. vm_compute in Hhash. injection Hhash as <-.
    vm_compute. reflexivity.
Defined.

Lemma register_twice_conflicts_witness :
  register {| reg_email := "BOB@example.com"; reg_password := "other";
              reg_name := None |}
    (snd (register bob (demo_world 2000 false)))
  = (Raise (HTTPException 400 "Email already registered"),
     snd (register bob (demo_world 2000 false))) /\
  http_status 201
    (fst (register {| reg_email := "BOB@example.com"; reg_password := "other";
                      reg_name := None |}
            (snd (register bob (demo_world 2000 false))))) = 400 /\
  (NoDup (map c_email (customers (demo_world 2000 false))) ->
   exists created,
     filter (fun c => String.eqb (c_email c) (lower "BOB@example.com"))
       (customers
          (snd (register {| reg_email := "BOB@example.com"; reg_password := "other";
                            reg_name := None |}
                  (snd (register bob (demo_world 2000 false))))))
     = [created]).
Proof.
  apply (register_twice_conflicts bob
           {| reg_email := "BOB@example.com"; reg_password := "other";
              reg_name := None |}
           (demo_world 2000 false)
           (snd (register bob (demo_world 2000 false)))
           {| user_id := "id-1"; email := "bob@example.com"; name := Some "Bob";
              is_premium := false; access_token := bob_token 2000 |}).
  - vm_compute. reflexivity.
  - right. repeat split; reflexivity.
  - reflexivity.
Defined.

Lemma get_user_info_after_login_witness :
  exists (info : UserInfo) (w'' : world),
    get_user_info "id-0" (alice_token 2000)
      (snd (login {| login_email := "Alice@Example.com";
                     login_password := "wonderland" |} (demo_world 2000 false)))
    = (Ok info, w'') /\
    info_user_id info = "id-0" /\
    info_email info = "alice@example.com" /\
    info_name info = Some "Alice".
Proof.
  apply (get_user_info_after_login
           {| login_email := "Alice@Example.com"; login_password := "wonderland" |}
           (demo_world 2000 false)
           (snd (login {| login_email := "Alice@Example.com";
                          login_password := "wonderland" |} (demo_world 2000 false)))
           (snd (login {| login_email := "Alice@Example.com";
                          login_password := "wonderland" |} (demo_world 2000 false)))
           {| user_id := "id-0"; email := "alice@example.com"; name := Some "Alice";
              is_premium := false; access_token := alice_token 2000 |}).
  - vm_compute. reflexivity.
  - vm_compute. constructor; [intros []|constructor].
  - reflexivity.
  - vm_compute. reflexivity.
  - vm_compute. reflexivity.
  - reflexivity.
  - vm_compute. reflexivity.
Defined.

Lemma statuses_with_a_working_store_witness :
  let w := demo_world 2000 false in
  let guess := {| login_email := "alice@example.com"; login_password := "guess" |} in
  (http_status 201 (fst (register bob w)) = 201
   \/ http_status 201 (fst (register bob w)) = 400
   \/ exists e,
        fst (register bob w) = Raise e /\
        (pwd_hash (entropy (draws w)) (reg_password bob) = Raise e
         \/ fst (create_access_token (store_id (List.length (customers w)))
                   (lower (reg_email bob)) w) = Raise e)) /\
  (http_status 200 (fst (login guess w)) = 200
   \/ http_status 200 (fst (login guess w)) = 401
   \/ exists e account,
        fst (login guess w) = Raise e /\
        In account (customers w) /\
        (verify_password (login_password guess) (c_password_hash account) = Raise e
         \/ fst (create_access_token (c_id account) (c_email account) w) = Raise e)) /\
  (http_status 200 (fst (get_user_info "id-1" (alice_token 1000) w)) = 200
   \/ http_status 200 (fst (get_user_info "id-1" (alice_token 1000) w)) = 401
   \/ http_status 200 (fst (get_user_info "id-1" (alice_token 1000) w)) = 403
   \/ http_status 200 (fst (get_user_info "id-1" (alice_token 1000) w)) = 404
   \/ (exists e,
         jwt_decode (alice_token 1000) (JWT_SECRET settings) [JWT_ALGORITHM settings]
           (clock w) = Raise e /\
         is_InvalidTokenError e = false /\
         fst (get_user_info "id-1" (alice_token 1000) w) = Raise e)
   \/ (exists payload,
         jwt_decode (alice_token 1000) (JWT_SECRET settings) [JWT_ALGORITHM settings]
           (clock w) = Ok payload /\
         claim_user_id payload = None /\
         fst (get_user_info "id-1" (alice_token 1000) w) = Raise (KeyError "user_id") /\
         http_status 200 (fst (get_user_info "id-1" (alice_token 1000) w)) = 500)).
Proof.
  intros w guess.
  assert (Hall := statuses_with_a_working_store w eq_refl eq_refl).
  destruct Hall as (Hregister & Hlogin & Hinfo & _).
  split; [exact (Hregister bob eq_refl eq_refl)|].
  split; [exact (Hlogin guess)|exact (Hinfo "id-1" (alice_token 1000))].
Defined.

End Witnesses.

(** *** A deployment whose [SUPABASE_URL] is not a URL *)

Section NoUrl.
Import Demo.
Local Open Scope string_scope.
Local Existing Instance demo_platform.
Local Existing Instance no_url_deployment.

(** With both settings set and a [SUPABASE_URL] the client library
    refuses, no client is handed out: the call raises the library's
    exception and the singleton stays empty. *)
Example get_supabase_client_refused_url :
  load_settings no_url_environ [] = Ok settings /\
  credentials_configured = true /\
  client_ready (demo_world 2000 false) = false /\
  get_supabase_client (demo_world 2000 false)
  = (Raise (LibraryError "SupabaseException" "Invalid URL"), demo_world 2000 false) /\
  http_status 200
    (fst (login {| login_email := "alice@example.com"; login_password := "wonderland" |}
            (demo_world 2000 false))) = 500%Z.
Proof. vm_compute. repeat split; reflexivity. Qed.

End NoUrl.

(** *** A deployment with a mistyped [JWT_ALGORITHM] *)

Section Mistyped.
Import Demo.
Local Open Scope string_scope.
Local Existing Instance demo_platform.
Local Existing Instance mistyped_deployment.

(** With [JWT_ALGORITHM=HS257] no token can be issued. [register] has
    inserted the row by the time it asks for the token: the caller gets a
    500 and the account is in the store all the same. *)
Example register_inserts_before_the_token :
  fst (register bob (demo_world 2000 false))
  = Raise (LibraryError "NotImplementedError" "Algorithm not supported") /\
  map c_email (customers (snd (register bob (demo_world 2000 false))))
  = ["alice@example.com"; "bob@example.com"].
Proof. vm_compute. split; reflexivity. Qed.

(** In the same way [login] has recorded the login by the time it asks
    for the token. *)
Example login_updates_before_the_token :
  fst (login {| login_email := "alice@example.com"; login_password := "wonderland" |}
         (demo_world 2000 false))
  = Raise (LibraryError "NotImplementedError" "Algorithm not supported") /\
  map c_last_login
    (customers
       (snd (login {| login_email := "alice@example.com";
                      login_password := "wonderland" |} (demo_world 2000 false))))
  = [Some "2024-12-19T00:00:00"].
Proof. vm_compute. split; reflexivity. Qed.

End Mistyped.

End AccountLaws.

(** * Properties of the start-up validation and of the application *)

Module StartupLaws.
Import Python Config Auth Main.
Local Open Scope string_scope.

Lemma validate_settings_complete (s : Settings) :
  SUPABASE_URL s <> "" -> SUPABASE_KEY s <> "" -> validate_settings s = Ok [].
Proof.
  intros Hu Hk. unfold validate_settings, critical_settings. cbn [filter snd].
  apply String.eqb_neq in Hu. apply String.eqb_neq in Hk. rewrite Hu, Hk.
  reflexivity.
Qed.

Lemma validate_settings_eq (s : Settings) :
  validate_settings s =
  let missing :=
    ((if String.eqb (SUPABASE_URL s) "" then ["SUPABASE_URL"] else []) ++
     (if String.eqb (SUPABASE_KEY s) "" then ["SUPABASE_KEY"] else []))%list in
  match missing with
  | [] => Ok []
  | _ :: _ =>
      if String.eqb (ENVIRONMENT s) "production" then
        Raise (ValueError (String.append "Missing critical settings in production: "
                             (String.concat ", " missing)))
      else if DEBUG s then
        Ok [String.append "⚠️  Warning: Missing settings (OK in dev): "
              (String.concat ", " missing)]
      else Ok []
  end.
Proof.
  unfold validate_settings, critical_settings. cbn [filter snd].
  destruct (String.eqb (SUPABASE_URL s) "");
    destruct (String.eqb (SUPABASE_KEY s) ""); cbn [map fst app andb];
    try reflexivity.
Qed.

(** X13. [validate_settings] raises exactly when the environment is named
    "production" and [SUPABASE_URL] or [SUPABASE_KEY] is empty; what it
    raises is a [ValueError] whose message lists the empty ones in that
    order. Outside production it never raises; it prints one warning when
    a setting is empty and [DEBUG] is on, and nothing otherwise. *)
Theorem validate_settings_raises_in_production_only (s : Settings) :
  let missing :=
    ((if String.eqb (SUPABASE_URL s) "" then ["SUPABASE_URL"] else []) ++
     (if String.eqb (SUPABASE_KEY s) "" then ["SUPABASE_KEY"] else []))%list in
  ((exists e, validate_settings s = Raise e) <->
   ENVIRONMENT s = "production" /\ (SUPABASE_URL s = "" \/ SUPABASE_KEY s = "")) /\
  (forall e, validate_settings s = Raise e ->
     e = ValueError (String.append "Missing critical settings in production: "
                       (String.concat ", " missing))) /\
  (forall printed, validate_settings s = Ok printed ->
     (printed = [] \/ exists line, printed = [line]) /\
     (printed <> [] <-> DEBUG s = true /\ missing <> [])).
Proof.
  cbv zeta. rewrite validate_settings_eq.
  assert (Hmissing :
            ((if String.eqb (SUPABASE_URL s) "" then ["SUPABASE_URL"] else []) ++
             (if String.eqb (SUPABASE_KEY s) "" then ["SUPABASE_KEY"] else []))%list = []
            <-> ~ (SUPABASE_URL s = "" \/ SUPABASE_KEY s = "")).
  { destruct (String.eqb_spec (SUPABASE_URL s) "") as [Hu|Hu];
      destruct (String.eqb_spec (SUPABASE_KEY s) "") as [Hk|Hk]; cbn [app];
      split; try discriminate; try tauto; reflexivity. }
  destruct (_ ++ _)%list as [|first others] eqn:Hm.
  - assert (Hfull : ~ (SUPABASE_URL s = "" \/ SUPABASE_KEY s = ""))
      by (apply Hmissing; reflexivity).
    split; [split; [intros (e & E); discriminate|intros (_ & Hx); contradiction]|].
    split; [intros e E; discriminate|].
    intros printed E. injection E as <-. split; [left; reflexivity|].
    split; [intros Hx; exfalso; apply Hx; reflexivity|intros (_ & Hx); exfalso; apply Hx; reflexivity].
  - assert (Hsome : SUPABASE_URL s = "" \/ SUPABASE_KEY s = "").
    { destruct (String.eqb_spec (SUPABASE_URL s) "") as [Hu|Hu]; [left; exact Hu|].
      destruct (String.eqb_spec (SUPABASE_KEY s) "") as [Hk|Hk]; [right; exact Hk|].
      discriminate. }
    destruct (String.eqb_spec (ENVIRONMENT s) "production") as [He|He].
    + split; [split; [intros _; split; assumption|intros _; eexists; reflexivity]|].
      split; [intros e E; injection E as <-; reflexivity|].
      intros printed E. discriminate.
    + split; [split; [|intros (Hx & _); contradiction]|].
      { intros (e & E). destruct (DEBUG s); discriminate. }
      split; [intros e E; destruct (DEBUG s); discriminate|].
      intros printed E. destruct (DEBUG s); injection E as <-.
      * split; [right; eexists; reflexivity|].
        split; [intros _; split; [reflexivity|discriminate]|discriminate].
      * split; [left; reflexivity|].
        split; [intros Hx; exfalso; apply Hx; reflexivity|intros (Hx & _); discriminate].
Qed.

Section WithPlatform.
Context `{Platform} `{Deployment}.

(** What [Settings()] puts in the fields the service reads, when it
    returns. *)
Lemma load_settings_ok (os_environ : string -> option string)
    (dotenv : list (string * string)) (s : Settings) :
  load_settings os_environ dotenv = Ok s ->
  let environ := load_dotenv os_environ dotenv in
  JWT_SECRET s = getenv environ "JWT_SECRET" "your-secret-key-change-in-prod" /\
  JWT_ALGORITHM s = getenv environ "JWT_ALGORITHM" "HS256" /\
  ENVIRONMENT s = getenv environ "ENVIRONMENT" "development" /\
  match environ "DEBUG" with
  | Some v => settings_bool v = Some (DEBUG s)
  | None => DEBUG s = true
  end /\
  match environ "JWT_EXPIRATION_HOURS" with
  | Some v => settings_int v = Some (JWT_EXPIRATION_HOURS s)
  | None => JWT_EXPIRATION_HOURS s = 24%Z
  end.
Proof.
  unfold load_settings. cbv zeta.
  destruct (existsb _ dotenv); [discriminate|].
  destruct (load_dotenv os_environ dotenv "DEBUG") as [v|] eqn:Hdebug.
  - destruct (settings_bool v) as [debug|]; [|discriminate].
    destruct (load_dotenv os_environ dotenv "JWT_EXPIRATION_HOURS") as [h|].
    + destruct (settings_int h) as [hours|]; [|discriminate].
      destruct (match load_dotenv os_environ dotenv "ALLOWED_ORIGINS" with
                | Some v0 => pydantic_str_list v0
                | None => Some default_origins
                end) as [origins|]; [|discriminate].
      destruct (match load_dotenv os_environ dotenv "RATE_LIMIT_PER_MINUTE" with
                | Some v0 => settings_int v0
                | None => Some 100%Z
                end) as [rate|]; [|discriminate].
      intros E. injection E as <-. repeat split.
    + destruct (match load_dotenv os_environ dotenv "ALLOWED_ORIGINS" with
                | Some v0 => pydantic_str_list v0
                | None => Some default_origins
                end) as [origins|]; [|discriminate].
      destruct (match load_dotenv os_environ dotenv "RATE_LIMIT_PER_MINUTE" with
                | Some v0 => settings_int v0
                | None => Some 100%Z
                end) as [rate|]; [|discriminate].
      intros E. injection E as <-. repeat split.
  - unfold getenv. rewrite Hdebug.
    destruct (load_dotenv os_environ dotenv "JWT_EXPIRATION_HOURS") as [h|].
    + destruct (settings_int h) as [hours|]; [|discriminate].
      destruct (match load_dotenv os_environ dotenv "ALLOWED_ORIGINS" with
                | Some v0 => pydantic_str_list v0
                | None => Some default_origins
                end) as [origins|]; [|discriminate].
      destruct (match load_dotenv os_environ dotenv "RATE_LIMIT_PER_MINUTE" with
                | Some v0 => settings_int v0
                | None => Some 100%Z
                end) as [rate|]; [|discriminate].
      intros E. injection E as <-. repeat split.
    + destruct (match load_dotenv os_environ dotenv "ALLOWED_ORIGINS" with
                | Some v0 => pydantic_str_list v0
                | None => Some default_origins
                end) as [origins|]; [|discriminate].
      destruct (match load_dotenv os_environ dotenv "RATE_LIMIT_PER_MINUTE" with
                | Some v0 => settings_int v0
                | None => Some 100%Z
                end) as [rate|]; [|discriminate].
      intros E. injection E as <-. repeat split.
Qed.

(** X14. The start-up validation does not look at the key the client is
    made with. When [SUPABASE_URL] and [SUPABASE_KEY] are set and
    [SUPABASE_SERVICE_ROLE_KEY] is not, [validate_settings] passes
    silently, in production too, and yet no client can be created:
    [get_supabase_client] raises [ValueError], and [register] and [login]
    are answered with status 500 for every request. *)
Theorem validated_settings_may_lack_the_service_key (w : world) :
  SUPABASE_URL settings <> "" -> SUPABASE_KEY settings <> "" ->
  SUPABASE_SERVICE_ROLE_KEY settings = "" ->
  supabase_client w = false ->
  validate_settings settings = Ok [] /\
  (exists msg, get_supabase_client w = (Raise (ValueError msg), w)) /\
  (forall user, http_status 201 (fst (register user w)) = 500%Z) /\
  (forall credentials, http_status 200 (fst (login credentials w)) = 500%Z).
Proof.
  intros Hu Hk Hs Hc.
  split; [apply validate_settings_complete; assumption|].
  assert (Hcfg : credentials_configured = false).
  { unfold credentials_configured. rewrite Hs, String.eqb_refl, orb_true_r.
    reflexivity. }
  assert (Hget : exists msg, get_supabase_client w = (Raise (ValueError msg), w)).
  { unfold get_supabase_client. rewrite Hc, Hcfg. eexists. reflexivity. }
  split; [exact Hget|].
  destruct Hget as (msg & Hget).
  split.
  - intros user. unfold register, bind. rewrite Hget. reflexivity.
  - intros credentials. unfold login, bind. rewrite Hget. reflexivity.
Qed.

(** X15. The start-up validation does not look at the token secret
    either. When neither the environment nor the [.env] file sets
    [JWT_SECRET], the secret is the default written in the source, and
    [verify_token] accepts every unexpired token that carries a user id, an
    email and an expiry and is signed with that default under the
    configured HMAC algorithm, whatever user id it names; with
    [SUPABASE_URL] and [SUPABASE_KEY] set, [validate_settings] passes all
    the same. *)
Theorem unset_secret_falls_back_to_the_default
    (os_environ : string -> option string) (dotenv : list (string * string))
    (w : world) :
  load_settings os_environ dotenv = Ok settings ->
  load_dotenv os_environ dotenv "JWT_SECRET" = None ->
  JWT_SECRET settings = "your-secret-key-change-in-prod" /\
  (forall (user_id email signature : string) (exp : Z),
     is_hmac (JWT_ALGORITHM settings) = true ->
     jwt_sign "your-secret-key-change-in-prod" (JWT_ALGORITHM settings)
       (token_payload user_id email exp) = Ok signature ->
     (clock w < exp)%Z ->
     verify_token
       (Signed (JWT_ALGORITHM settings) (token_payload user_id email exp) signature) w
     = (Ok (token_payload user_id email exp), w)) /\
  (SUPABASE_URL settings <> "" -> SUPABASE_KEY settings <> "" ->
   validate_settings settings = Ok []).
Proof.
  intros Hload Hunset.
  destruct (load_settings_ok os_environ dotenv settings Hload) as (Hsecret & _).
  unfold getenv in Hsecret. rewrite Hunset in Hsecret.
  split; [exact Hsecret|]. split.
  - intros user_id email signature exp Hmac Hsign Hfresh.
    rewrite AuthSpec.verify_token_decoded. rewrite Hsecret.
    rewrite (AuthSpec.jwt_decode_issued _ _ _ _ _ _ (clock w) Hmac Hsign).
    destruct (Z.leb_spec exp (clock w)); [lia|reflexivity].
  - apply validate_settings_complete.
Qed.

(** X16. [DEBUG] is one switch for three things, and it is on unless the
    environment says otherwise. When the variable [DEBUG] is not set,
    [DEBUG] is on, whatever [ENVIRONMENT] is; when it is set, it is read as
    a boolean: "1", "on", "t", "true", "y" and "yes", in any letter case,
    turn it on, and "0", "off", "f", "false", "n" and "no" turn it off.
    When [DEBUG] is on, the interactive documentation is served at /docs
    and /redoc, the root endpoint points to /docs, and the answer to an
    unhandled exception carries the exception's message; when it is off,
    neither page is served, the root endpoint says so, and every unhandled
    exception gets the same body. In both cases the status is 500. *)
Theorem debug_is_one_switch_and_on_by_default
    (os_environ : string -> option string) (dotenv : list (string * string)) :
  load_settings os_environ dotenv = Ok settings ->
  (forall exc, status_code (snd (general_exception_handler settings exc)) = 500%Z) /\
  (load_dotenv os_environ dotenv "DEBUG" = None -> DEBUG settings = true) /\
  (forall v,
     load_dotenv os_environ dotenv "DEBUG" = Some v ->
     (In (ascii_lower v) ["1"; "on"; "t"; "true"; "y"; "yes"] -> DEBUG settings = true) /\
     (In (ascii_lower v) ["0"; "off"; "f"; "false"; "n"; "no"] ->
      DEBUG settings = false)) /\
  (DEBUG settings = true ->
   docs_url settings = Some "/docs" /\ redoc_url settings = Some "/redoc" /\
   In ("docs", "/docs") (root settings) /\
   forall exc,
     In ("detail", exn_str exc)
        (content (snd (general_exception_handler settings exc)))) /\
  (DEBUG settings = false ->
   docs_url settings = None /\ redoc_url settings = None /\
   In ("docs", "Documentation disabled in production") (root settings) /\
   forall exc,
     content (snd (general_exception_handler settings exc))
     = [("error", "Internal server error"); ("detail", "An error occurred")]).
Proof.
  intros Hload.
  destruct (load_settings_ok os_environ dotenv settings Hload)
    as (_ & _ & _ & Hdebug & _).
  split; [reflexivity|]. split; [|split].
  - intros Hunset. rewrite Hunset in Hdebug. exact Hdebug.
  - intros v Hset. rewrite Hset in Hdebug. unfold settings_bool in Hdebug.
    split.
    + intros Hon.
      assert (E : existsb (String.eqb (ascii_lower v))
                    ["1"; "on"; "t"; "true"; "y"; "yes"] = true).
      { apply existsb_exists. exists (ascii_lower v).
        split; [exact Hon|apply String.eqb_refl]. }
      rewrite E in Hdebug. injection Hdebug as <-. reflexivity.
    + intros Hoff.
      assert (Hnot : existsb (String.eqb (ascii_lower v))
                       ["1"; "on"; "t"; "true"; "y"; "yes"] = false).
      { cbn [In] in Hoff.
        destruct Hoff as [<-|[<-|[<-|[<-|[<-|[<-|[]]]]]]]; reflexivity. }
      assert (E : existsb (String.eqb (ascii_lower v))
                    ["0"; "off"; "f"; "false"; "n"; "no"] = true).
      { apply existsb_exists. exists (ascii_lower v).
        split; [exact Hoff|apply String.eqb_refl]. }
      rewrite Hnot, E in Hdebug. injection Hdebug as <-. reflexivity.
  - unfold docs_url, redoc_url, root, general_exception_handler. split.
    + intros ->. cbn [snd content]. repeat split.
      * right. right. left. reflexivity.
      * intros exc. right. left. reflexivity.
    + intros ->. cbn [snd content]. repeat split.
      right. right. left. reflexivity.
Qed.

(** X26. The two token settings are read from the environment. When
    neither the environment nor the [.env] file sets them,
    [JWT_EXPIRATION_HOURS] is 24 and [JWT_ALGORITHM] is "HS256"; a
    [JWT_EXPIRATION_HOURS] set to a decimal literal is that number of
    hours, and a [JWT_ALGORITHM] that is set is taken as it is, whether or
    not the token library knows an algorithm of that name. *)
Theorem token_settings_come_from_the_environment
    (os_environ : string -> option string) (dotenv : list (string * string)) :
  load_settings os_environ dotenv = Ok settings ->
  (load_dotenv os_environ dotenv "JWT_EXPIRATION_HOURS" = None ->
   JWT_EXPIRATION_HOURS settings = 24%Z) /\
  (forall v n,
     load_dotenv os_environ dotenv "JWT_EXPIRATION_HOURS" = Some v ->
     decimal_literal v = Some n ->
     JWT_EXPIRATION_HOURS settings = n) /\
  (load_dotenv os_environ dotenv "JWT_ALGORITHM" = None ->
   JWT_ALGORITHM settings = "HS256") /\
  (forall v,
     load_dotenv os_environ dotenv "JWT_ALGORITHM" = Some v ->
     JWT_ALGORITHM settings = v).
Proof.
  intros Hload.
  destruct (load_settings_ok os_environ dotenv settings Hload)
    as (_ & Halg & _ & _ & Hhours).
  unfold getenv in Halg.
  split; [|split; [|split]].
  - intros Hunset. rewrite Hunset in Hhours. exact Hhours.
  - intros v n Hset Hn. rewrite Hset in Hhours. unfold settings_int in Hhours.
    rewrite Hn in Hhours. injection Hhours as <-. reflexivity.
  - intros Hunset. rewrite Hunset in Halg. exact Halg.
  - intros v Hset. rewrite Hset in Halg. exact Halg.
Qed.

End WithPlatform.

(** *** The theorems at work on a production deployment *)

Section Witnesses.
Import Demo.
Local Existing Instance demo_platform.
Local Existing Instance production_deployment.

Lemma validated_settings_may_lack_the_service_key_witness :
  validate_settings settings = Ok [] /\
  (exists msg,
     get_supabase_client (demo_world 2000 false)
     = (Raise (ValueError msg), demo_world 2000 false)) /\
  (forall user, http_status 201 (fst (register user (demo_world 2000 false))) = 500%Z) /\
  (forall credentials,
     http_status 200 (fst (login credentials (demo_world 2000 false))) = 500%Z).
Proof.
  apply (validated_settings_may_lack_the_service_key (demo_world 2000 false)).
  - vm_compute. discriminate.
  - vm_compute. discriminate.
  - reflexivity.
  - reflexivity.
Defined.

Lemma unset_secret_falls_back_to_the_default_witness :
  JWT_SECRET settings = "your-secret-key-change-in-prod" /\
  verify_token
    (Signed "HS256" (token_payload "id-7" "mallory@example.com" 90000)
       (String.append "your-secret-key-change-in-prod"
          (String.append "HS256"
             (render (token_payload "id-7" "mallory@example.com" 90000)))))
    (demo_world 2000 false)
  = (Ok (token_payload "id-7" "mallory@example.com" 90000), demo_world 2000 false) /\
  (SUPABASE_URL settings <> "" -> SUPABASE_KEY settings <> "" ->
   validate_settings settings = Ok []).
Proof.
  assert (Hall := unset_secret_falls_back_to_the_default production_environ []
                    (demo_world 2000 false) eq_refl eq_refl).
  destruct Hall as (Hsecret & Haccepts & Hvalid).
  split; [exact Hsecret|]. split; [|exact Hvalid].
  exact (Haccepts "id-7" "mallory@example.com" _ 90000 eq_refl eq_refl eq_refl).
Defined.

Lemma debug_is_one_switch_and_on_by_default_witness :
  ENVIRONMENT settings = "production" /\
  DEBUG settings = true /\
  docs_url settings = Some "/docs" /\
  In ("detail", exn_str APIError)
     (content (snd (general_exception_handler settings APIError))).
Proof.
  assert (Hall := debug_is_one_switch_and_on_by_default debug_one_environ []
                    eq_refl).
  destruct Hall as (_ & _ & Hset & Hon & _).
  assert (Hdebug : DEBUG settings = true).
  { apply (proj1 (Hset "1" eq_refl)). left. reflexivity. }
  destruct (Hon Hdebug) as (Hdocs & _ & _ & Hdetail).
  split; [reflexivity|]. split; [exact Hdebug|]. split; [exact Hdocs|].
  exact (Hdetail APIError).
Defined.

End Witnesses.

(** *** A deployment with [JWT_EXPIRATION_HOURS=1] *)

Section OneHour.
Import Demo.
Local Existing Instance demo_platform.
Local Existing Instance one_hour_deployment.

Lemma token_settings_come_from_the_environment_witness :
  JWT_EXPIRATION_HOURS settings = 1%Z /\ JWT_ALGORITHM settings = "HS256".
Proof.
  assert (Hall := token_settings_come_from_the_environment one_hour_environ []
                    eq_refl).
  destruct Hall as (_ & Hhours & Halg & _).
  split; [exact (Hhours "1" 1%Z eq_refl eq_refl)|exact (Halg eq_refl)].
Defined.

End OneHour.

End StartupLaws.
